(** * Universal data connector: the tool-calling back end

    A shallow embedding of [backend/app]: the normalizers
    ([utils/normalizers.py]), the three tools, the registry and the
    dispatcher ([functions.py]), the model gateway ([llm_client.py]) and the
    chat controller ([main.py]), followed by the properties established
    about them.

    Conventions of the model.
    - Text is ASCII: a Python [str] is a [string] whose characters are below
      128.  Characters above 127 have no case and are neither digits, word
      characters nor white space.
    - A JSON number is either an [int] ([JInt], a [Z]) or a [float]
      ([JFloat]); a float is represented by the rational it denotes, so the
      rounding of float arithmetic, infinities and NaN are outside the model.
    - An exception carries its class and its message when the repository
      wrote it or when the network library reports a failure (the text is
      then the one the world gives); the message of any other exception
      raised by the interpreter or by a library is left unspecified
      ([None]).
    - Everything taken from outside the process (environment variables, the
      clock, the HTTP peers) is a field of the record [World]; the clock
      does not move during one call.  The audit table and the traffic sent
      out are fields of the record [State]; the table accepts every row.
    - Library functions ([re], [datetime], [json]) are modelled on the
      inputs the repository gives them; each model says what it leaves
      out. *)

From Stdlib Require Import ZArith QArith List String Ascii Bool Lia DecimalString.
Import ListNotations.

Set Warnings "-register-all".

Open Scope string_scope.
Open Scope list_scope.
Open Scope Z_scope.

(* ================================================================= *)
(** ** Python text operations (ASCII) *)

Module PyStr.

Definition code (c : ascii) : Z := Z.of_N (N_of_ascii c).

Definition chr (n : Z) : ascii := ascii_of_N (Z.to_N n).

(** [str.isspace]: TAB..CR, FS..US and the space. *)
Definition isspace (c : ascii) : bool :=
  let n := code c in
  ((9 <=? n) && (n <=? 13)) || ((28 <=? n) && (n <=? 32)).

Definition isdigit (c : ascii) : bool :=
  let n := code c in (48 <=? n) && (n <=? 57).

Definition isupper (c : ascii) : bool :=
  let n := code c in (65 <=? n) && (n <=? 90).

Definition islower (c : ascii) : bool :=
  let n := code c in (97 <=? n) && (n <=? 122).

Definition isalpha (c : ascii) : bool := isupper c || islower c.

(** The class [\w] of [re]: letters, digits and the underscore. *)
Definition isword (c : ascii) : bool :=
  isalpha c || isdigit c || (code c =? 95).

Definition toupper (c : ascii) : ascii :=
  if islower c then chr (code c - 32) else c.

Definition tolower (c : ascii) : ascii :=
  if isupper c then chr (code c + 32) else c.

Fixpoint map (f : ascii -> ascii) (s : string) : string :=
  match s with
  | EmptyString => EmptyString
  | String c r => String (f c) (map f r)
  end.

Definition upper (s : string) : string := map toupper s.
Definition lower (s : string) : string := map tolower s.

Fixpoint lstrip (s : string) : string :=
  match s with
  | EmptyString => EmptyString
  | String c r => if isspace c then lstrip r else s
  end.

(** [rstrip] keeps a character when it is not white space or when
    something is kept after it. *)
Fixpoint rstrip (s : string) : string :=
  match s with
  | EmptyString => EmptyString
  | String c r =>
      match rstrip r with
      | EmptyString => if isspace c then EmptyString else String c EmptyString
      | r' => String c r'
      end
  end.

Definition strip (s : string) : string := rstrip (lstrip s).

(** The white space that [int(str)] skips around an ASCII literal: TAB..CR
    and the space. *)
Definition isspace_c (c : ascii) : bool :=
  let n := code c in
  ((9 <=? n) && (n <=? 13)) || (n =? 32).

Fixpoint lstrip_by (f : ascii -> bool) (s : string) : string :=
  match s with
  | EmptyString => EmptyString
  | String c r => if f c then lstrip_by f r else s
  end.

Fixpoint rstrip_by (f : ascii -> bool) (s : string) : string :=
  match s with
  | EmptyString => EmptyString
  | String c r =>
      match rstrip_by f r with
      | EmptyString => if f c then EmptyString else String c EmptyString
      | r' => String c r'
      end
  end.

Definition strip_by (f : ascii -> bool) (s : string) : string :=
  rstrip_by f (lstrip_by f s).

(** [str.title]: a cased character that follows an uncased one is put in
    upper case, one that follows a cased one in lower case. *)
Fixpoint title_from (previous_is_cased : bool) (s : string) : string :=
  match s with
  | EmptyString => EmptyString
  | String c r =>
      if isalpha c
      then String (if previous_is_cased then tolower c else toupper c)
                  (title_from true r)
      else String c (title_from false r)
  end.

Definition title (s : string) : string := title_from false s.

Fixpoint all (p : ascii -> bool) (s : string) : bool :=
  match s with
  | EmptyString => true
  | String c r => p c && all p r
  end.

Fixpoint drop (n : nat) (s : string) : string :=
  match n, s with
  | O, _ => s
  | S k, EmptyString => EmptyString
  | S k, String _ r => drop k r
  end.

Fixpoint take (n : nat) (s : string) : string :=
  match n, s with
  | O, _ => EmptyString
  | S k, EmptyString => EmptyString
  | S k, String c r => String c (take k r)
  end.

(** [startswith_ci p s]: [s] starts with [p], letters compared without
    case ([p] is given in lower case). *)
Fixpoint startswith_ci (p s : string) : bool :=
  match p, s with
  | EmptyString, _ => true
  | String _ _, EmptyString => false
  | String a p', String b s' => Ascii.eqb a (tolower b) && startswith_ci p' s'
  end.

Fixpoint contains (p s : string) : bool :=
  match s with
  | EmptyString => String.eqb p EmptyString
  | String _ r => String.eqb (take (String.length p) s) p || contains p r
  end.

(** Decimal digits. *)
Definition digit_value (c : ascii) : Z := code c - 48.

Fixpoint digits_value_from (acc : Z) (s : string) : Z :=
  match s with
  | EmptyString => acc
  | String c r => digits_value_from (10 * acc + digit_value c) r
  end.

(** [int(s)] for a non-empty string of decimal digits. *)
Definition digits_value (s : string) : Z := digits_value_from 0 s.

Definition digit_char (n : Z) : ascii := chr (48 + n mod 10).

(** ["%02d"] and ["%04d"] for the values a date holds. *)
Definition pad2 (n : Z) : string :=
  String (digit_char (n / 10)) (String (digit_char n) EmptyString).

Definition pad4 (n : Z) : string :=
  String (digit_char (n / 1000))
    (String (digit_char (n / 100))
       (String (digit_char (n / 10)) (String (digit_char n) EmptyString))).

End PyStr.

(* ================================================================= *)
(** ** Exceptions and results *)

Inductive exn_class : Type :=
| ValueError | TypeError | KeyError | AttributeError | IndexError
| ZeroDivisionError | OverflowError
| RequestException   (* requests: transport failure *)
| HTTPError          (* requests: raise_for_status *)
| JSONDecodeError.   (* requests: Response.json on a body that is not JSON *)

Inductive exn : Type :=
| PyExn (c : exn_class) (msg : option string)
| HTTPException (status_code : Z) (detail : option string).

(** [str(e)], where the message is modelled. *)
Definition exn_str (e : exn) : option string :=
  match e with
  | PyExn _ msg => msg
  | HTTPException _ detail => detail
  end.

Inductive result (A : Type) : Type :=
| Return (a : A)
| Raise (e : exn).

Arguments Return {A} a.
Arguments Raise {A} e.

Definition rbind {A B} (r : result A) (k : A -> result B) : result B :=
  match r with
  | Return a => k a
  | Raise e => Raise e
  end.

(** [try: r  except Exception: h]. *)
Definition try_except {A} (r : result A) (h : exn -> result A) : result A :=
  match r with
  | Return a => Return a
  | Raise e => h e
  end.

Notation "x <-- r ;; k" := (rbind r (fun x => k))
  (at level 61, r at next level, right associativity).

(* ================================================================= *)
(** ** Calendar dates ([datetime.date]) *)

Record date : Type := mkdate { year : Z; month : Z; day : Z }.

Definition is_leap (y : Z) : bool :=
  ((y mod 4 =? 0) && negb (y mod 100 =? 0)) || (y mod 400 =? 0).

Definition days_in_month (y m : Z) : Z :=
  if m =? 2 then (if is_leap y then 29 else 28)
  else if (m =? 4) || (m =? 6) || (m =? 9) || (m =? 11) then 30
  else 31.

(** The check made by the constructor [date(y, m, d)]. *)
Definition date_ok (y m d : Z) : bool :=
  (1 <=? y) && (y <=? 9999) && (1 <=? m) && (m <=? 12)
  && (1 <=? d) && (d <=? days_in_month y m).

Definition valid_date (d : date) : Prop :=
  date_ok (year d) (month d) (day d) = true.

(** [datetime(y, m, d)]: [ValueError] outside the calendar. *)
Definition make_date (y m d : Z) : result date :=
  if date_ok y m d then Return (mkdate y m d)
  else Raise (PyExn ValueError None).

Definition date_eqb (a b : date) : bool :=
  (year a =? year b) && (month a =? month b) && (day a =? day b).

(** [d.isoformat()]. *)
Definition isoformat (d : date) : string :=
  (PyStr.pad4 (year d) ++ "-" ++ PyStr.pad2 (month d) ++ "-"
     ++ PyStr.pad2 (day d))%string.

(** [d + timedelta(days=1)]: [OverflowError] past 9999-12-31. *)
Definition add_one_day (d : date) : result date :=
  if day d <? days_in_month (year d) (month d)
  then Return (mkdate (year d) (month d) (day d + 1))
  else if month d <? 12 then Return (mkdate (year d) (month d + 1) 1)
  else if year d <? 9999 then Return (mkdate (year d + 1) 1 1)
  else Raise (PyExn OverflowError None).

(** [datetime.fromisoformat(s).date()], on the date-only form
    [YYYY-MM-DD] (four digits, a dash, two digits, a dash, two digits).
    A string that also carries a time of day is not covered by the model
    and is treated as rejected. *)
Definition fromisoformat (s : string) : result date :=
  let y := PyStr.take 4 s in
  let m := PyStr.take 2 (PyStr.drop 5 s) in
  let d := PyStr.take 2 (PyStr.drop 8 s) in
  if (Nat.eqb (String.length s) 10)
     && PyStr.all PyStr.isdigit y
     && String.eqb (PyStr.take 1 (PyStr.drop 4 s)) "-"
     && PyStr.all PyStr.isdigit m
     && String.eqb (PyStr.take 1 (PyStr.drop 7 s)) "-"
     && PyStr.all PyStr.isdigit d
  then make_date (PyStr.digits_value y) (PyStr.digits_value m) (PyStr.digits_value d)
  else Raise (PyExn ValueError None).

(* ================================================================= *)
(** ** JSON-shaped values and the Python operations applied to them *)

Inductive json : Type :=
| JNull
| JBool (b : bool)
| JInt (z : Z)
| JFloat (q : Q)
| JStr (s : string)
| JArr (l : list json)
| JObj (o : list (string * json)).

(** A [dict] with string keys: an association list without duplicate
    keys, in insertion order. *)
Module Dict.

Section Ops.
Context {V : Type}.

Fixpoint get (k : string) (d : list (string * V)) : option V :=
  match d with
  | [] => None
  | (k', v) :: r => if String.eqb k' k then Some v else get k r
  end.

Definition mem (k : string) (d : list (string * V)) : bool :=
  match get k d with Some _ => true | None => false end.

(** [d[k] = v]: overwrite in place, or append. *)
Fixpoint set (d : list (string * V)) (k : string) (v : V) : list (string * V) :=
  match d with
  | [] => [(k, v)]
  | (k', v') :: r =>
      if String.eqb k' k then (k', v) :: r else (k', v') :: set r k v
  end.

Definition keys (d : list (string * V)) : list string := List.map fst d.

End Ops.

End Dict.

(** Truth value of a Python object. *)
Definition py_truthy (v : json) : bool :=
  match v with
  | JNull => false
  | JBool b => b
  | JInt z => negb (z =? 0)
  | JFloat q => negb (Qnum q =? 0)
  | JStr s => negb (String.eqb s "")
  | JArr l => match l with [] => false | _ => true end
  | JObj o => match o with [] => false | _ => true end
  end.

(** [d.get(k, default)]: only a [dict] has the method. *)
Definition py_get (d : json) (k : string) (default : json) : result json :=
  match d with
  | JObj o => Return (match Dict.get k o with Some v => v | None => default end)
  | _ => Raise (PyExn AttributeError None)
  end.

(** [d[k]] for a string [k]. *)
Definition py_getitem (d : json) (k : string) : result json :=
  match d with
  | JObj o =>
      match Dict.get k o with
      | Some v => Return v
      | None => Raise (PyExn KeyError None)
      end
  | _ => Raise (PyExn TypeError None)
  end.

(** [x[0]]. *)
Definition py_getitem0 (x : json) : result json :=
  match x with
  | JArr (v :: _) => Return v
  | JArr [] => Raise (PyExn IndexError None)
  | JStr (String c _) => Return (JStr (String c ""))
  | JStr EmptyString => Raise (PyExn IndexError None)
  | JObj _ => Raise (PyExn KeyError None)
  | _ => Raise (PyExn TypeError None)
  end.

(** [a or b]. *)
Definition py_or (a b : json) : json := if py_truthy a then a else b.

(** Numbers: [int], [float] and [bool]. *)
Definition py_number (v : json) : option Q :=
  match v with
  | JInt z => Some (inject_Z z)
  | JFloat q => Some q
  | JBool b => Some (inject_Z (if b then 1 else 0))
  | _ => None
  end.

(** [a / b]: true division. *)
Definition py_truediv (a b : json) : result json :=
  match py_number a, py_number b with
  | Some x, Some y =>
      if Qnum y =? 0 then Raise (PyExn ZeroDivisionError None)
      else Return (JFloat (x / y))
  | _, _ => Raise (PyExn TypeError None)
  end.

(* ================================================================= *)
(** ** Regular expressions used by the normalizers

    A pattern is run as the backtracking matcher of [re] runs it: every
    way of matching a prefix, in the order in which the matcher tries
    them; the match of the pattern is the first one. *)

Module Rx.

Definition rx (A : Type) : Type := string -> list (A * string).

Definition ret {A} (a : A) : rx A := fun s => [(a, s)].

Definition bind {A B} (p : rx A) (k : A -> rx B) : rx B :=
  fun s => flat_map (fun '(a, r) => k a r) (p s).

Definition alt {A} (p q : rx A) : rx A := fun s => p s ++ q s.

Definition fail {A} : rx A := fun _ => [].

(** One character satisfying [f]. *)
Definition one (f : ascii -> bool) : rx string :=
  fun s =>
    match s with
    | String c r => if f c then [(String c "", r)] else []
    | EmptyString => []
    end.

(** The number of leading characters of [s] satisfying [f], at most [n]. *)
Fixpoint run (f : ascii -> bool) (n : nat) (s : string) : nat :=
  match n, s with
  | S k, String c r => if f c then S (run f k r) else O
  | _, _ => O
  end.

(** [x{lo,hi}], greedy: the longest repetition first. *)
Definition rep (f : ascii -> bool) (lo hi : nat) : rx string :=
  fun s =>
    let m := run f hi s in
    List.map (fun k => (PyStr.take k s, PyStr.drop k s))
             (List.rev (List.seq lo (S m - lo))).

(** A word given in lower case, matched without regard to case. *)
Definition word_ci {A} (w : string) (a : A) : rx A :=
  fun s =>
    if PyStr.startswith_ci w s then [(a, PyStr.drop (String.length w) s)] else [].

(** End of the subject, as [$] sees it: the end, or a final newline. *)
Definition at_end (s : string) : bool :=
  String.eqb s "" || String.eqb s (String "010"%char "").

Definition first {A} (l : list (A * string)) : option (A * string) :=
  match l with
  | [] => None
  | x :: _ => Some x
  end.

End Rx.

(** [re.match(r"^(\d{1,2})[-/](\d{1,2})[-/](\d{4})$", s)]: the three
    groups. *)
Definition is_dash_or_slash (c : ascii) : bool :=
  Ascii.eqb c "-" || Ascii.eqb c "/".

Definition rx_day_month_year : Rx.rx (string * string * string) :=
  Rx.bind (Rx.rep PyStr.isdigit 1 2) (fun dd =>
  Rx.bind (Rx.one is_dash_or_slash) (fun _ =>
  Rx.bind (Rx.rep PyStr.isdigit 1 2) (fun mm =>
  Rx.bind (Rx.one is_dash_or_slash) (fun _ =>
  Rx.bind (Rx.rep PyStr.isdigit 4 4) (fun yyyy =>
  fun s => if Rx.at_end s then [((dd, mm, yyyy), s)] else []))))).

Definition re_match_day_month_year (s : string)
  : option (string * string * string) :=
  option_map fst (Rx.first (rx_day_month_year s)).

(** [re.sub(r"\bcity\b", "", s, flags=re.IGNORECASE)].  [skip] counts the
    characters of a match still to be dropped; [prev_word] tells whether
    the character before the position is a word character. *)
Definition word_at (s : string) : bool :=
  match s with
  | String c _ => PyStr.isword c
  | EmptyString => false
  end.

Fixpoint re_sub_city_from (skip : nat) (prev_word : bool) (s : string) : string :=
  match s with
  | EmptyString => EmptyString
  | String c r =>
      match skip with
      | S k => re_sub_city_from k (PyStr.isword c) r
      | O =>
          if negb prev_word && PyStr.startswith_ci "city" s
             && negb (word_at (PyStr.drop 4 s))
          then re_sub_city_from 3 (PyStr.isword c) r
          else String c (re_sub_city_from 0 (PyStr.isword c) r)
      end
  end.

Definition re_sub_city (s : string) : string := re_sub_city_from 0 false s.

(* ================================================================= *)
(** ** [datetime.strptime] for the directives the normalizer uses *)

Inductive directive : Type :=
| Dir_d                 (* %d *)
| Dir_b                 (* %b *)
| Dir_B                 (* %B *)
| Dir_Y                 (* %Y *)
| Dir_space             (* a run of white space in the format: \s+ *)
| Dir_lit (c : ascii).  (* any other character, matched without case *)

(** The format string read into directives; a [%] followed by a letter
    the model does not know gives [None]. *)
Fixpoint skip_spaces (s : string) : string :=
  match s with
  | String c r => if PyStr.isspace c then skip_spaces r else s
  | EmptyString => EmptyString
  end.

Fixpoint compile_format (fuel : nat) (fmt : string) : option (list directive) :=
  match fuel with
  | O => match fmt with EmptyString => Some [] | _ => None end
  | S fuel' =>
      match fmt with
      | EmptyString => Some []
      | String "%" (String c r) =>
          let d :=
            if Ascii.eqb c "d" then Some Dir_d
            else if Ascii.eqb c "b" then Some Dir_b
            else if Ascii.eqb c "B" then Some Dir_B
            else if Ascii.eqb c "Y" then Some Dir_Y
            else None in
          match d, compile_format fuel' r with
          | Some d, Some ds => Some (d :: ds)
          | _, _ => None
          end
      | String c r =>
          if PyStr.isspace c
          then option_map (cons Dir_space) (compile_format fuel' (skip_spaces r))
          else option_map (cons (Dir_lit c)) (compile_format fuel' r)
      end
  end.

Record found : Type := mkfound { f_day : Z; f_month : Z; f_year : Z }.

Definition found_default : found := mkfound 1 1 1900.

Definition month_abbr : list (string * Z) :=
  [("jan", 1); ("feb", 2); ("mar", 3); ("apr", 4); ("may", 5); ("jun", 6);
   ("jul", 7); ("aug", 8); ("sep", 9); ("oct", 10); ("nov", 11); ("dec", 12)].

(** The full names, longest first, as the library orders the alternatives. *)
Definition month_full : list (string * Z) :=
  [("september", 9); ("february", 2); ("november", 11); ("december", 12);
   ("january", 1); ("october", 10); ("august", 8); ("march", 3);
   ("april", 4); ("june", 6); ("july", 7); ("may", 5)].

Definition rx_names (names : list (string * Z)) : Rx.rx Z :=
  fun s => flat_map (fun '(w, n) => Rx.word_ci w n s) names.

Definition in_range (lo hi : ascii) (c : ascii) : bool :=
  (PyStr.code lo <=? PyStr.code c) && (PyStr.code c <=? PyStr.code hi).

Definition rx_pair (f g : ascii -> bool) : Rx.rx string :=
  Rx.bind (Rx.one f) (fun a => Rx.bind (Rx.one g) (fun b => Rx.ret (a ++ b)%string)).

(** [3[0-1]|[1-2]\d|0[1-9]|[1-9]| [1-9]]; the value is [int] of the text. *)
Definition rx_d : Rx.rx Z :=
  Rx.bind
    (Rx.alt (rx_pair (Ascii.eqb "3") (in_range "0" "1"))
    (Rx.alt (rx_pair (in_range "1" "2") PyStr.isdigit)
    (Rx.alt (rx_pair (Ascii.eqb "0") (in_range "1" "9"))
    (Rx.alt (Rx.one (in_range "1" "9"))
            (rx_pair (Ascii.eqb " ") (in_range "1" "9"))))))
    (fun t => Rx.ret (PyStr.digits_value (PyStr.lstrip t))).

Definition rx_directive (d : directive) (acc : found) : Rx.rx found :=
  match d with
  | Dir_d => Rx.bind rx_d (fun v => Rx.ret (mkfound v (f_month acc) (f_year acc)))
  | Dir_b => Rx.bind (rx_names month_abbr)
               (fun v => Rx.ret (mkfound (f_day acc) v (f_year acc)))
  | Dir_B => Rx.bind (rx_names month_full)
               (fun v => Rx.ret (mkfound (f_day acc) v (f_year acc)))
  | Dir_Y => Rx.bind (Rx.rep PyStr.isdigit 4 4)
               (fun t => Rx.ret (mkfound (f_day acc) (f_month acc) (PyStr.digits_value t)))
  | Dir_space =>
      fun s => Rx.bind (Rx.rep PyStr.isspace 1 (String.length s)) (fun _ => Rx.ret acc) s
  | Dir_lit c =>
      Rx.bind (Rx.one (fun x => Ascii.eqb (PyStr.tolower x) (PyStr.tolower c)))
              (fun _ => Rx.ret acc)
  end.

Fixpoint rx_format (ds : list directive) (acc : found) : Rx.rx found :=
  match ds with
  | [] => Rx.ret acc
  | d :: ds' => Rx.bind (rx_directive d acc) (rx_format ds')
  end.

(** [datetime.strptime(data_string, fmt).date()]: the first match of the
    pattern of [fmt]; it must use up the whole string and name a date of
    the calendar. *)
Definition strptime (data_string fmt : string) : result date :=
  match compile_format (String.length fmt) fmt with
  | None => Raise (PyExn ValueError None)
  | Some ds =>
      match Rx.first (rx_format ds found_default data_string) with
      | None => Raise (PyExn ValueError None)
      | Some (f, rest) =>
          if String.eqb rest ""
          then make_date (f_year f) (f_month f) (f_day f)
          else Raise (PyExn ValueError None)
      end
  end.

(* ================================================================= *)
(** ** Normalizers ([utils/normalizers.py]) *)

Definition formats : list string :=
  ["%d %b %Y";   (* 19 Feb 2026 *)
   "%d %B %Y";   (* 19 February 2026 *)
   "%b %d %Y";   (* Feb 19 2026 *)
   "%B %d %Y"].  (* February 19 2026 *)

(** The loop over [formats]: the first format that parses wins, any
    exception moves on to the next one. *)
Fixpoint try_formats (data_string : string) (fmts : list string) : result string :=
  match fmts with
  | [] =>
      Raise (PyExn ValueError
               (Some "Invalid date format. Use YYYY-MM-DD or today/tomorrow."))
  | fmt :: rest =>
      match strptime data_string fmt with
      | Return dt => Return (isoformat dt)
      | Raise _ => try_formats data_string rest
      end
  end.

(** [normalize_date(date_str)]; [today] is [datetime.now().date()]. *)
Definition normalize_date (today : date) (date_str : json) : result string :=
  if negb (py_truthy date_str)
  then Raise (PyExn ValueError (Some "Date cannot be empty."))
  else
    match date_str with
    | JStr ds =>
        let s := PyStr.lower (PyStr.strip ds) in
        if String.eqb s "today" then Return (isoformat today)
        else if String.eqb s "tomorrow" then
          d <-- add_one_day today ;; Return (isoformat d)
        else
          match fromisoformat ds with
          | Return d => Return (isoformat d)
          | Raise _ =>
              match re_match_day_month_year s with
              | Some (dd, mm, yyyy) =>
                  dt <-- make_date (PyStr.digits_value yyyy) (PyStr.digits_value mm)
                                   (PyStr.digits_value dd) ;;
                  Return (isoformat dt)
              | None => try_formats (PyStr.strip ds) formats
              end
          end
    | _ => Raise (PyExn AttributeError None)   (* no method strip *)
    end.

(** [normalize_city(city)]. *)
Definition normalize_city (city : json) : result string :=
  if negb (py_truthy city)
  then Raise (PyExn ValueError (Some "City cannot be empty."))
  else
    match city with
    | JStr c =>
        let s := PyStr.strip c in
        let s := PyStr.strip (re_sub_city s) in
        Return (PyStr.title s)
    | _ => Raise (PyExn AttributeError None)
    end.

(** [normalize_currency(code)]. *)
Definition normalize_currency (code : json) : result string :=
  if negb (py_truthy code)
  then Raise (PyExn ValueError (Some "Currency cannot be empty."))
  else
    match code with
    | JStr c => Return (PyStr.upper (PyStr.strip c))
    | _ => Raise (PyExn AttributeError None)
    end.

(** [str(v)] for the values whose rendering the model covers. *)
Definition py_str (v : json) : option string :=
  match v with
  | JStr s => Some s
  | JNull => Some "None"
  | JBool b => Some (if b then "True" else "False")
  | JInt z => Some (NilZero.string_of_int (Z.to_int z))
  | _ => None
  end.

(** The text of an integer literal accepted by [int(str)]: digits, with
    single underscores allowed between them. *)
Fixpoint int_body_ok (prev_digit : bool) (s : string) : bool :=
  match s with
  | EmptyString => prev_digit
  | String c r =>
      if PyStr.isdigit c then int_body_ok true r
      else if Ascii.eqb c "_" then prev_digit && int_body_ok false r
      else false
  end.

Fixpoint int_body_value (acc : Z) (s : string) : Z :=
  match s with
  | EmptyString => acc
  | String c r =>
      if PyStr.isdigit c then int_body_value (10 * acc + PyStr.digit_value c) r
      else int_body_value acc r
  end.

(** [int(v)]. *)
Definition py_int (v : json) : result Z :=
  match v with
  | JInt z => Return z
  | JBool b => Return (if b then 1 else 0)
  | JFloat q => Return (Z.quot (Qnum q) (Z.pos (Qden q)))
  | JStr s =>
      let t := PyStr.strip_by PyStr.isspace_c s in
      let '(sign, body) :=
        match t with
        | String "-" r => (-1, r)
        | String "+" r => (1, r)
        | _ => (1, t)
        end in
      if int_body_ok false body then Return (sign * int_body_value 0 body)
      else Raise (PyExn ValueError None)
  | _ => Raise (PyExn TypeError None)
  end.

(** [for x in v]: the items the loop visits. *)
Fixpoint chars (s : string) : list json :=
  match s with
  | EmptyString => []
  | String c r => JStr (String c "") :: chars r
  end.

Definition py_iter (v : json) : result (list json) :=
  match v with
  | JArr l => Return l
  | JObj o => Return (List.map JStr (Dict.keys o))
  | JStr s => Return (chars s)
  | _ => Raise (PyExn TypeError None)
  end.

(** [v[:n]] for [n >= 0]. *)
Definition py_slice_to (v : json) (n : Z) : result json :=
  match v with
  | JArr l => Return (JArr (firstn (Z.to_nat n) l))
  | JStr s => Return (JStr (PyStr.take (Z.to_nat n) s))
  | _ => Raise (PyExn TypeError None)
  end.

(* ================================================================= *)
(** ** The world outside and the effects of the process *)

Inductive http_body : Type :=
| BodyJson (v : json)            (* [r.json()] returns [v] *)
| BodyInvalid (msg : string).    (* [r.json()] raises, with this message *)

Record http_response : Type := mkresp { status : Z; body : http_body }.

Inductive http_outcome : Type :=
| HttpFail (msg : string)        (* the call raises (no connection, timeout) *)
| HttpOk (r : http_response).

(** A string assembled with [json.dumps]: the serialisation is kept as
    the value serialised. *)
Inductive piece : Type :=
| Lit (s : string)
| Dumps (v : json)               (* json.dumps(v) *)
| DumpsIndent2 (v : json).       (* json.dumps(v, indent=2) *)

Definition text : Type := list piece.

(** A chat message: [{"role", "content", "function_call"?, "name"?}]. *)
Record Message : Type := mkmsg {
  role : string;
  content : option text;
  function_call : option json;
  name : option json
}.

Record chat_payload : Type := mkpayload {
  model : string;
  messages : list Message;
  stream : bool;
  temperature : Z
}.

Record World : Type := mkworld {
  getenv : string -> option string;                    (* os.getenv *)
  today : date;                                        (* datetime.now().date() *)
  utcnow : string;               (* datetime.now(timezone.utc).isoformat() *)
  requests_get : string -> list (string * json) -> http_outcome;
  requests_post : string -> chat_payload -> http_outcome
}.

(** A row of the table [function_calls]; the two JSON columns are kept
    as the values that [json.dumps] serialises. *)
Record AuditRecord : Type := mkaudit {
  ts_utc : string;
  function_name : string;
  arguments_json : json;
  result_json : json
}.

Record State : Type := mkstate {
  function_calls : list AuditRecord;              (* the audit table *)
  sent_get : list (string * list (string * json));  (* GET requests issued *)
  sent_post : list chat_payload                   (* model calls issued *)
}.

Definition M (A : Type) : Type := State -> result A * State.

Definition ret {A} (a : A) : M A := fun s => (Return a, s).

Definition raise {A} (e : exn) : M A := fun s => (Raise e, s).

Definition lift {A} (r : result A) : M A := fun s => (r, s).

Definition bind {A B} (m : M A) (k : A -> M B) : M B :=
  fun s =>
    match m s with
    | (Return a, s') => k a s'
    | (Raise e, s') => (Raise e, s')
    end.

(** [try: m  except Exception as e: h e]. *)
Definition try_catch {A} (m : M A) (h : exn -> M A) : M A :=
  fun s =>
    match m s with
    | (Return a, s') => (Return a, s')
    | (Raise e, s') => h e s'
    end.

Notation "x <- m ;; k" := (bind m (fun x => k))
  (at level 61, m at next level, right associativity).
Notation "m ;;; k" := (bind m (fun _ => k))
  (at level 61, right associativity).

(** [requests.get(url, params=params, timeout=...)]. *)
Definition http_get (w : World) (url : string) (params : list (string * json))
  : M http_response :=
  fun s =>
    let s' := mkstate (function_calls s) (sent_get s ++ [(url, params)]) (sent_post s) in
    match requests_get w url params with
    | HttpFail msg => (Raise (PyExn RequestException (Some msg)), s')
    | HttpOk r => (Return r, s')
    end.

(** [requests.post(url, json=payload, timeout=...)]. *)
Definition http_post (w : World) (url : string) (p : chat_payload)
  : M http_response :=
  fun s =>
    let s' := mkstate (function_calls s) (sent_get s) (sent_post s ++ [p]) in
    match requests_post w url p with
    | HttpFail msg => (Raise (PyExn RequestException (Some msg)), s')
    | HttpOk r => (Return r, s')
    end.

(** [r.json()]. *)
Definition response_json (r : http_response) : result json :=
  match body r with
  | BodyJson v => Return v
  | BodyInvalid msg => Raise (PyExn JSONDecodeError (Some msg))
  end.

(** [r.raise_for_status()]. *)
Definition raise_for_status (r : http_response) : result unit :=
  if (400 <=? status r) && (status r <? 600)
  then Raise (PyExn HTTPError None)
  else Return tt.

(** [os.getenv(k)] tested with [if not api_key]. *)
Definition getenv_key (w : World) (k : string) : option string :=
  match getenv w k with
  | Some v => if String.eqb v "" then None else Some v
  | None => None
  end.

(* ================================================================= *)
(** ** The audit log ([functions.py]) *)

(** [init_db()]: creates the table when it is missing; the table is
    always there in the model. *)
Definition init_db : M unit := ret tt.

(** [log_call(function_name, arguments, result)]: one row appended. *)
Definition log_call (w : World) (function_name : string)
  (arguments : list (string * json)) (result : json) : M unit :=
  fun s =>
    (Return tt,
     mkstate (function_calls s
                ++ [mkaudit (utcnow w) function_name (JObj arguments) result])
             (sent_get s) (sent_post s)).

(** [_safe_get(d, *keys, default=None)]. *)
Fixpoint _safe_get (d : json) (keys : list string) (default : json) : result json :=
  match keys with
  | [] => Return (match d with JNull => default | _ => d end)
  | k :: ks =>
      match d with
      | JNull => Return default
      | _ => d' <-- py_get d k JNull ;; _safe_get d' ks default
      end
  end.

(* ================================================================= *)
(** ** Tool 1: weather for a particular date ([functions.py]) *)

(** [_geocode_city(city)]: the coordinates record, or [None]. *)
Definition _geocode_city (w : World) (city : string) : M (option json) :=
  match getenv_key w "OPENWEATHER_API_KEY" with
  | None => ret None
  | Some api_key =>
      r <- http_get w "http://api.openweathermap.org/geo/1.0/direct"
             [("q", JStr city); ("limit", JInt 1); ("appid", JStr api_key)] ;;
      if negb (status r =? 200) then ret None
      else
        arr <- lift (response_json r) ;;
        if negb (py_truthy arr) then ret None
        else
          lift (a0 <-- py_getitem0 arr ;;
                lat <-- py_getitem a0 "lat" ;;
                lon <-- py_getitem a0 "lon" ;;
                nm <-- py_get a0 "name" JNull ;;
                country <-- py_get a0 "country" JNull ;;
                Return (Some (JObj [("lat", lat); ("lon", lon);
                                    ("name", nm); ("country", country)])))
  end.

(** [str(e)] inside an f-string; an unspecified message is rendered as
    the empty string. *)
Definition fmt_exn (e : exn) : string :=
  match exn_str e with Some m => m | None => "" end.

(** Days since 1970-01-01 to a calendar date (proleptic Gregorian). *)
Definition civil_from_days (z0 : Z) : Z * Z * Z :=
  let z := z0 + 719468 in
  let era := z / 146097 in
  let doe := z - era * 146097 in
  let yoe := (doe - doe / 1460 + doe / 36524 - doe / 146096) / 365 in
  let y := yoe + era * 400 in
  let doy := doe - (365 * yoe + yoe / 4 - yoe / 100) in
  let mp := (5 * doy + 2) / 153 in
  let d := doy - (153 * mp + 2) / 5 + 1 in
  let m := if mp <? 10 then mp + 3 else mp - 9 in
  ((if m <=? 2 then y + 1 else y), m, d).

Definition date_of_days (n : Z) : result date :=
  let '(y, m, d) := civil_from_days n in
  if (1 <=? y) && (y <=? 9999) then Return (mkdate y m d)
  else Raise (PyExn ValueError None).

(** [a / b] rounded to the nearest integer, ties to even ([b > 0]). *)
Definition round_half_even (a b : Z) : Z :=
  let q := a / b in
  let r := a - q * b in
  if 2 * r <? b then q
  else if b <? 2 * r then q + 1
  else if Z.even q then q else q + 1.

(** [datetime.fromtimestamp(ts, tz=timezone.utc).date()]: a float is
    rounded to the microsecond first. *)
Definition utc_date_of_timestamp (ts : json) : result date :=
  match ts with
  | JInt z => date_of_days (z / 86400)
  | JBool b => date_of_days 0
  | JFloat q =>
      let den := Z.pos (Qden q) in
      let t := Z.quot (Qnum q) den in
      let us := round_half_even ((Qnum q - t * den) * 1000000) den in
      date_of_days ((t * 1000000 + us) / 86400000000)
  | _ => Raise (PyExn TypeError None)
  end.

(** The loop that buckets the forecast entries by UTC date. *)
Fixpoint group_entries (entries : list json) (grouped : list (string * list json))
  : result (list (string * list json)) :=
  match entries with
  | [] => Return grouped
  | e :: rest =>
      ts <-- py_get e "dt" JNull ;;
      match ts with
      | JNull => group_entries rest grouped
      | _ =>
          dts <-- utc_date_of_timestamp ts ;;
          let k := isoformat dts in
          let bucket := match Dict.get k grouped with Some l => l | None => [] end in
          group_entries rest (Dict.set grouped k (bucket ++ [e]))
      end
  end.

(** [[_safe_get(e, "main", k) for e in day_entries
      if _safe_get(e, "main", k) is not None]]. *)
Fixpoint main_values (day_entries : list json) (k : string) : result (list json) :=
  match day_entries with
  | [] => Return []
  | e :: rest =>
      v <-- _safe_get e ["main"; k] JNull ;;
      vs <-- main_values rest k ;;
      Return (match v with JNull => vs | _ => v :: vs end)
  end.

(** The items read as numbers.  When one of them is not a number,
    [min], [max] or, at the latest, [sum] raises [TypeError]. *)
Fixpoint numbers (l : list json) : result (list Q) :=
  match l with
  | [] => Return []
  | v :: r =>
      match py_number v with
      | Some q => qs <-- numbers r ;; Return (q :: qs)
      | None => Raise (PyExn TypeError None)
      end
  end.

Definition num_of (v : json) : Q :=
  match py_number v with Some q => q | None => 0%Q end.

(** [min(l)] and [max(l)] for numbers: the first of the least, resp. of
    the greatest. *)
Fixpoint py_min_from (best : json) (l : list json) : json :=
  match l with
  | [] => best
  | v :: r =>
      if negb (Qle_bool (num_of best) (num_of v)) then py_min_from v r
      else py_min_from best r
  end.

Fixpoint py_max_from (best : json) (l : list json) : json :=
  match l with
  | [] => best
  | v :: r =>
      if negb (Qle_bool (num_of v) (num_of best)) then py_max_from v r
      else py_max_from best r
  end.

Definition Qsum (l : list Q) : Q := fold_left Qplus l 0%Q.

(** [sum(l) / len(l) if l else None]. *)
Definition py_avg (l : list json) : result json :=
  match l with
  | [] => Return JNull
  | _ =>
      qs <-- numbers l ;;
      Return (JFloat (Qsum qs / inject_Z (Z.of_nat (List.length l))))
  end.

(** [min(l) if l else None], [max(l) if l else None]. *)
Definition py_min_or_none (l : list json) : result json :=
  match l with
  | [] => Return JNull
  | v :: r => _qs <-- numbers l ;; Return (py_min_from v r)
  end.

Definition py_max_or_none (l : list json) : result json :=
  match l with
  | [] => Return JNull
  | v :: r => _qs <-- numbers l ;; Return (py_max_from v r)
  end.

(** [descs]: the lower-cased description of each entry. *)
Fixpoint descriptions (day_entries : list json) : result (list string) :=
  match day_entries with
  | [] => Return []
  | e :: rest =>
      wth <-- py_get e "weather" JNull ;;
      w0 <-- py_getitem0 (py_or wth (JArr [JObj []])) ;;
      d <-- _safe_get w0 ["description"] JNull ;;
      match py_or d (JStr "") with
      | JStr t =>
          ds <-- descriptions rest ;; Return (PyStr.lower t :: ds)
      | _ => Raise (PyExn AttributeError None)   (* no method lower *)
      end
  end.

(** [Counter(l)]: the counts, in order of first occurrence. *)
Fixpoint counter (l : list string) (acc : list (string * Z)) : list (string * Z) :=
  match l with
  | [] => acc
  | x :: r =>
      counter r (Dict.set acc x
                   (1 + match Dict.get x acc with Some n => n | None => 0 end))
  end.

(** [most_common(1)]: the first item with the greatest count. *)
Fixpoint most_common_from (best : string * Z) (l : list (string * Z)) : string * Z :=
  match l with
  | [] => best
  | x :: r => if snd best <? snd x then most_common_from x r else most_common_from best r
  end.

Definition most_common1 (c : list (string * Z)) : list (string * Z) :=
  match c with
  | [] => []
  | x :: r => [most_common_from x r]
  end.

Definition nonempty (s : string) : bool := negb (String.eqb s "").

(** The entries of the current-weather answer. *)
Definition current_result (date : string) (geo d : json) : result json :=
  nm <-- py_get geo "name" JNull ;;
  country <-- py_get geo "country" JNull ;;
  temperature <-- _safe_get d ["main"; "temp"] JNull ;;
  feels_like <-- _safe_get d ["main"; "feels_like"] JNull ;;
  humidity <-- _safe_get d ["main"; "humidity"] JNull ;;
  wth <-- _safe_get d ["weather"] JNull ;;
  w0 <-- py_getitem0 (py_or wth (JArr [JObj []])) ;;
  condition <-- _safe_get w0 ["description"] JNull ;;
  wind <-- _safe_get d ["wind"; "speed"] JNull ;;
  Return (JObj [("date", JStr date); ("city", nm); ("country", country);
                ("type", JStr "current"); ("temperature_c", temperature);
                ("feels_like_c", feels_like); ("humidity", humidity);
                ("condition", condition); ("wind_mps", wind)]).

(** The summary of the forecast entries of the requested day. *)
Definition forecast_result (date : string) (geo : json) (day_entries : list json)
  : result json :=
  temps <-- main_values day_entries "temp" ;;
  feels <-- main_values day_entries "feels_like" ;;
  humid <-- main_values day_entries "humidity" ;;
  descs <-- descriptions day_entries ;;
  let most_common_desc := most_common1 (counter (List.filter nonempty descs) []) in
  let cond := match most_common_desc with
              | (d, _) :: _ => JStr d
              | [] => JNull
              end in
  nm <-- py_get geo "name" JNull ;;
  country <-- py_get geo "country" JNull ;;
  temp_min <-- py_min_or_none temps ;;
  temp_max <-- py_max_or_none temps ;;
  temp_avg <-- py_avg temps ;;
  feels_avg <-- py_avg feels ;;
  humid_avg <-- py_avg humid ;;
  Return (JObj [("date", JStr date); ("city", nm); ("country", country);
                ("type", JStr "forecast"); ("temp_min_c", temp_min);
                ("temp_max_c", temp_max); ("temp_avg_c", temp_avg);
                ("feels_like_avg_c", feels_avg); ("humidity_avg", humid_avg);
                ("condition", cond);
                ("note", JStr "Forecast derived from OpenWeatherMap 5-day/3-hour forecasts. For exact historical data use a paid historical API.")]).

(** [get_weather_for_date(city, date)]. *)
Definition get_weather_for_date (w : World) (city date : json) : M json :=
  city <- lift (normalize_city city) ;;
  date <- lift (normalize_date (today w) date) ;;
  let logged := [("city", JStr city); ("date", JStr date)] in
  init_db ;;;
  match getenv_key w "OPENWEATHER_API_KEY" with
  | None =>
      let result := JObj [("error", JStr "Missing OPENWEATHER_API_KEY in environment")] in
      log_call w "get_weather_for_date" logged result ;;;
      ret result
  | Some api_key =>
      match fromisoformat date with
      | Raise e =>
          let result :=
            JObj [("error",
                   JStr ("Invalid date format. Use YYYY-MM-DD. (" ++ fmt_exn e ++ ")")%string)] in
          log_call w "get_weather_for_date" logged result ;;;
          ret result
      | Return target =>
          geo <- _geocode_city w city ;;
          match geo with
          | None =>
              let result :=
                JObj [("error",
                       JStr ("Could not geocode city '" ++ city
                             ++ "' (check spelling) or missing API key.")%string)] in
              log_call w "get_weather_for_date" logged result ;;;
              ret result
          | Some geo =>
              lat <- lift (py_getitem geo "lat") ;;
              lon <- lift (py_getitem geo "lon") ;;
              let params := [("lat", lat); ("lon", lon); ("appid", JStr api_key);
                             ("units", JStr "metric")] in
              if date_eqb target (today w) then
                r <- http_get w "https://api.openweathermap.org/data/2.5/weather" params ;;
                if negb (status r =? 200) then
                  err <- lift (response_json r) ;;
                  let result := JObj [("error", err)] in
                  log_call w "get_weather_for_date" logged result ;;;
                  ret result
                else
                  d <- lift (response_json r) ;;
                  result <- lift (current_result date geo d) ;;
                  log_call w "get_weather_for_date" logged result ;;;
                  ret result
              else
                r <- http_get w "https://api.openweathermap.org/data/2.5/forecast" params ;;
                if negb (status r =? 200) then
                  err <- lift (response_json r) ;;
                  let result := JObj [("error", err)] in
                  log_call w "get_weather_for_date" logged result ;;;
                  ret result
                else
                  data <- lift (response_json r) ;;
                  entries <- lift (es <-- py_get data "list" (JArr []) ;; py_iter es) ;;
                  grouped <- lift (group_entries entries []) ;;
                  let target_iso := isoformat target in
                  match Dict.get target_iso grouped with
                  | None =>
                      let result :=
                        JObj [("error", JStr "Requested date is outside the available forecast window (OpenWeatherMap 5-day forecast).")] in
                      log_call w "get_weather_for_date" logged result ;;;
                      ret result
                  | Some day_entries =>
                      result <- lift (forecast_result date geo day_entries) ;;
                      log_call w "get_weather_for_date" logged result ;;;
                      ret result
                  end
          end
      end
  end.

(* ================================================================= *)
(** ** Tool 2: news for a city *)

(** [max(1, min(int(page_size), 20))]. *)
Definition clamp_page_size (n : Z) : Z := Z.max 1 (Z.min n 20).

(** The loop that builds [articles]. *)
Fixpoint build_articles (items : list json) : result (list json) :=
  match items with
  | [] => Return []
  | a :: rest =>
      title <-- py_get a "title" JNull ;;
      source <-- py_get a "source" JNull ;;
      source_name <-- py_get (py_or source (JObj [])) "name" JNull ;;
      publishedAt <-- py_get a "publishedAt" JNull ;;
      url <-- py_get a "url" JNull ;;
      description <-- py_get a "description" JNull ;;
      articles <-- build_articles rest ;;
      Return (JObj [("title", title); ("source", source_name);
                    ("publishedAt", publishedAt); ("url", url);
                    ("description", description)] :: articles)
  end.

(** [get_news_for_city(city, page_size=5)]. *)
Definition get_news_for_city (w : World) (city page_size : json) : M json :=
  city <- lift (normalize_city city) ;;
  let logged := [("city", JStr city); ("page_size", page_size)] in
  init_db ;;;
  match getenv_key w "NEWSAPI_KEY" with
  | None =>
      let result := JObj [("error", JStr "Missing NEWSAPI_KEY in environment")] in
      log_call w "get_news_for_city" logged result ;;;
      ret result
  | Some api_key =>
      n <- lift (py_int page_size) ;;
      let pageSize := clamp_page_size n in
      let params := [("q", JStr city); ("pageSize", JInt pageSize);
                     ("sortBy", JStr "publishedAt"); ("language", JStr "en");
                     ("apiKey", JStr api_key)] in
      r <- http_get w "https://newsapi.org/v2/everything" params ;;
      if negb (status r =? 200) then
        err <- lift (response_json r) ;;
        let result := JObj [("error", err)] in
        log_call w "get_news_for_city" logged result ;;;
        ret result
      else
        data <- lift (response_json r) ;;
        articles <- lift (all <-- py_get data "articles" (JArr []) ;;
                          page <-- py_slice_to all pageSize ;;
                          items <-- py_iter page ;;
                          build_articles items) ;;
        let result := JObj [("city", JStr city);
                            ("count", JInt (Z.of_nat (List.length articles)));
                            ("articles", JArr articles)] in
        log_call w "get_news_for_city" logged result ;;;
        ret result
  end.

(* ================================================================= *)
(** ** Tool 3: currency conversion *)

(** [convert_currency(amount, base, target)]. *)
Definition convert_currency (w : World) (amount base target : json) : M json :=
  base <- lift (normalize_currency base) ;;
  target <- lift (normalize_currency target) ;;
  let params := [("amount", amount); ("from", JStr (PyStr.upper base));
                 ("to", JStr (PyStr.upper target))] in
  fetched <- try_catch
    (r <- http_get w "https://api.frankfurter.app/latest" params ;;
     data <- lift (response_json r) ;;
     ret (inr (r, data)))
    (fun e =>
       ret (inl (JObj [("error",
                        JStr ("Currency request failed: " ++ fmt_exn e)%string)]))) ;;
  match fetched with
  | inl result => ret result
  | inr (r, data) =>
      if negb (status r =? 200) then ret (JObj [("error", data)])
      else
        converted <- lift (rates <-- py_getitem data "rates" ;;
                           py_getitem rates (PyStr.upper target)) ;;
        rate <- lift (if py_truthy amount then py_truediv converted amount
                      else Return JNull) ;;
        ret (JObj [("amount", amount); ("base", JStr (PyStr.upper base));
                   ("target", JStr (PyStr.upper target));
                   ("converted", converted); ("rate", rate)])
  end.

(* ================================================================= *)
(** ** The registry and the dispatcher *)

Record ToolMeta : Type := mkmeta {
  callable : World -> list (string * json) -> M json;
  description : string;
  parameters : json
}.

(** Binding of keyword arguments to the parameters of a callable: each
    parameter comes with its default, if it has one.  A keyword that names
    no parameter, or a parameter left without a value, is a [TypeError]. *)
Fixpoint bind_params (params : list (string * option json))
  (kwargs : list (string * json)) : result (list json) :=
  match params with
  | [] => Return []
  | (p, default) :: rest =>
      match Dict.get p kwargs, default with
      | Some v, _ | None, Some v => vs <-- bind_params rest kwargs ;; Return (v :: vs)
      | None, None => Raise (PyExn TypeError None)
      end
  end.

Definition py_call (params : list (string * option json))
  (kwargs : list (string * json)) : result (list json) :=
  if forallb (fun k => Dict.mem k params) (Dict.keys kwargs)
  then bind_params params kwargs
  else Raise (PyExn TypeError None).

Definition call_get_weather_for_date (w : World) (kwargs : list (string * json))
  : M json :=
  args <- lift (py_call [("city", None); ("date", None)] kwargs) ;;
  match args with
  | [city; date] => get_weather_for_date w city date
  | _ => raise (PyExn TypeError None)
  end.

Definition call_get_news_for_city (w : World) (kwargs : list (string * json))
  : M json :=
  args <- lift (py_call [("city", None); ("page_size", Some (JInt 5))] kwargs) ;;
  match args with
  | [city; page_size] => get_news_for_city w city page_size
  | _ => raise (PyExn TypeError None)
  end.

Definition call_convert_currency (w : World) (kwargs : list (string * json))
  : M json :=
  args <- lift (py_call [("amount", None); ("base", None); ("target", None)] kwargs) ;;
  match args with
  | [amount; base; target] => convert_currency w amount base target
  | _ => raise (PyExn TypeError None)
  end.

Definition FUNCTION_REGISTRY : list (string * ToolMeta) :=
  [("get_weather_for_date",
    mkmeta call_get_weather_for_date
      "Get weather for a city on a particular date (YYYY-MM-DD). Uses OpenWeatherMap current/forecast endpoints."
      (JObj [("type", JStr "object");
             ("properties",
              JObj [("city", JObj [("type", JStr "string")]);
                    ("date", JObj [("type", JStr "string");
                                   ("description", JStr "YYYY-MM-DD")])]);
             ("required", JArr [JStr "city"; JStr "date"])]));
   ("get_news_for_city",
    mkmeta call_get_news_for_city
      "Get recent news articles mentioning a city"
      (JObj [("type", JStr "object");
             ("properties",
              JObj [("city", JObj [("type", JStr "string")]);
                    ("page_size", JObj [("type", JStr "integer");
                                        ("minimum", JInt 1);
                                        ("maximum", JInt 20)])]);
             ("required", JArr [JStr "city"])]));
   ("convert_currency",
    mkmeta call_convert_currency
      "Convert amount from base currency to target currency using exchangerate.host"
      (JObj [("type", JStr "object");
             ("properties",
              JObj [("amount", JObj [("type", JStr "number")]);
                    ("base", JObj [("type", JStr "string")]);
                    ("target", JObj [("type", JStr "string")])]);
             ("required", JArr [JStr "amount"; JStr "base"; JStr "target"])]))].

(** [get_model_functions()]. *)
Definition get_model_functions : list json :=
  List.map (fun '(name, meta) =>
              JObj [("name", JStr name);
                    ("description", JStr (description meta));
                    ("parameters", parameters meta)])
           FUNCTION_REGISTRY.

(** The keys of the parameter schema of a registered tool:
    [FUNCTION_REGISTRY[name]["parameters"]["properties"].keys()]. *)
Definition schema_keys (meta : ToolMeta) : result (list string) :=
  props <-- py_getitem (parameters meta) "properties" ;;
  match props with
  | JObj o => Return (Dict.keys o)
  | _ => Raise (PyExn AttributeError None)
  end.

(** The sanitization loop: the schema keys that [arguments] has, with
    the values [arguments] gives them. *)
Fixpoint clean_args (keys : list string) (arguments cleaned_args : list (string * json))
  : list (string * json) :=
  match keys with
  | [] => cleaned_args
  | k :: rest =>
      match Dict.get k arguments with
      | Some v => clean_args rest arguments (Dict.set cleaned_args k v)
      | None => clean_args rest arguments cleaned_args
      end
  end.

(** [name in FUNCTION_REGISTRY], then [FUNCTION_REGISTRY[name]]: a name
    that is a list or an object cannot be hashed; any other name that is not
    a string is the key of no entry. *)
Definition registry_lookup (name : json) : result (option ToolMeta) :=
  match name with
  | JStr n => Return (Dict.get n FUNCTION_REGISTRY)
  | JArr _ | JObj _ => Raise (PyExn TypeError None)
  | _ => Return None
  end.

(** [call_function_by_name(name, arguments)].  With [arguments] that is
    not an object the call ends in a [TypeError], raised by the membership
    test, by the subscript or by the call with missing arguments. *)
Definition call_function_by_name (w : World) (name arguments : json) : M json :=
  found <- lift (registry_lookup name) ;;
  match found with
  | None =>
      raise (PyExn ValueError
               (option_map (fun n => ("Unknown function: " ++ n)%string)
                           (py_str name)))
  | Some meta =>
      let fn := callable meta in
      (* Basic args sanitization: ensure only expected keys passed *)
      keys <- lift (schema_keys meta) ;;
      match arguments with
      | JObj args =>
          let cleaned_args := clean_args keys args [] in
          try_catch (fn w cleaned_args) raise
      | _ => raise (PyExn TypeError None)
      end
  end.

(* ================================================================= *)
(** ** [json.loads] on ASCII text

    The grammar of the decoder of the standard library: values separated
    by spaces, tabs, line feeds and carriage returns; numbers made of an
    optional minus sign, an integer part without leading zero, an optional
    fraction and an optional exponent; strings without raw control
    characters; a repeated key keeping its last value.  The
    literals [NaN] and [Infinity] and the escapes [\uXXXX] above 127 have
    no counterpart in the model and are rejected. *)

Module Json.

Definition is_ws (c : ascii) : bool :=
  Ascii.eqb c " " || Ascii.eqb c "009" || Ascii.eqb c "010" || Ascii.eqb c "013".

Fixpoint skip_ws (s : string) : string :=
  match s with
  | String c r => if is_ws c then skip_ws r else s
  | EmptyString => EmptyString
  end.

Definition hex_value (c : ascii) : option Z :=
  let n := PyStr.code c in
  if (48 <=? n) && (n <=? 57) then Some (n - 48)
  else if (65 <=? n) && (n <=? 70) then Some (n - 55)
  else if (97 <=? n) && (n <=? 102) then Some (n - 87)
  else None.

(** The characters of a string literal after its opening quote, up to
    the closing quote. *)
Fixpoint scanstring (s : string) : option (string * string) :=
  match s with
  | EmptyString => None
  | String c r =>
      if Ascii.eqb c "034" then Some (EmptyString, r)
      else if Ascii.eqb c "\" then
        match r with
        | String e r' =>
            let simple (x : ascii) :=
              option_map (fun '(t, rest) => (String x t, rest)) (scanstring r') in
            if Ascii.eqb e "034" then simple "034"%char
            else if Ascii.eqb e "\" then simple "\"%char
            else if Ascii.eqb e "/" then simple "/"%char
            else if Ascii.eqb e "b" then simple "008"%char
            else if Ascii.eqb e "f" then simple "012"%char
            else if Ascii.eqb e "n" then simple "010"%char
            else if Ascii.eqb e "r" then simple "013"%char
            else if Ascii.eqb e "t" then simple "009"%char
            else if Ascii.eqb e "u" then
              match r' with
              | String h1 (String h2 (String h3 (String h4 r''))) =>
                  match hex_value h1, hex_value h2, hex_value h3, hex_value h4 with
                  | Some a, Some b, Some c', Some d =>
                      let n := ((a * 16 + b) * 16 + c') * 16 + d in
                      if n <? 128
                      then option_map (fun '(t, rest) => (String (PyStr.chr n) t, rest))
                                      (scanstring r'')
                      else None
                  | _, _, _, _ => None
                  end
              | _ => None
              end
            else None
        | EmptyString => None
        end
      else if PyStr.code c <? 32 then None
      else option_map (fun '(t, rest) => (String c t, rest)) (scanstring r)
  end.

Fixpoint span (f : ascii -> bool) (s : string) : string * string :=
  match s with
  | String c r => if f c then let '(a, b) := span f r in (String c a, b) else (EmptyString, s)
  | EmptyString => (EmptyString, EmptyString)
  end.

(** The integer part [0|[1-9][0-9]*]. *)
Definition scan_integer (s : string) : option (string * string) :=
  match s with
  | String "0" r => Some ("0", r)
  | String c r =>
      if PyStr.isdigit c then Some (span PyStr.isdigit s) else None
  | EmptyString => None
  end.

(** The optional fraction [\.[0-9]+]. *)
Definition scan_fraction (s : string) : option string * string :=
  match s with
  | String "." r =>
      match span PyStr.isdigit r with
      | (EmptyString, _) => (None, s)
      | (ds, rest) => (Some ds, rest)
      end
  | _ => (None, s)
  end.

(** The optional exponent [[eE][-+]?[0-9]+]. *)
Definition scan_exponent (s : string) : option Z * string :=
  match s with
  | String c r =>
      if Ascii.eqb c "e" || Ascii.eqb c "E" then
        let '(sign, r') :=
          match r with
          | String "-" t => (-1, t)
          | String "+" t => (1, t)
          | _ => (1, r)
          end in
        match span PyStr.isdigit r' with
        | (EmptyString, _) => (None, s)
        | (ds, rest) => (Some (sign * PyStr.digits_value ds), rest)
        end
      else (None, s)
  | EmptyString => (None, s)
  end.

Definition pow10 (e : Z) : Q :=
  if 0 <=? e then inject_Z (10 ^ e) else (1 # Z.to_pos (10 ^ (- e)))%Q.

Definition scan_number (s : string) : option (json * string) :=
  let '(neg, s1) := match s with String "-" r => (true, r) | _ => (false, s) end in
  match scan_integer s1 with
  | None => None
  | Some (ip, s2) =>
      let '(frac, s3) := scan_fraction s2 in
      let '(ex, s4) := scan_exponent s3 in
      let sgn := if neg then -1 else 1 in
      match frac, ex with
      | None, None => Some (JInt (sgn * PyStr.digits_value ip), s4)
      | _, _ =>
          let fs := match frac with Some f => f | None => EmptyString end in
          let e := match ex with Some e => e | None => 0 end in
          let mant := sgn * PyStr.digits_value (ip ++ fs)%string in
          Some (JFloat (inject_Z mant
                        * pow10 (e - Z.of_nat (String.length fs)))%Q, s4)
      end
  end.

Definition starts (p s : string) : option string :=
  if String.eqb (PyStr.take (String.length p) s) p
  then Some (PyStr.drop (String.length p) s) else None.

(** One value at the head of [s], and what follows it. *)
Fixpoint scan_once (fuel : nat) (s : string) : option (json * string) :=
  match fuel with
  | O => None
  | S f =>
      match s with
      | String c r =>
          if Ascii.eqb c "034" then
            option_map (fun '(t, rest) => (JStr t, rest)) (scanstring r)
          else if Ascii.eqb c "{" then
            match skip_ws r with
            | String c1 r1 =>
                if Ascii.eqb c1 "}" then Some (JObj [], r1)
                else if Ascii.eqb c1 "034" then scan_members f r1 []
                else None
            | EmptyString => None
            end
          else if Ascii.eqb c "[" then
            match skip_ws r with
            | String "]" r1 => Some (JArr [], r1)
            | r1 => scan_items f r1 []
            end
          else
            match starts "null" s, starts "true" s, starts "false" s with
            | Some rest, _, _ => Some (JNull, rest)
            | _, Some rest, _ => Some (JBool true, rest)
            | _, _, Some rest => Some (JBool false, rest)
            | None, None, None => scan_number s
            end
      | EmptyString => None
      end
  end

(** The members of an object, from just after the opening quote of a
    key. *)
with scan_members (fuel : nat) (s : string) (pairs : list (string * json))
  : option (json * string) :=
  match fuel with
  | O => None
  | S f =>
      match scanstring s with
      | None => None
      | Some (key, r) =>
          match skip_ws r with
          | String ":" r1 =>
              match scan_once f (skip_ws r1) with
              | None => None
              | Some (v, r2) =>
                  let pairs' := Dict.set pairs key v in
                  match skip_ws r2 with
                  | String c3 r3 =>
                      if Ascii.eqb c3 "}" then Some (JObj pairs', r3)
                      else if Ascii.eqb c3 "," then
                        match skip_ws r3 with
                        | String c4 r4 =>
                            if Ascii.eqb c4 "034" then scan_members f r4 pairs'
                            else None
                        | EmptyString => None
                        end
                      else None
                  | EmptyString => None
                  end
              end
          | _ => None
          end
      end
  end

(** The items of an array, from the first character of an item. *)
with scan_items (fuel : nat) (s : string) (items : list json)
  : option (json * string) :=
  match fuel with
  | O => None
  | S f =>
      match scan_once f s with
      | None => None
      | Some (v, r) =>
          match skip_ws r with
          | String c1 r1 =>
              if Ascii.eqb c1 "]" then Some (JArr (items ++ [v]), r1)
              else if Ascii.eqb c1 "," then scan_items f (skip_ws r1) (items ++ [v])
              else None
          | EmptyString => None
          end
      end
  end.

(** [json.loads(s)]; [None] when the decoder raises. *)
Definition loads (s : string) : option json :=
  match scan_once (2 * String.length s + 2) (skip_ws s) with
  | Some (v, rest) =>
      match skip_ws rest with
      | EmptyString => Some v
      | _ => None
      end
  | None => None
  end.

End Json.

(* ================================================================= *)
(** ** The model gateway ([llm_client.py]) *)

Definition OLLAMA_URL : string := "http://host.docker.internal:11434/api/chat".
Definition MODEL_NAME : string := "llama3.1:8b".

Definition dq : string := String "034"%char "".
Definition nl : string := String "010"%char "".

(** The system prompt of a tool-calling pass, up to the tool list. *)
Definition strict_prompt : string :=
  ("You are a STRICT tool-calling assistant." ++ nl ++ nl
   ++ "RULES (VERY IMPORTANT):" ++ nl
   ++ "1) If the user asks for weather, you MUST call get_weather_for_date." ++ nl
   ++ "2) If the user asks for news, you MUST call get_news_for_city." ++ nl
   ++ "3) If the user asks for currency conversion, you MUST call convert_currency." ++ nl
   ++ "4) NEVER say 'you can use tool X'." ++ nl
   ++ "5) You must output ONLY valid JSON. No extra text." ++ nl ++ nl
   ++ "OUTPUT FORMAT:" ++ nl
   ++ "To call a tool:" ++ nl
   ++ "{" ++ dq ++ "tool" ++ dq ++ ":" ++ dq ++ "TOOL_NAME" ++ dq ++ ","
   ++ dq ++ "arguments" ++ dq ++ ":{...}}" ++ nl ++ nl
   ++ "If no tool is needed:" ++ nl
   ++ "{" ++ dq ++ "tool" ++ dq ++ ":null," ++ dq ++ "final" ++ dq ++ ":"
   ++ dq ++ "..." ++ dq ++ "}" ++ nl ++ nl
   ++ "IMPORTANT DATE RULE:" ++ nl
   ++ "- If user says 'today', set date to " ++ dq ++ "today" ++ dq ++ "." ++ nl
   ++ "- If user says 'tomorrow', set date to " ++ dq ++ "tomorrow" ++ dq ++ "." ++ nl
   ++ "- Otherwise if user gives a date, keep it as YYYY-MM-DD." ++ nl ++ nl
   ++ "Available tools:" ++ nl)%string.

(** [call_model(messages, functions=None)]. *)
Definition call_model (w : World) (messages : list Message)
  (functions : option (list json)) : M json :=
  let messages :=
    match functions with
    | Some (f :: fs) =>
        let tool_text := DumpsIndent2 (JArr (f :: fs)) in
        mkmsg "system" (Some [Lit strict_prompt; tool_text; Lit nl]) None None
          :: List.tl messages
    | _ => messages
    end in
  let payload := mkpayload MODEL_NAME messages false 0 in
  r <- http_post w OLLAMA_URL payload ;;
  lift (raise_for_status r) ;;;
  lift (response_json r).

(** [json.loads(content)] under [try ... except Exception]: a content
    that is not a string makes the decoder raise as well. *)
Definition loads_or_none (content : json) : option json :=
  match content with
  | JStr s => Json.loads s
  | _ => None
  end.

(** [extract_function_call(response)]. *)
Definition extract_function_call (response : json) : result (option json) :=
  message <-- py_getitem response "message" ;;
  content <-- py_getitem message "content" ;;
  match loads_or_none content with
  | None => Return None
  | Some parsed =>
      tool <-- py_get parsed "tool" JNull ;;
      if py_truthy tool then
        arguments <-- py_get parsed "arguments" (JObj []) ;;
        Return (Some (JObj [("name", tool); ("arguments", arguments)]))
      else Return None
  end.

(* ================================================================= *)
(** ** The chat controller ([main.py]) *)

Record UserMessage : Type := mkuser { user_id : string; message : string }.

Definition system_prompt : string :=
  ("You are an assistant that can call tools to fetch data. "
   ++ "Available tools: get_weather_for_date(city, date), "
   ++ "get_news_for_city(city, page_size), convert_currency(amount, base, target). "
   ++ "If the user asks for weather, news or currency conversion, call the correct tool.")%string.

(** The instruction appended before the second model call. *)
Definition final_instruction : string :=
  ("Now write a final user-friendly answer. "
   ++ "Do NOT call any tool. Do NOT return JSON. "
   ++ "Summarize the news in bullet points with title + source.")%string.

(** The conversation a turn starts with. *)
Definition opening_messages (payload : UserMessage) : list Message :=
  [mkmsg "system" (Some [Lit system_prompt]) None None;
   mkmsg "user" (Some [Lit (message payload)]) None None].

(** [POST /chat]. *)
Definition chat_endpoint (w : World) (payload : UserMessage) : M json :=
  let messages := opening_messages payload in
  let model_functions := get_model_functions in
  (* 1) first model call (may decide to call a tool) *)
  resp <- call_model w messages (Some model_functions) ;;
  fc <- lift (extract_function_call resp) ;;
  match fc with
  | Some fc =>
      result <- try_catch
                  (nm <- lift (py_getitem fc "name") ;;
                   arguments <- lift (py_getitem fc "arguments") ;;
                   call_function_by_name w nm arguments)
                  (fun e => raise (HTTPException 500 (exn_str e))) ;;
      fc_name <- lift (py_getitem fc "name") ;;
      let messages :=
        messages
          ++ [mkmsg "assistant" None (Some fc) None;
              mkmsg "function" (Some [Dumps result]) None (Some fc_name);
              mkmsg "system" (Some [Lit final_instruction]) None None] in
      (* 2) second model call (final response) *)
      resp2 <- call_model w messages None ;;
      final_text <- lift (m <-- py_getitem resp2 "message" ;; py_getitem m "content") ;;
      fc_arguments <- lift (py_getitem fc "arguments") ;;
      ret (JObj [("type", JStr "function_call");
                 ("function", fc_name);
                 ("function_args", fc_arguments);
                 ("function_result", result);
                 ("response", final_text)])
  | None =>
      (* 3) direct response *)
      text <- lift (m <-- py_getitem resp "message" ;; py_getitem m "content") ;;
      ret (JObj [("type", JStr "direct"); ("response", text)])
  end.

Definition empty_state : State := mkstate [] [] [].

(** A tool result that reports an error: an object with the key
    ["error"]. *)
Definition is_error_result (r : json) : bool :=
  match r with
  | JObj o => Dict.mem "error" o
  | _ => false
  end.

(** The arguments a tool writes to the audit table for the raw
    arguments it is dispatched with: the values its normalizers return, and
    for the news tool the page size as given, or its default. *)
Inductive audited_arguments (w : World)
  : string -> list (string * json) -> list (string * json) -> Prop :=
| audited_weather args city date city' date' :
    Dict.get "city" args = Some city -> Dict.get "date" args = Some date ->
    normalize_city city = Return city' ->
    normalize_date (today w) date = Return date' ->
    audited_arguments w "get_weather_for_date" args
      [("city", JStr city'); ("date", JStr date')]
| audited_news args city city' :
    Dict.get "city" args = Some city ->
    normalize_city city = Return city' ->
    audited_arguments w "get_news_for_city" args
      [("city", JStr city');
       ("page_size", match Dict.get "page_size" args with
                     | Some p => p
                     | None => JInt 5
                     end)].

(** A computation that leaves the audit table as it is. *)
Definition keeps_audit {A} (m : M A) : Prop :=
  forall s x s', m s = (x, s') -> function_calls s' = function_calls s.

(** The state once one more model call has been issued. *)
Definition after_post (s : State) (p : chat_payload) : State :=
  mkstate (function_calls s) (sent_get s) (sent_post s ++ [p]).

(** The city normalizer or the currency normalizer rejects a field of the
    arguments given to a tool: the calls each tool makes to these two
    normalizers, in the order in which it makes them.  No tool has a handler
    around them.  The date of the weather tool is not part of this relation:
    for a date that does not parse the tool has a handler of its own
    ([functions.py], lines 99 to 104). *)
Inductive normalizer_rejects
  : string -> list (string * json) -> exn -> Prop :=
| reject_weather_city args city date e :
    Dict.get "city" args = Some city -> Dict.get "date" args = Some date ->
    normalize_city city = Raise e ->
    normalizer_rejects "get_weather_for_date" args e
| reject_news_city args city e :
    Dict.get "city" args = Some city ->
    normalize_city city = Raise e ->
    normalizer_rejects "get_news_for_city" args e
| reject_currency_base args amount base target e :
    Dict.get "amount" args = Some amount -> Dict.get "base" args = Some base ->
    Dict.get "target" args = Some target ->
    normalize_currency base = Raise e ->
    normalizer_rejects "convert_currency" args e
| reject_currency_target args amount base target base' e :
    Dict.get "amount" args = Some amount -> Dict.get "base" args = Some base ->
    Dict.get "target" args = Some target ->
    normalize_currency base = Return base' ->
    normalize_currency target = Raise e ->
    normalizer_rejects "convert_currency" args e.

(* ================================================================= *)
(** ** Sample worlds and inputs, for the examples below *)

Module Sample.

(** A reply of the model whose text is [content]. *)
Definition reply (content : string) : http_outcome :=
  HttpOk (mkresp 200
            (BodyJson (JObj [("message",
                              JObj [("role", JStr "assistant");
                                    ("content", JStr content)])]))).

(** [{"tool":"<tool>","arguments":<arguments>}]. *)
Definition tool_call_text (tool arguments : string) : string :=
  ("{" ++ dq ++ "tool" ++ dq ++ ":" ++ dq ++ tool ++ dq ++ ","
   ++ dq ++ "arguments" ++ dq ++ ":" ++ arguments ++ "}")%string.

(** A JSON object text from the texts of its keys and values. *)
Fixpoint members (kvs : list (string * string)) : string :=
  match kvs with
  | [] => EmptyString
  | [(k, v)] => (dq ++ k ++ dq ++ ":" ++ v)%string
  | (k, v) :: rest => (dq ++ k ++ dq ++ ":" ++ v ++ "," ++ members rest)%string
  end.

Definition object_text (kvs : list (string * string)) : string :=
  ("{" ++ members kvs ++ "}")%string.

Definition quoted (s : string) : string := (dq ++ s ++ dq)%string.

(** A world whose model answers [first] to the opening pass (two
    messages) and [second] to a longer conversation. *)
Definition world (env : string -> option string)
  (get : string -> list (string * json) -> http_outcome)
  (first second : string) : World :=
  mkworld env (mkdate 2026 2 19) "2026-02-19T09:30:00+00:00" get
    (fun _ p => if (List.length (messages p) <=? 2)%nat then reply first
                else reply second).

Definition no_env : string -> option string := fun _ => None.

Definition unreachable : string -> list (string * json) -> http_outcome :=
  fun _ _ => HttpFail "connection refused".

(** No API key, no network; the model answers in prose. *)
Definition offline : World := world no_env unreachable "Hello!" "".

(** Raw weather arguments as a model may send them. *)
Definition raw_weather : json :=
  JObj [("city", JStr "pune city"); ("date", JStr "19/02/2026"); ("extra", JInt 1)].

(** The model asks for the weather with a date that is no date. *)
Definition bad_date_turn : World :=
  world no_env unreachable
    (tool_call_text "get_weather_for_date"
       (object_text [("city", quoted "Pune"); ("date", quoted "notadate")]))
    "".

(** The model asks for the news of a city it leaves empty. *)
Definition empty_city_turn : World :=
  world no_env unreachable
    (tool_call_text "get_news_for_city" (object_text [("city", quoted "")]))
    "".

(** The model names a tool the registry does not have. *)
Definition unknown_tool_turn : World :=
  world no_env unreachable (tool_call_text "get_stock_price" "{}") "".

(** The model answers with the JSON number 42. *)
Definition number_reply : World := world no_env unreachable "42" "".

(** The rates service answers 5.98 USD for 500 INR. *)
Definition rates_service : string -> list (string * json) -> http_outcome :=
  fun url _ =>
    if String.eqb url "https://api.frankfurter.app/latest"
    then HttpOk (mkresp 200
                   (BodyJson (JObj [("amount", JFloat 500); ("base", JStr "INR");
                                    ("date", JStr "2026-02-19");
                                    ("rates", JObj [("USD", JFloat (598 # 100))])])))
    else HttpFail "connection refused".

(** "Convert 500 INR to USD". *)
Definition currency_turn : World :=
  world no_env rates_service
    (tool_call_text "convert_currency"
       (object_text [("amount", "500"); ("base", quoted "inr");
                     ("target", quoted "usd")]))
    "500 INR is about 5.98 USD.".

Definition article (title source : string) : json :=
  JObj [("source", JObj [("id", JNull); ("name", JStr source)]);
        ("title", JStr title); ("description", JNull);
        ("url", JStr "https://example.org/a"); ("publishedAt", JStr "2026-02-19T08:00:00Z")].

(** The news service answers with three articles. *)
Definition news_service : string -> list (string * json) -> http_outcome :=
  fun url _ =>
    if String.eqb url "https://newsapi.org/v2/everything"
    then HttpOk (mkresp 200
                   (BodyJson (JObj [("status", JStr "ok"); ("totalResults", JInt 3);
                                    ("articles",
                                     JArr [article "Metro line opens" "The Daily";
                                           article "Monsoon forecast" "Weather Desk";
                                           article "Tech park expands" "Biz Wire"])])))
    else HttpFail "connection refused".

Definition news_env : string -> option string :=
  fun k => if String.eqb k "NEWSAPI_KEY" then Some "k-123" else None.

Definition news_world : World := world news_env news_service "Hello!" "".

(** A forecast entry of the weather service. *)
Definition forecast_entry (dt : Z) (temp feels : Q) (humidity : Z) (desc : string)
  : json :=
  JObj [("dt", JInt dt);
        ("main", JObj [("temp", JFloat temp); ("feels_like", JFloat feels);
                       ("humidity", JInt humidity)]);
        ("weather", JArr [JObj [("id", JInt 800); ("description", JStr desc)]])].

(** The weather service: Pune is known; three forecast entries fall on
    2026-02-20 and one on 2026-02-21. *)
Definition weather_service : string -> list (string * json) -> http_outcome :=
  fun url _ =>
    if String.eqb url "http://api.openweathermap.org/geo/1.0/direct"
    then HttpOk (mkresp 200
                   (BodyJson (JArr [JObj [("name", JStr "Pune");
                                          ("lat", JFloat (1852 # 100));
                                          ("lon", JFloat (7385 # 100));
                                          ("country", JStr "IN")]])))
    else if String.eqb url "https://api.openweathermap.org/data/2.5/weather"
    then HttpOk (mkresp 200
                   (BodyJson (JObj [("main", JObj [("temp", JFloat (305 # 10));
                                                   ("feels_like", JInt 31);
                                                   ("humidity", JInt 40)]);
                                    ("weather",
                                     JArr [JObj [("description", JStr "clear sky")]]);
                                    ("wind", JObj [("speed", JFloat (21 # 10))])])))
    else if String.eqb url "https://api.openweathermap.org/data/2.5/forecast"
    then HttpOk (mkresp 200
                   (BodyJson (JObj [("list",
                                     JArr [forecast_entry 1771545600 30 31 40 "Clear sky";
                                           forecast_entry 1771556400 (335 # 10) 34 35
                                             "few clouds";
                                           forecast_entry 1771567200 28 29 50 "clear sky";
                                           forecast_entry 1771632000 20 20 60 "rain"])])))
    else HttpFail "connection refused".

Definition weather_env : string -> option string :=
  fun k => if String.eqb k "OPENWEATHER_API_KEY" then Some "k-456" else None.

Definition weather_world : World := world weather_env weather_service "Hello!" "".

End Sample.


(* ================================================================= *)
(** ** Notions used to state further properties *)

(** A computation that adds at most [n] items to one of the lists of the
    state, whatever it ends with, and keeps what the list held. *)
Definition grows {A B} (proj : State -> list A) (n : nat) (m : M B) : Prop :=
  forall s x s',
    m s = (x, s') ->
    exists l, proj s' = proj s ++ l /\ (List.length l <= n)%nat.

(** The names under ["required"] in the parameter schema of a tool. *)
Definition schema_required (meta : ToolMeta) : list string :=
  match py_getitem (parameters meta) "required" with
  | Return (JArr l) =>
      flat_map (fun v => match v with JStr k => [k] | _ => [] end) l
  | _ => []
  end.

(** The model answers in the direct-answer shape,
    [{"tool":null,"final":"Hi there"}]. *)
Definition direct_shape_text : string :=
  Sample.object_text [("tool", "null"); ("final", Sample.quoted "Hi there")].

Definition direct_shape_turn : World :=
  Sample.world Sample.no_env Sample.unreachable direct_shape_text "".

(** The model backend answers every call with status 503. *)
Definition backend_down : World :=
  mkworld Sample.no_env (mkdate 2026 2 19) "2026-02-19T09:30:00+00:00"
    Sample.unreachable
    (fun _ _ => HttpOk (mkresp 503 (BodyJson (JObj [("error", JStr "overloaded")])))).

(** The messages of the second pass, after the call of [tool] on
    [arguments] gave [result]. *)
Definition second_pass_messages (payload : UserMessage) (tool arguments result : json)
  : list Message :=
  opening_messages payload
    ++ [mkmsg "assistant" None
          (Some (JObj [("name", tool); ("arguments", arguments)])) None;
        mkmsg "function" (Some [Dumps result]) None (Some tool);
        mkmsg "system" (Some [Lit final_instruction]) None None].

(** The bucket an entry of the forecast falls into: the ISO text of the
    UTC date of its [dt]; none when it has no [dt]. *)
Definition entry_day (e : json) : option string :=
  match py_get e "dt" JNull with
  | Return JNull => None
  | Return ts =>
      match utc_date_of_timestamp ts with
      | Return d => Some (isoformat d)
      | Raise _ => None
      end
  | Raise _ => None
  end.

Definition falls_on (k : string) (e : json) : bool :=
  match entry_day e with
  | Some k' => String.eqb k' k
  | None => false
  end.

(** The number of occurrences of a text in a list. *)
Definition occurrences (x : string) (l : list string) : Z :=
  Z.of_nat (count_occ string_dec l x).

(** Four forecast entries on 2026-02-20, the last one without a
    temperature, one on 2026-02-21 and one without a [dt]. *)
Definition sample_entries : list json :=
  [Sample.forecast_entry 1771545600 30 31 40 "Clear sky";
   Sample.forecast_entry 1771556400 (335 # 10) 34 35 "few clouds";
   Sample.forecast_entry 1771567200 28 29 50 "clear sky";
   JObj [("dt", JInt 1771578000); ("main", JObj [("humidity", JInt 55)])];
   Sample.forecast_entry 1771632000 20 20 60 "rain";
   JObj [("main", JObj [("temp", JInt 19)])]].

Definition sample_day : list json :=
  List.filter (falls_on "2026-02-20") sample_entries.

Definition sample_geo : json :=
  JObj [("name", JStr "Pune"); ("country", JStr "IN")].

(* ================================================================= *)
(** * Properties *)

(** ** The state monad *)

Lemma bind_Return_inv {A B} (m : M A) (k : A -> M B) s r s' :
  bind m k s = (Return r, s') ->
  exists a s1, m s = (Return a, s1) /\ k a s1 = (Return r, s').
Proof.
  unfold bind. destruct (m s) as [[a | e] s1]; intro H.
  - now exists a, s1.
  - discriminate.
Qed.

Lemma bind_Return {A B} (m : M A) (k : A -> M B) s a s1 :
  m s = (Return a, s1) -> bind m k s = k a s1.
Proof. unfold bind. now intros ->. Qed.

Lemma bind_Raise {A B} (m : M A) (k : A -> M B) s e s1 :
  m s = (Raise e, s1) -> bind m k s = (Raise e, s1).
Proof. unfold bind. now intros ->. Qed.

Lemma try_catch_raise {A} (m : M A) s : try_catch m raise s = m s.
Proof. unfold try_catch, raise. now destruct (m s) as [[a | e] s1]. Qed.

(** ** Dictionaries *)

Lemma dict_get_set {V} (d : list (string * V)) k k' v :
  Dict.get k (Dict.set d k' v) = if String.eqb k' k then Some v else Dict.get k d.
Proof.
  induction d as [| [k0 v0] d IH]; simpl.
  - destruct (String.eqb k' k); reflexivity.
  - destruct (String.eqb k0 k') eqn:E0; simpl.
    + apply String.eqb_eq in E0; subst k0.
      destruct (String.eqb k' k); reflexivity.
    + destruct (String.eqb k0 k) eqn:E1.
      * apply String.eqb_eq in E1; subst k0.
        rewrite String.eqb_sym in E0. now rewrite E0.
      * apply IH.
Qed.

Lemma dict_get_keys {V} (d : list (string * V)) k v :
  Dict.get k d = Some v -> In k (Dict.keys d).
Proof.
  induction d as [| [k0 v0] d IH]; simpl; [discriminate |].
  destruct (String.eqb k0 k) eqn:E.
  - apply String.eqb_eq in E. now left.
  - intro H. right. now apply IH.
Qed.

Lemma dict_keys_get {V} (d : list (string * V)) k :
  In k (Dict.keys d) -> exists v, Dict.get k d = Some v.
Proof.
  induction d as [| [k0 v0] d IH]; simpl; [tauto |].
  intros [-> | H].
  - rewrite String.eqb_refl. now exists v0.
  - destruct (String.eqb k0 k); [now exists v0 | now apply IH].
Qed.

(** What the sanitization loop yields for a key: a value already
    collected, or the value [arguments] gives to a schema key. *)
Lemma clean_args_get keys arguments : forall cleaned k v,
  Dict.get k (clean_args keys arguments cleaned) = Some v ->
  Dict.get k cleaned = Some v \/ (In k keys /\ Dict.get k arguments = Some v).
Proof.
  induction keys as [| k0 keys IH]; simpl; intros cleaned k v H.
  - now left.
  - destruct (Dict.get k0 arguments) as [v0 |] eqn:E.
    + apply IH in H. destruct H as [H | [H1 H2]].
      * rewrite dict_get_set in H. destruct (String.eqb k0 k) eqn:Ek.
        -- apply String.eqb_eq in Ek; subst k0. right. split; [now left | congruence].
        -- now left.
      * right. split; [now right | assumption].
    + apply IH in H. destruct H as [H | [H1 H2]]; [now left |].
      right. split; [now right | assumption].
Qed.

(* ================================================================= *)
(** ** The model on sample inputs *)

Example normalize_city_pune : normalize_city (JStr "  Pune city ") = Return "Pune".
Proof. reflexivity. Qed.

Example normalize_currency_inr : normalize_currency (JStr "inr") = Return "INR".
Proof. reflexivity. Qed.

Example normalize_date_tomorrow :
  normalize_date (mkdate 2026 2 28) (JStr " Tomorrow") = Return "2026-03-01".
Proof. reflexivity. Qed.

Example normalize_date_day_out_of_month :
  normalize_date (mkdate 2026 2 19) (JStr "31/02/2026") = Raise (PyExn ValueError None)
  /\ normalize_date (mkdate 2026 2 19) (JStr "31 Feb 2026")
     = Raise (PyExn ValueError
                (Some "Invalid date format. Use YYYY-MM-DD or today/tomorrow.")).
Proof. split; vm_compute; reflexivity. Qed.

Example forecast_for_tomorrow :
  fst (get_weather_for_date Sample.weather_world (JStr "pune") (JStr "tomorrow")
         empty_state)
  = Return (JObj [("date", JStr "2026-02-20"); ("city", JStr "Pune");
                  ("country", JStr "IN"); ("type", JStr "forecast");
                  ("temp_min_c", JFloat 28); ("temp_max_c", JFloat (335 # 10));
                  ("temp_avg_c", JFloat ((0 + 30 + (335 # 10) + 28) / 3));
                  ("feels_like_avg_c", JFloat ((0 + 31 + 34 + 29) / 3));
                  ("humidity_avg",
                   JFloat ((0 + inject_Z 40 + inject_Z 35 + inject_Z 50) / 3));
                  ("condition", JStr "clear sky");
                  ("note", JStr "Forecast derived from OpenWeatherMap 5-day/3-hour forecasts. For exact historical data use a paid historical API.")]).
Proof. vm_compute. reflexivity. Qed.

Example direct_answer_turn :
  fst (chat_endpoint Sample.offline (mkuser "u1" "Hello, how are you?") empty_state)
  = Return (JObj [("type", JStr "direct"); ("response", JStr "Hello!")])
  /\ function_calls (snd (chat_endpoint Sample.offline
                            (mkuser "u1" "Hello, how are you?") empty_state)) = [].
Proof. split; vm_compute; reflexivity. Qed.

(* ================================================================= *)
(** ** What the date normalizer returns

    Every string [normalize_date] returns is the ISO form of a date of the
    calendar, which [fromisoformat] reads back.  In [get_weather_for_date]
    the [except] branch around [datetime.fromisoformat(date)] is therefore
    never taken: a date that is no date has already left the tool as a
    [ValueError] of the normalizer. *)

Lemma digit_char_spec n :
  PyStr.isdigit (PyStr.digit_char n) = true
  /\ PyStr.digit_value (PyStr.digit_char n) = n mod 10.
Proof.
  unfold PyStr.digit_char.
  pose proof (Z.mod_pos_bound n 10 eq_refl) as Hb.
  assert (H : n mod 10 = 0 \/ n mod 10 = 1 \/ n mod 10 = 2 \/ n mod 10 = 3
              \/ n mod 10 = 4 \/ n mod 10 = 5 \/ n mod 10 = 6 \/ n mod 10 = 7
              \/ n mod 10 = 8 \/ n mod 10 = 9) by lia.
  repeat (destruct H as [H | H]); rewrite H; split; reflexivity.
Qed.

Lemma make_date_valid y m d dt : make_date y m d = Return dt -> valid_date dt.
Proof.
  unfold make_date, valid_date. destruct (date_ok y m d) eqn:E; [| discriminate].
  intro H; injection H as <-. exact E.
Qed.

Lemma date_ok_bounds y m d :
  date_ok y m d = true -> 1 <= y <= 9999 /\ 1 <= m <= 12 /\ 1 <= d <= 31.
Proof.
  unfold date_ok, days_in_month. intro H.
  repeat (apply andb_prop in H; destruct H as [H ?]).
  destruct (m =? 2); [destruct (is_leap y) |];
    [ | | destruct ((m =? 4) || (m =? 6) || (m =? 9) || (m =? 11))]; lia.
Qed.

Lemma fromisoformat_isoformat d :
  valid_date d -> fromisoformat (isoformat d) = Return d.
Proof.
  destruct d as [y m dd]. unfold valid_date; cbn [year month day]. intro Hok.
  destruct (date_ok_bounds _ _ _ Hok) as (Hy & Hm & Hd).
  unfold fromisoformat, isoformat, PyStr.pad4, PyStr.pad2. cbn [year month day].
  cbn [String.append String.length PyStr.take PyStr.drop PyStr.all Nat.eqb String.eqb
       Ascii.eqb Bool.eqb andb].
  rewrite !(proj1 (digit_char_spec _)). cbn [andb].
  unfold PyStr.digits_value. cbn [PyStr.digits_value_from].
  rewrite !(proj2 (digit_char_spec _)).
  replace (10 * (10 * (10 * (10 * 0 + (y / 1000) mod 10) + (y / 100) mod 10)
                 + (y / 10) mod 10) + y mod 10) with y
    by (Z.div_mod_to_equations; lia).
  replace (10 * (10 * 0 + (m / 10) mod 10) + m mod 10) with m
    by (Z.div_mod_to_equations; lia).
  replace (10 * (10 * 0 + (dd / 10) mod 10) + dd mod 10) with dd
    by (Z.div_mod_to_equations; lia).
  unfold make_date. now rewrite Hok.
Qed.

Lemma add_one_day_valid d d' :
  valid_date d -> add_one_day d = Return d' -> valid_date d'.
Proof.
  destruct d as [y m dd]. unfold valid_date, add_one_day; cbn [year month day].
  intros Hok H. pose proof (date_ok_bounds _ _ _ Hok) as (Hy & Hm & Hd).
  unfold date_ok in Hok |- *.
  repeat (apply andb_prop in Hok; destruct Hok as [Hok ?]).
  destruct (dd <? days_in_month y m) eqn:E1.
  { injection H as <-. cbn [year month day].
    apply Z.ltb_lt in E1. repeat (apply andb_true_intro; split); lia. }
  destruct (m <? 12) eqn:E2.
  { injection H as <-. cbn [year month day]. apply Z.ltb_lt in E2.
    assert (1 <= days_in_month y (m + 1)).
    { unfold days_in_month. destruct (m + 1 =? 2); [destruct (is_leap y) |];
        [ | | destruct ((m + 1 =? 4) || (m + 1 =? 6) || (m + 1 =? 9) || (m + 1 =? 11))];
        lia. }
    repeat (apply andb_true_intro; split); lia. }
  destruct (y <? 9999) eqn:E3; [| discriminate].
  injection H as <-. cbn [year month day]. apply Z.ltb_lt in E3.
  repeat (apply andb_true_intro; split); try lia. reflexivity.
Qed.

Lemma strptime_valid data_string fmt d :
  strptime data_string fmt = Return d -> valid_date d.
Proof.
  unfold strptime. destruct (compile_format _ fmt); [| discriminate].
  destruct (Rx.first _) as [[f rest] |]; [| discriminate].
  destruct (String.eqb rest ""); [| discriminate]. apply make_date_valid.
Qed.

Lemma try_formats_iso data_string fmts s :
  try_formats data_string fmts = Return s ->
  exists d, valid_date d /\ s = isoformat d.
Proof.
  induction fmts as [| fmt fmts IH]; simpl; [discriminate |].
  destruct (strptime data_string fmt) as [d |] eqn:E; [| exact IH].
  intro H; injection H as <-. exists d. split; [| reflexivity].
  exact (strptime_valid _ _ _ E).
Qed.

Lemma normalize_date_iso today v s :
  valid_date today ->
  normalize_date today v = Return s ->
  exists d, valid_date d /\ s = isoformat d /\ fromisoformat s = Return d.
Proof.
  intros Htoday H.
  assert (exists d, valid_date d /\ s = isoformat d) as (d & Hd & ->).
  { unfold normalize_date in H.
    destruct (negb (py_truthy v)); [discriminate |].
    destruct v; try discriminate.
    destruct (String.eqb _ "today").
    { injection H as <-. now exists today. }
    destruct (String.eqb _ "tomorrow").
    { destruct (add_one_day today) as [d |] eqn:E; [| discriminate].
      cbn [rbind] in H. injection H as <-. exists d. split; [| reflexivity].
      exact (add_one_day_valid _ _ Htoday E). }
    destruct (fromisoformat s0) as [d |] eqn:E.
    { injection H as <-. exists d. split; [| reflexivity].
      unfold fromisoformat in E.
      match type of E with
      | (if ?c then _ else _) = _ => destruct c; [| discriminate]
      end.
      exact (make_date_valid _ _ _ _ E). }
    destruct (re_match_day_month_year _) as [[[dd mm] yyyy] |].
    { destruct (make_date _ _ _) as [d |] eqn:E2; [| discriminate].
      cbn [rbind] in H. injection H as <-. exists d. split; [| reflexivity].
      exact (make_date_valid _ _ _ _ E2). }
    exact (try_formats_iso _ _ _ H). }
  exists d. split; [assumption |]. split; [reflexivity |].
  now apply fromisoformat_isoformat.
Qed.

(* ================================================================= *)
(** ** The dispatcher filters the arguments (C5) *)

Lemma registry_cases name meta :
  Dict.get name FUNCTION_REGISTRY = Some meta ->
  (name = "get_weather_for_date" /\ schema_keys meta = Return ["city"; "date"]
   /\ callable meta = call_get_weather_for_date)
  \/ (name = "get_news_for_city" /\ schema_keys meta = Return ["city"; "page_size"]
      /\ callable meta = call_get_news_for_city)
  \/ (name = "convert_currency"
      /\ schema_keys meta = Return ["amount"; "base"; "target"]
      /\ callable meta = call_convert_currency).
Proof.
  unfold FUNCTION_REGISTRY. cbn [Dict.get].
  destruct (String.eqb "get_weather_for_date" name) eqn:E1.
  { apply String.eqb_eq in E1. intro H; injection H as <-. left. now subst. }
  destruct (String.eqb "get_news_for_city" name) eqn:E2.
  { apply String.eqb_eq in E2. intro H; injection H as <-. right; left. now subst. }
  destruct (String.eqb "convert_currency" name) eqn:E3.
  { apply String.eqb_eq in E3. intro H; injection H as <-. right; right. now subst. }
  discriminate.
Qed.

Lemma call_function_by_name_registered w name meta keys args s :
  Dict.get name FUNCTION_REGISTRY = Some meta ->
  schema_keys meta = Return keys ->
  call_function_by_name w (JStr name) (JObj args) s
  = callable meta w (clean_args keys args []) s.
Proof.
  intros Hreg Hkeys. unfold call_function_by_name, bind, lift, registry_lookup.
  rewrite Hreg, Hkeys. apply try_catch_raise.
Qed.

(** C5. For every registered tool and every raw argument mapping, the
    mapping handed to the tool executable is the sanitized one; each of its
    keys is a key of the tool's parameter schema and keeps the value the
    caller gave it, and a key outside the schema is absent from it.  With
    [{city, date, extra}] the weather executable receives [city] and
    [date] only. *)
Theorem C5_sanitized_arguments_within_schema :
  (forall name meta args,
      Dict.get name FUNCTION_REGISTRY = Some meta ->
      exists keys,
        schema_keys meta = Return keys
        /\ (forall w s,
               call_function_by_name w (JStr name) (JObj args) s
               = callable meta w (clean_args keys args []) s)
        /\ (forall k,
               In k (Dict.keys (clean_args keys args [])) ->
               In k keys
               /\ Dict.get k (clean_args keys args []) = Dict.get k args)
        /\ (forall k,
               ~ In k keys -> Dict.get k (clean_args keys args []) = None))
  /\ (forall w s,
         call_function_by_name w (JStr "get_weather_for_date")
           (JObj [("city", JStr "Pune"); ("date", JStr "today"); ("extra", JInt 1)]) s
         = call_get_weather_for_date w
             [("city", JStr "Pune"); ("date", JStr "today")] s).
Proof.
  split.
  - intros name meta args Hreg.
    assert (exists keys, schema_keys meta = Return keys) as [keys Hkeys].
    { destruct (registry_cases _ _ Hreg) as [H | [H | H]];
        destruct H as (_ & H & _); eauto. }
    exists keys. split; [assumption |]. split; [| split].
    + intros w s. now apply call_function_by_name_registered.
    + intros k Hin. apply dict_keys_get in Hin. destruct Hin as [v Hv].
      destruct (clean_args_get _ _ _ _ _ Hv) as [H | [H1 H2]].
      * discriminate.
      * split; [assumption | congruence].
    + intros k Hk.
      destruct (Dict.get k (clean_args keys args [])) as [v |] eqn:E; [| reflexivity].
      destruct (clean_args_get _ _ _ _ _ E) as [H | [H1 H2]]; [discriminate | tauto].
  - intros w s.
    now rewrite (call_function_by_name_registered w "get_weather_for_date" _
                   ["city"; "date"] _ s eq_refl eq_refl).
Qed.

Lemma C5_sanitized_arguments_witness :
  exists keys,
    schema_keys (mkmeta call_get_news_for_city "Get recent news articles mentioning a city"
                   (JObj [("type", JStr "object");
                          ("properties",
                           JObj [("city", JObj [("type", JStr "string")]);
                                 ("page_size", JObj [("type", JStr "integer");
                                                     ("minimum", JInt 1);
                                                     ("maximum", JInt 20)])]);
                          ("required", JArr [JStr "city"])])) = Return keys
    /\ forall k,
         In k (Dict.keys (clean_args keys
                            [("limit", JInt 3); ("city", JStr "Pune")] [])) ->
         In k keys.
Proof.
  destruct (proj1 C5_sanitized_arguments_within_schema "get_news_for_city" _
              [("limit", JInt 3); ("city", JStr "Pune")] eq_refl)
    as (keys & Hk & _ & Hsub & _).
  exists keys. split; [exact Hk |]. intros k Hin. exact (proj1 (Hsub k Hin)).
Defined.

(* ================================================================= *)
(** ** The date normalizer on the documented inputs (C6) *)

(** C6. [normalize_date("today")] is the current local date in ISO
    form; the five spellings of 19 February 2026 all give ["2026-02-19"];
    the empty string and ["notadate"] are rejected with [ValueError]. *)
Theorem C6_normalize_date_examples :
  forall today : date,
    normalize_date today (JStr "today") = Return (isoformat today)
    /\ normalize_date today (JStr "2026-02-19") = Return "2026-02-19"
    /\ normalize_date today (JStr "19-02-2026") = Return "2026-02-19"
    /\ normalize_date today (JStr "19/02/2026") = Return "2026-02-19"
    /\ normalize_date today (JStr "19 Feb 2026") = Return "2026-02-19"
    /\ normalize_date today (JStr "Feb 19 2026") = Return "2026-02-19"
    /\ normalize_date today (JStr "")
       = Raise (PyExn ValueError (Some "Date cannot be empty."))
    /\ normalize_date today (JStr "notadate")
       = Raise (PyExn ValueError
                  (Some "Invalid date format. Use YYYY-MM-DD or today/tomorrow.")).
Proof.
  intro today. repeat split; vm_compute; reflexivity.
Qed.

(* ================================================================= *)
(** ** The city normalizer (C9) *)

Lemma tolower_inv (a : ascii) :
  a = PyStr.tolower a \/ a = PyStr.toupper (PyStr.tolower a).
Proof.
  destruct a as [a0 a1 a2 a3 a4 a5 a6 a7].
  destruct a0, a1, a2, a3, a4, a5, a6, a7;
    first [left; vm_compute; reflexivity | right; vm_compute; reflexivity].
Qed.

Lemma tolower_is (a c : ascii) :
  PyStr.tolower a = c -> a = c \/ a = PyStr.toupper c.
Proof.
  intros <-. apply tolower_inv.
Qed.

Lemma lower_city_cases (t : string) :
  PyStr.lower t = "city" ->
  exists a b c d,
    t = String a (String b (String c (String d "")))
    /\ (a = "c" \/ a = "C")%char /\ (b = "i" \/ b = "I")%char
    /\ (c = "t" \/ c = "T")%char /\ (d = "y" \/ d = "Y")%char.
Proof.
  destruct t as [| a [| b [| c [| d [| x t]]]]]; try discriminate.
  unfold PyStr.lower; cbn [PyStr.map]. intro H. injection H as Ha Hb Hc Hd.
  exists a, b, c, d. split; [reflexivity |].
  repeat split.
  - exact (tolower_is a "c" Ha).
  - exact (tolower_is b "i" Hb).
  - exact (tolower_is c "t" Hc).
  - exact (tolower_is d "y" Hd).
Qed.

(** C9. On a string, [normalize_city] raises exactly when the string is
    empty; a string that is nothing but the word "city", in any letter
    case and with any white space around it, is accepted and gives the
    empty string. *)
Theorem C9_normalize_city_fails_only_on_empty :
  forall s : string,
    ((exists e, normalize_city (JStr s) = Raise e) <-> s = "")
    /\ (PyStr.lower (PyStr.strip s) = "city" -> normalize_city (JStr s) = Return "").
Proof.
  intro s. split.
  - unfold normalize_city, py_truthy. destruct s as [| a s]; cbn.
    + split; [reflexivity | intros _; eexists; reflexivity].
    + split; [intros [e H]; discriminate | discriminate].
  - intro H. unfold normalize_city, py_truthy.
    destruct s as [| a0 s0]; [discriminate H |]. cbn [String.eqb negb].
    destruct (lower_city_cases _ H) as (a & b & c & d & -> & Ha & Hb & Hc & Hd).
    destruct Ha, Hb, Hc, Hd; subst; reflexivity.
Qed.

Lemma C9_normalize_city_witness :
  normalize_city (JStr "  CiTy ") = Return "".
Proof.
  exact (proj2 (C9_normalize_city_fails_only_on_empty "  CiTy ") eq_refl).
Defined.

(* ================================================================= *)
(** ** The tool-call extraction (C3) *)

(** What the extraction does with a reply text, by what it decodes to. *)
Lemma extract_function_call_cases response message content :
  py_getitem response "message" = Return message ->
  py_getitem message "content" = Return content ->
  match loads_or_none content with
  | None => extract_function_call response = Return None
  | Some (JObj o) =>
      extract_function_call response
      = match Dict.get "tool" o with
        | Some tool =>
            if py_truthy tool
            then Return (Some (JObj [("name", tool);
                                     ("arguments",
                                      match Dict.get "arguments" o with
                                      | Some a => a
                                      | None => JObj []
                                      end)]))
            else Return None
        | None => Return None
        end
  | Some _ => extract_function_call response = Raise (PyExn AttributeError None)
  end.
Proof.
  intros Hm Hc. unfold extract_function_call. rewrite Hm. cbn [rbind]. rewrite Hc.
  cbn [rbind]. destruct (loads_or_none content) as [[| b | z | q | t | l | o] |];
    try reflexivity.
  cbn [py_get rbind]. destruct (Dict.get "tool" o) as [tool |]; [| reflexivity].
  destruct (py_truthy tool); reflexivity.
Qed.

(** C3, at a reply the claim covers: the model answers with the text
    [42].  The text decodes, as the JSON number 42 and not as an object, so
    it is not of the expected shape; the extraction raises [AttributeError]
    instead of returning none, and the turn ends with that exception
    instead of a direct answer. *)
Theorem C3_extract_function_call_raises_on_number :
  Json.loads "42" = Some (JInt 42)
  /\ extract_function_call
       (JObj [("message", JObj [("role", JStr "assistant"); ("content", JStr "42")])])
     = Raise (PyExn AttributeError None)
  /\ fst (chat_endpoint Sample.number_reply (mkuser "u1" "What is 6 times 7?") empty_state)
     = Raise (PyExn AttributeError None).
Proof.
  repeat split; vm_compute; reflexivity.
Qed.

(* ================================================================= *)
(** ** One turn of the controller *)

Lemma call_model_state w ms fs s :
  exists p, snd (call_model w ms fs s) = after_post s p
            /\ (fs = None -> p = mkpayload MODEL_NAME ms false 0).
Proof.
  unfold call_model, bind, http_post, lift.
  match goal with
  | |- context [requests_post w OLLAMA_URL ?p] =>
      exists p; destruct (requests_post w OLLAMA_URL p) as [msg | r]
  end; cbn.
  - split; [reflexivity | now intros ->].
  - destruct (raise_for_status r); cbn; (split; [reflexivity | now intros ->]).
Qed.

Lemma call_model_effect w ms fs s x s1 :
  call_model w ms fs s = (x, s1) ->
  function_calls s1 = function_calls s
  /\ sent_get s1 = sent_get s
  /\ exists p, sent_post s1 = sent_post s ++ [p].
Proof.
  intro H. destruct (call_model_state w ms fs s) as (p & Hp & _).
  rewrite H in Hp. cbn in Hp. subst s1. cbn. eauto.
Qed.

(** The turn, once the first reply has been read as a tool call. *)
Lemma chat_endpoint_tool_call w payload s resp s1 tool arguments :
  call_model w (opening_messages payload) (Some get_model_functions) s
  = (Return resp, s1) ->
  extract_function_call resp
  = Return (Some (JObj [("name", tool); ("arguments", arguments)])) ->
  chat_endpoint w payload s
  = match call_function_by_name w tool arguments s1 with
    | (Raise e, s2) => (Raise (HTTPException 500 (exn_str e)), s2)
    | (Return result, s2) =>
        (resp2 <- call_model w
                    (opening_messages payload
                       ++ [mkmsg "assistant" None
                             (Some (JObj [("name", tool); ("arguments", arguments)])) None;
                           mkmsg "function" (Some [Dumps result]) None (Some tool);
                           mkmsg "system" (Some [Lit final_instruction]) None None])
                    None ;;
         final_text <- lift (m <-- py_getitem resp2 "message" ;; py_getitem m "content") ;;
         ret (JObj [("type", JStr "function_call");
                    ("function", tool);
                    ("function_args", arguments);
                    ("function_result", result);
                    ("response", final_text)])) s2
    end.
Proof.
  intros H1 H2. unfold chat_endpoint.
  rewrite (bind_Return _ _ _ _ _ H1).
  unfold bind at 1. unfold lift at 1. rewrite H2.
  unfold bind at 1. unfold try_catch.
  unfold bind at 1. unfold lift at 1. cbn [py_getitem Dict.get String.eqb Ascii.eqb Bool.eqb].
  unfold bind at 1. unfold lift at 1. cbn [py_getitem Dict.get String.eqb Ascii.eqb Bool.eqb].
  destruct (call_function_by_name w tool arguments s1) as [[result | e] s2].
  - reflexivity.
  - reflexivity.
Qed.

(** The turn, once the first reply has been read as a direct answer. *)
Lemma chat_endpoint_direct w payload s resp s1 :
  call_model w (opening_messages payload) (Some get_model_functions) s
  = (Return resp, s1) ->
  extract_function_call resp = Return None ->
  chat_endpoint w payload s
  = (text <- lift (m <-- py_getitem resp "message" ;; py_getitem m "content") ;;
     ret (JObj [("type", JStr "direct"); ("response", text)])) s1.
Proof.
  intros H1 H2. unfold chat_endpoint.
  rewrite (bind_Return _ _ _ _ _ H1).
  unfold bind at 1. unfold lift at 1. now rewrite H2.
Qed.

(* ================================================================= *)
(** ** A tool the registry does not have (C4) *)

Lemma call_function_by_name_unknown w n arguments s :
  Dict.get n FUNCTION_REGISTRY = None ->
  call_function_by_name w (JStr n) arguments s
  = (Raise (PyExn ValueError (Some ("Unknown function: " ++ n)%string)), s).
Proof.
  intro H. unfold call_function_by_name, bind, lift, registry_lookup.
  now rewrite H.
Qed.

(** C4. When the model names a tool that the registry does not have, the
    dispatcher raises [ValueError("Unknown function: ...")] and leaves the
    state as it was (no audit record); the controller turns this into an
    HTTP error with status 500 carrying that message; the audit table is
    the one from before the turn and the only model call issued is the
    first one. *)
Theorem C4_unknown_tool_is_a_turn_failure :
  forall w payload s resp s1 n arguments,
    call_model w (opening_messages payload) (Some get_model_functions) s
    = (Return resp, s1) ->
    extract_function_call resp
    = Return (Some (JObj [("name", JStr n); ("arguments", arguments)])) ->
    Dict.get n FUNCTION_REGISTRY = None ->
    (forall s0,
        call_function_by_name w (JStr n) arguments s0
        = (Raise (PyExn ValueError (Some ("Unknown function: " ++ n)%string)), s0))
    /\ chat_endpoint w payload s
       = (Raise (HTTPException 500 (Some ("Unknown function: " ++ n)%string)), s1)
    /\ function_calls s1 = function_calls s
    /\ exists p, sent_post s1 = sent_post s ++ [p].
Proof.
  intros w payload s resp s1 n arguments H1 H2 H3. split; [| split].
  - intro s0. now apply call_function_by_name_unknown.
  - rewrite (chat_endpoint_tool_call _ _ _ _ _ _ _ H1 H2).
    now rewrite call_function_by_name_unknown.
  - destruct (call_model_effect _ _ _ _ _ _ H1) as (Ha & _ & Hp). now split.
Qed.

Lemma C4_unknown_tool_witness :
  fst (chat_endpoint Sample.unknown_tool_turn (mkuser "u1" "Price of ACME?") empty_state)
  = Raise (HTTPException 500 (Some "Unknown function: get_stock_price"))
  /\ function_calls
       (snd (chat_endpoint Sample.unknown_tool_turn (mkuser "u1" "Price of ACME?")
               empty_state)) = [].
Proof.
  pose (w := Sample.unknown_tool_turn).
  pose (payload := mkuser "u1" "Price of ACME?").
  pose (first := call_model w (opening_messages payload) (Some get_model_functions)
                   empty_state).
  pose (resp := match fst first with Return r => r | Raise _ => JNull end).
  assert (H1 : call_model w (opening_messages payload) (Some get_model_functions)
                 empty_state = (Return resp, snd first))
    by (vm_compute; reflexivity).
  assert (H2 : extract_function_call resp
               = Return (Some (JObj [("name", JStr "get_stock_price");
                                     ("arguments", JObj [])])))
    by (vm_compute; reflexivity).
  destruct (C4_unknown_tool_is_a_turn_failure w payload empty_state resp (snd first)
              "get_stock_price" (JObj []) H1 H2 eq_refl) as (_ & Hc & Ha & _).
  fold w payload. rewrite Hc. cbn [fst snd]. split; [reflexivity | exact Ha].
Defined.

(* ================================================================= *)
(** ** A city or a currency code rejected by its normalizer (C2) *)

Ltac run_dispatch :=
  unfold call_get_weather_for_date, call_get_news_for_city, call_convert_currency;
  cbn [clean_args];
  repeat match goal with
         | H : Dict.get _ _ = _ |- _ => rewrite H
         end;
  cbn [clean_args Dict.set Dict.get String.eqb Ascii.eqb Bool.eqb].

Lemma dispatch_normalizer_rejects w n args e s :
  normalizer_rejects n args e ->
  call_function_by_name w (JStr n) (JObj args) s = (Raise e, s).
Proof.
  intro H; destruct H.
  - rewrite (call_function_by_name_registered w "get_weather_for_date" _
               ["city"; "date"] _ s eq_refl eq_refl).
    cbn [callable]. run_dispatch.
    unfold bind, lift. cbn. unfold get_weather_for_date, bind, lift. now rewrite H1.
  - rewrite (call_function_by_name_registered w "get_news_for_city" _
               ["city"; "page_size"] _ s eq_refl eq_refl).
    cbn [callable]. run_dispatch.
    destruct (Dict.get "page_size" args) as [p |];
      cbn [clean_args Dict.set Dict.get String.eqb Ascii.eqb Bool.eqb];
      unfold bind, lift; cbn; unfold get_news_for_city, bind, lift; now rewrite H0.
  - rewrite (call_function_by_name_registered w "convert_currency" _
               ["amount"; "base"; "target"] _ s eq_refl eq_refl).
    cbn [callable]. run_dispatch.
    unfold bind, lift. cbn. unfold convert_currency, bind, lift. now rewrite H2.
  - rewrite (call_function_by_name_registered w "convert_currency" _
               ["amount"; "base"; "target"] _ s eq_refl eq_refl).
    cbn [callable]. run_dispatch.
    unfold bind, lift. cbn. unfold convert_currency, bind, lift. now rewrite H2, H3.
Qed.

(** C2, as the code has it by design.  When the city normalizer rejects
    the city given to the weather or the news tool, or the currency
    normalizer rejects the base or the target code given to the currency
    tool, the exception leaves the tool and the dispatcher with the state
    untouched; the controller turns it into an HTTP error with status 500
    whose detail is the message of the normalizer; nothing is added to the
    audit table and the only model call issued is the first one. *)
Theorem C2_normalizer_rejection_fails_the_turn :
  forall w payload s resp s1 n args e,
    call_model w (opening_messages payload) (Some get_model_functions) s
    = (Return resp, s1) ->
    extract_function_call resp
    = Return (Some (JObj [("name", JStr n); ("arguments", JObj args)])) ->
    normalizer_rejects n args e ->
    (forall s0, call_function_by_name w (JStr n) (JObj args) s0 = (Raise e, s0))
    /\ chat_endpoint w payload s = (Raise (HTTPException 500 (exn_str e)), s1)
    /\ function_calls s1 = function_calls s
    /\ exists p, sent_post s1 = sent_post s ++ [p].
Proof.
  intros w payload s resp s1 n args e H1 H2 H3. split; [| split].
  - intro s0. now apply dispatch_normalizer_rejects.
  - rewrite (chat_endpoint_tool_call _ _ _ _ _ _ _ H1 H2).
    now rewrite (dispatch_normalizer_rejects w _ _ _ s1 H3).
  - destruct (call_model_effect _ _ _ _ _ _ H1) as (Ha & _ & Hp). now split.
Qed.

Lemma C2_normalizer_rejection_witness :
  fst (chat_endpoint Sample.empty_city_turn (mkuser "u1" "Any news?") empty_state)
  = Raise (HTTPException 500 (Some "City cannot be empty.")).
Proof.
  pose (w := Sample.empty_city_turn).
  pose (payload := mkuser "u1" "Any news?").
  pose (first := call_model w (opening_messages payload) (Some get_model_functions)
                   empty_state).
  pose (resp := match fst first with Return r => r | Raise _ => JNull end).
  pose (args := [("city", JStr "")]).
  assert (H1 : call_model w (opening_messages payload) (Some get_model_functions)
                 empty_state = (Return resp, snd first))
    by (vm_compute; reflexivity).
  assert (H2 : extract_function_call resp
               = Return (Some (JObj [("name", JStr "get_news_for_city");
                                     ("arguments", JObj args)])))
    by (vm_compute; reflexivity).
  assert (H3 : normalizer_rejects "get_news_for_city" args
                 (PyExn ValueError (Some "City cannot be empty."))).
  { apply (reject_news_city args (JStr "")); vm_compute; reflexivity. }
  destruct (C2_normalizer_rejection_fails_the_turn w payload empty_state resp (snd first)
              "get_news_for_city" args _ H1 H2 H3) as (_ & Hc & _).
  fold w payload. rewrite Hc. reflexivity.
Defined.

(** C2, as stated, fails on this turn.  The model asks for the news of the
    city "" and the city normalizer rejects the empty city.  The turn ends
    with an HTTP 500 error rather than with an outcome: no tool result
    carries the error, the only model call made is the first one, and
    nothing was recorded. *)
Lemma C2_counterexample :
  normalize_city (JStr "")
  = Raise (PyExn ValueError (Some "City cannot be empty."))
  /\ fst (chat_endpoint Sample.empty_city_turn (mkuser "u1" "Any news?") empty_state)
     = Raise (HTTPException 500 (Some "City cannot be empty."))
  /\ List.length (sent_post (snd (chat_endpoint Sample.empty_city_turn
                                    (mkuser "u1" "Any news?") empty_state)))
     = 1%nat
  /\ function_calls (snd (chat_endpoint Sample.empty_city_turn
                            (mkuser "u1" "Any news?") empty_state)) = [].
Proof.
  repeat split; vm_compute; reflexivity.
Qed.

(* ================================================================= *)
(** ** The instruction of the second pass (C7) *)

Lemma second_pass_state {A} w ms s (k : json -> M A) :
  (forall a s0, snd (k a s0) = s0) ->
  snd ((resp2 <- call_model w ms None ;; k resp2) s)
  = after_post s (mkpayload MODEL_NAME ms false 0).
Proof.
  intro Hk. destruct (call_model_state w ms None s) as (p & Hp & Hnone).
  rewrite (Hnone eq_refl) in Hp. unfold bind.
  destruct (call_model w ms None s) as [[resp2 | e] s3]; cbn in Hp |- *.
  - now rewrite Hk.
  - exact Hp.
Qed.

(** C7, as the code has it.  After a successful tool execution the
    second model call is made on the opening conversation followed by the
    assistant message recording the tool call, the function message
    carrying the serialised result and one system instruction.  That
    instruction is the same fixed text whatever the tool is: it forbids a
    further tool call and JSON output, and it carries the rule about
    summarising the news in bullet points with title and source. *)
Theorem C7_one_summary_instruction_for_every_tool :
  forall w payload s resp s1 tool arguments result s2,
    call_model w (opening_messages payload) (Some get_model_functions) s
    = (Return resp, s1) ->
    extract_function_call resp
    = Return (Some (JObj [("name", tool); ("arguments", arguments)])) ->
    call_function_by_name w tool arguments s1 = (Return result, s2) ->
    snd (chat_endpoint w payload s)
    = after_post s2
        (mkpayload MODEL_NAME
           (opening_messages payload
              ++ [mkmsg "assistant" None
                    (Some (JObj [("name", tool); ("arguments", arguments)])) None;
                  mkmsg "function" (Some [Dumps result]) None (Some tool);
                  mkmsg "system" (Some [Lit final_instruction]) None None])
           false 0)
    /\ PyStr.contains "Do NOT call any tool." final_instruction = true
    /\ PyStr.contains "Summarize the news in bullet points with title + source."
         final_instruction = true.
Proof.
  intros w payload s resp s1 tool arguments result s2 H1 H2 H3.
  split; [| split; vm_compute; reflexivity].
  rewrite (chat_endpoint_tool_call _ _ _ _ _ _ _ H1 H2), H3.
  apply second_pass_state. intros a s0. unfold bind, lift, ret.
  destruct (py_getitem a "message") as [m | e]; cbn [rbind]; [| reflexivity].
  destruct (py_getitem m "content"); reflexivity.
Qed.

(** C7, as stated, fails on this turn: the tool is [convert_currency],
    not the news tool, and the instruction sent with the second model call
    is the one that asks for the news in bullet points with title and
    source. *)
Lemma C7_counterexample :
  option_map (fun r => py_getitem r "function")
    (match fst (chat_endpoint Sample.currency_turn
                  (mkuser "u1" "Convert 500 INR to USD") empty_state) with
     | Return r => Some r
     | Raise _ => None
     end)
  = Some (Return (JStr "convert_currency"))
  /\ option_map (fun p => List.last (messages p) (mkmsg "" None None None))
       (nth_error (sent_post (snd (chat_endpoint Sample.currency_turn
                                     (mkuser "u1" "Convert 500 INR to USD")
                                     empty_state))) 1)
     = Some (mkmsg "system"
               (Some [Lit "Now write a final user-friendly answer. Do NOT call any tool. Do NOT return JSON. Summarize the news in bullet points with title + source."])
               None None).
Proof.
  split; vm_compute; reflexivity.
Qed.

Lemma C7_one_summary_instruction_witness :
  sent_post (snd (chat_endpoint Sample.currency_turn
                    (mkuser "u1" "Convert 500 INR to USD") empty_state))
  = sent_post (snd (call_model Sample.currency_turn
                      (opening_messages (mkuser "u1" "Convert 500 INR to USD"))
                      (Some get_model_functions) empty_state))
    ++ [mkpayload MODEL_NAME
          (opening_messages (mkuser "u1" "Convert 500 INR to USD")
             ++ [mkmsg "assistant" None
                   (Some (JObj [("name", JStr "convert_currency");
                                ("arguments",
                                 JObj [("amount", JInt 500); ("base", JStr "inr");
                                       ("target", JStr "usd")])])) None;
                 mkmsg "function"
                   (Some [Dumps (JObj [("amount", JInt 500); ("base", JStr "INR");
                                       ("target", JStr "USD");
                                       ("converted", JFloat (598 # 100));
                                       ("rate", JFloat ((598 # 100) / inject_Z 500))])])
                   None (Some (JStr "convert_currency"));
                 mkmsg "system" (Some [Lit final_instruction]) None None])
          false 0].
Proof.
  pose (w := Sample.currency_turn).
  pose (payload := mkuser "u1" "Convert 500 INR to USD").
  pose (first := call_model w (opening_messages payload) (Some get_model_functions)
                   empty_state).
  pose (resp := match fst first with Return r => r | Raise _ => JNull end).
  pose (arguments := JObj [("amount", JInt 500); ("base", JStr "inr");
                            ("target", JStr "usd")]).
  pose (done := call_function_by_name w (JStr "convert_currency") arguments (snd first)).
  pose (result := match fst done with Return r => r | Raise _ => JNull end).
  assert (H1 : call_model w (opening_messages payload) (Some get_model_functions)
                 empty_state = (Return resp, snd first))
    by (vm_compute; reflexivity).
  assert (H2 : extract_function_call resp
               = Return (Some (JObj [("name", JStr "convert_currency");
                                     ("arguments", arguments)])))
    by (vm_compute; reflexivity).
  assert (H3 : call_function_by_name w (JStr "convert_currency") arguments (snd first)
               = (Return result, snd done))
    by (vm_compute; reflexivity).
  destruct (C7_one_summary_instruction_for_every_tool w payload empty_state resp
              (snd first) (JStr "convert_currency") arguments result (snd done)
              H1 H2 H3) as (Hs & _ & _).
  fold w payload. rewrite Hs. vm_compute. reflexivity.
Defined.

(* ================================================================= *)
(** ** The news tool (C8) *)

Lemma firstn_length_le {A} (n : nat) (l : list A) : (List.length (firstn n l) <= n)%nat.
Proof.
  revert l; induction n as [| n IH]; intros [| x l]; simpl; try lia.
  specialize (IH l). lia.
Qed.

Lemma chars_take_length (n : nat) (s : string) :
  (List.length (chars (PyStr.take n s)) <= n)%nat.
Proof.
  revert s; induction n as [| n IH]; intros [| c s]; simpl; try lia.
  specialize (IH s). lia.
Qed.

Lemma slice_items_length v n page items :
  py_slice_to v n = Return page -> py_iter page = Return items ->
  (List.length items <= Z.to_nat n)%nat.
Proof.
  destruct v; simpl; try discriminate; intro H; injection H as <-; simpl;
    intro H; injection H as <-.
  - apply chars_take_length.
  - apply firstn_length_le.
Qed.

Lemma build_articles_length items : forall articles,
  build_articles items = Return articles -> List.length articles = List.length items.
Proof.
  induction items as [| a items IH]; simpl; intros articles H.
  - now injection H as <-.
  - destruct (py_get a "title" JNull); [| discriminate]; cbn [rbind] in H.
    destruct (py_get a "source" JNull) as [src |]; [| discriminate]; cbn [rbind] in H.
    destruct (py_get (py_or src (JObj [])) "name" JNull); [| discriminate];
      cbn [rbind] in H.
    destruct (py_get a "publishedAt" JNull); [| discriminate]; cbn [rbind] in H.
    destruct (py_get a "url" JNull); [| discriminate]; cbn [rbind] in H.
    destruct (py_get a "description" JNull); [| discriminate]; cbn [rbind] in H.
    destruct (build_articles items) as [rest |]; [| discriminate]; cbn [rbind] in H.
    injection H as <-. simpl. f_equal. now apply IH.
Qed.

Ltac split_match H :=
  match type of H with
  | context [match ?x with _ => _ end] => destruct x eqn:?
  end.

(** The request of the news tool, whatever the call ends with: none, or
    one request carrying the clamped page size. *)
Lemma news_request_clamped w city p s x s' :
  get_news_for_city w city (JInt p) s = (x, s') ->
  sent_get s' = sent_get s
  \/ exists city' api_key,
       sent_get s'
       = sent_get s
         ++ [("https://newsapi.org/v2/everything",
              [("q", JStr city'); ("pageSize", JInt (clamp_page_size p));
               ("sortBy", JStr "publishedAt"); ("language", JStr "en");
               ("apiKey", JStr api_key)])].
Proof.
  unfold get_news_for_city, bind, lift, init_db, ret, log_call.
  destruct (normalize_city city) as [city' |].
  2: { intro H; injection H as _ <-. now left. }
  destruct (getenv_key w "NEWSAPI_KEY") as [api_key |].
  2: { intro H; injection H as _ <-. now left. }
  cbn [py_int]. unfold http_get.
  destruct (requests_get w _ _) as [msg | resp].
  { intro H; injection H as _ <-. right. now exists city', api_key. }
  destruct (negb (status resp =? 200)).
  - destruct (response_json resp); intro H; injection H as _ <-;
      right; now exists city', api_key.
  - destruct (response_json resp) as [data |].
    2: { intro H; injection H as _ <-. right. now exists city', api_key. }
    match goal with
    | |- context [rbind ?a ?k] => destruct (rbind a k)
    end; intro H; injection H as _ <-; right; now exists city', api_key.
Qed.

(** C8. Called with an integer [page_size], the news tool asks the
    provider for [max(1, min(page_size, 20))] articles: whatever the call
    ends with, it has sent no request or one request with that [pageSize].
    When it returns a result that is not an error, the request has been
    sent, the result is [{city, count, articles}], [count] is the length of
    [articles], and that length is at most the clamped page size. *)
Theorem C8_news_page_size_clamped :
  forall w city p s,
    clamp_page_size p = Z.max 1 (Z.min p 20)
    /\ 1 <= clamp_page_size p <= 20
    /\ (forall x s',
           get_news_for_city w city (JInt p) s = (x, s') ->
           sent_get s' = sent_get s
           \/ exists city' api_key,
                sent_get s'
                = sent_get s
                  ++ [("https://newsapi.org/v2/everything",
                       [("q", JStr city'); ("pageSize", JInt (clamp_page_size p));
                        ("sortBy", JStr "publishedAt"); ("language", JStr "en");
                        ("apiKey", JStr api_key)])])
    /\ (forall r s',
           get_news_for_city w city (JInt p) s = (Return r, s') ->
           is_error_result r = false ->
           exists city' api_key articles,
             normalize_city city = Return city'
             /\ sent_get s'
                = sent_get s
                  ++ [("https://newsapi.org/v2/everything",
                       [("q", JStr city'); ("pageSize", JInt (clamp_page_size p));
                        ("sortBy", JStr "publishedAt"); ("language", JStr "en");
                        ("apiKey", JStr api_key)])]
             /\ r = JObj [("city", JStr city');
                          ("count", JInt (Z.of_nat (List.length articles)));
                          ("articles", JArr articles)]
             /\ Z.of_nat (List.length articles) <= clamp_page_size p).
Proof.
  intros w city p s.
  assert (Hclamp : 1 <= clamp_page_size p <= 20) by (unfold clamp_page_size; lia).
  split; [reflexivity |]. split; [exact Hclamp |].
  split; [intros x s'; apply news_request_clamped |].
  intros r s' H Herr.
  unfold get_news_for_city in H.
  apply bind_Return_inv in H. destruct H as (city' & s1 & Hcity & H).
  unfold lift in Hcity. injection Hcity as Hcity <-.
  apply bind_Return_inv in H. destruct H as (u & s2 & Hinit & H).
  unfold init_db, ret in Hinit. injection Hinit as _ <-.
  destruct (getenv_key w "NEWSAPI_KEY") as [api_key |].
  2: { unfold bind, log_call, ret in H. injection H as <- _. discriminate Herr. }
  apply bind_Return_inv in H. destruct H as (n & s3 & Hn & H).
  unfold lift in Hn. cbn [py_int] in Hn. injection Hn as <- <-.
  apply bind_Return_inv in H. destruct H as (resp & s4 & Hget & H).
  unfold http_get in Hget.
  split_match Hget; [discriminate |]. injection Hget as -> <-.
  destruct (negb (status resp =? 200)).
  { apply bind_Return_inv in H. destruct H as (err & s5 & _ & H).
    unfold bind, log_call, ret in H. injection H as <- _. discriminate Herr. }
  apply bind_Return_inv in H. destruct H as (data & s5 & Hdata & H).
  unfold lift in Hdata. injection Hdata as Hdata <-.
  apply bind_Return_inv in H. destruct H as (articles & s6 & Hart & H).
  unfold lift in Hart. injection Hart as Hart <-.
  unfold bind, log_call, ret in H. injection H as <- <-.
  exists city', api_key, articles.
  repeat split; try reflexivity; try assumption.
  destruct (py_get data "articles" (JArr [])) as [all |]; [| discriminate].
  cbn [rbind] in Hart.
  destruct (py_slice_to all (clamp_page_size p)) as [page |] eqn:Hpage; [| discriminate].
  cbn [rbind] in Hart.
  destruct (py_iter page) as [items |] eqn:Hitems; [| discriminate].
  cbn [rbind] in Hart.
  rewrite (build_articles_length _ _ Hart).
  pose proof (slice_items_length _ _ _ _ Hpage Hitems). lia.
Qed.

Lemma C8_news_page_size_witness :
  exists city' api_key articles,
    normalize_city (JStr "pune city") = Return city'
    /\ sent_get (snd (get_news_for_city Sample.news_world (JStr "pune city") (JInt 2)
                        empty_state))
       = [("https://newsapi.org/v2/everything",
           [("q", JStr city'); ("pageSize", JInt 2);
            ("sortBy", JStr "publishedAt"); ("language", JStr "en");
            ("apiKey", JStr api_key)])]
    /\ fst (get_news_for_city Sample.news_world (JStr "pune city") (JInt 2) empty_state)
       = Return (JObj [("city", JStr city');
                       ("count", JInt (Z.of_nat (List.length articles)));
                       ("articles", JArr articles)])
    /\ Z.of_nat (List.length articles) <= 2.
Proof.
  pose (run := get_news_for_city Sample.news_world (JStr "pune city") (JInt 2) empty_state).
  pose (r := match fst run with Return r => r | Raise _ => JNull end).
  assert (H : get_news_for_city Sample.news_world (JStr "pune city") (JInt 2) empty_state
              = (Return r, snd run)) by (vm_compute; reflexivity).
  destruct (proj2 (proj2 (proj2 (C8_news_page_size_clamped
                                   Sample.news_world (JStr "pune city") 2 empty_state)))
              r (snd run) H eq_refl)
    as (city' & api_key & articles & Hc & Hsent & Hr & Hlen).
  exists city', api_key, articles. fold run.
  split; [exact Hc |]. split; [exact Hsent |]. split; [| exact Hlen].
  change (fst run) with (Return (A := json) r). now rewrite Hr.
Defined.

(* ================================================================= *)
(** ** The currency tool (C10) *)

Lemma toupper_idem (c : ascii) : PyStr.toupper (PyStr.toupper c) = PyStr.toupper c.
Proof.
  destruct c as [c0 c1 c2 c3 c4 c5 c6 c7].
  destruct c0, c1, c2, c3, c4, c5, c6, c7; vm_compute; reflexivity.
Qed.

Lemma upper_idem (s : string) : PyStr.upper (PyStr.upper s) = PyStr.upper s.
Proof.
  unfold PyStr.upper. induction s as [| c s IH]; simpl; [reflexivity |].
  now rewrite toupper_idem, IH.
Qed.

Lemma normalize_currency_upper code c :
  normalize_currency code = Return c ->
  exists t, code = JStr t /\ c = PyStr.upper (PyStr.strip t) /\ PyStr.upper c = c.
Proof.
  unfold normalize_currency. destruct (negb (py_truthy code)); [discriminate |].
  destruct code; try discriminate. intro H; injection H as <-.
  eexists; repeat split. apply upper_idem.
Qed.

(** The divisor of a guarded division is not zero. *)
Lemma truthy_number_nonzero v q :
  py_truthy v = true -> py_number v = Some q -> (Qnum q =? 0) = false.
Proof.
  destruct v; simpl; try discriminate.
  - destruct b; [| discriminate]. intros _ H; now injection H as <-.
  - intros Hz H; injection H as <-. simpl. now destruct (z =? 0).
  - intros Hq H; injection H as <-. now destruct (Qnum q0 =? 0).
Qed.

Lemma guarded_division_never_by_zero converted amount msg :
  (if py_truthy amount then py_truediv converted amount else Return JNull)
  <> Raise (PyExn ZeroDivisionError msg).
Proof.
  destruct (py_truthy amount) eqn:Ht; [| discriminate].
  unfold py_truediv. destruct (py_number converted); [| discriminate].
  destruct (py_number amount) as [y |] eqn:Hy; [| discriminate].
  now rewrite (truthy_number_nonzero _ _ Ht Hy).
Qed.

Lemma normalize_currency_not_zero_division code msg :
  normalize_currency code <> Raise (PyExn ZeroDivisionError msg).
Proof.
  unfold normalize_currency. destruct (negb (py_truthy code)); [discriminate |].
  destruct code; discriminate.
Qed.

Lemma py_getitem_not_zero_division d k msg :
  py_getitem d k <> Raise (PyExn ZeroDivisionError msg).
Proof.
  unfold py_getitem. destruct d; try discriminate. destruct (Dict.get k o); discriminate.
Qed.

(** The request of the currency tool and what follows it, on the two
    outcomes of the guarded request. *)
Lemma convert_currency_fetch w params s :
  let s1 := mkstate (function_calls s)
              (sent_get s ++ [("https://api.frankfurter.app/latest", params)])
              (sent_post s) in
  try_catch
    (r <- http_get w "https://api.frankfurter.app/latest" params ;;
     data <- lift (response_json r) ;;
     ret (inr (r, data)))
    (fun e =>
       ret (inl (JObj [("error",
                        JStr ("Currency request failed: " ++ fmt_exn e)%string)]))) s
  = match requests_get w "https://api.frankfurter.app/latest" params with
    | HttpOk r =>
        match response_json r with
        | Return data => (Return (inr (r, data)), s1)
        | Raise e =>
            (Return (inl (JObj [("error",
                                 JStr ("Currency request failed: " ++ fmt_exn e)%string)])),
             s1)
        end
    | HttpFail m =>
        (Return (inl (JObj [("error",
                             JStr ("Currency request failed: " ++ m)%string)])), s1)
    end.
Proof.
  unfold try_catch, bind, http_get, lift, ret.
  destruct (requests_get w "https://api.frankfurter.app/latest" params) as [m | r].
  - reflexivity.
  - destruct (response_json r); reflexivity.
Qed.

(** C10. The currency tool never raises [ZeroDivisionError].  When it
    returns a result that is not an error, the result is
    [{amount, base, target, converted, rate}]: [base] and [target] are the
    upper-cased (and white-space stripped) codes it was given; [rate] is
    [None] when [amount] is a number equal to zero, and [converted / amount]
    when [amount] is a number different from zero. *)
Theorem C10_convert_currency_rate :
  forall w amount base target s,
    (forall msg s', convert_currency w amount base target s
                    <> (Raise (PyExn ZeroDivisionError msg), s'))
    /\ (forall r s',
           convert_currency w amount base target s = (Return r, s') ->
           is_error_result r = false ->
           exists b t converted rate,
             base = JStr b /\ target = JStr t
             /\ r = JObj [("amount", amount);
                          ("base", JStr (PyStr.upper (PyStr.strip b)));
                          ("target", JStr (PyStr.upper (PyStr.strip t)));
                          ("converted", converted); ("rate", rate)]
             /\ PyStr.upper (PyStr.upper (PyStr.strip b)) = PyStr.upper (PyStr.strip b)
             /\ PyStr.upper (PyStr.upper (PyStr.strip t)) = PyStr.upper (PyStr.strip t)
             /\ (forall q, py_number amount = Some q -> Qnum q = 0 -> rate = JNull)
             /\ (forall q, py_number amount = Some q -> Qnum q <> 0 ->
                           exists c, py_number converted = Some c
                                     /\ rate = JFloat (c / q))).
Proof.
  intros w amount base target s. unfold convert_currency. split.
  - intros msg s' H.
    unfold bind at 1 in H. unfold lift at 1 in H.
    destruct (normalize_currency base) as [b |] eqn:Hb.
    2: { injection H as -> _. exact (normalize_currency_not_zero_division base msg Hb). }
    unfold bind at 1 in H. unfold lift at 1 in H.
    destruct (normalize_currency target) as [t |] eqn:Ht.
    2: { injection H as -> _. exact (normalize_currency_not_zero_division target msg Ht). }
    unfold bind at 1 in H. rewrite convert_currency_fetch in H.
    destruct (requests_get w _ _) as [m | resp]; [discriminate |].
    destruct (response_json resp) as [data |]; [| discriminate].
    destruct (negb (status resp =? 200)); [discriminate |].
    unfold bind, lift, ret in H.
    destruct (py_getitem data "rates") as [rates |] eqn:Hr; cbn [rbind] in H.
    2: { injection H as -> _. exact (py_getitem_not_zero_division data "rates" msg Hr). }
    destruct (py_getitem rates (PyStr.upper t)) as [converted |] eqn:Hc.
    2: { injection H as -> _.
         exact (py_getitem_not_zero_division rates (PyStr.upper t) msg Hc). }
    destruct (if py_truthy amount then py_truediv converted amount else Return JNull)
      as [rate |] eqn:Hrate; [discriminate |].
    injection H as -> _.
    exact (guarded_division_never_by_zero converted amount msg Hrate).
  - intros r s' H Herr.
    apply bind_Return_inv in H. destruct H as (b' & s1 & Hb & H).
    unfold lift in Hb. injection Hb as Hb <-.
    apply bind_Return_inv in H. destruct H as (t' & s2 & Ht & H).
    unfold lift in Ht. injection Ht as Ht <-.
    destruct (normalize_currency_upper _ _ Hb) as (b & -> & -> & Hbu).
    destruct (normalize_currency_upper _ _ Ht) as (t & -> & -> & Htu).
    unfold bind at 1 in H. rewrite convert_currency_fetch in H.
    destruct (requests_get w _ _) as [m | resp].
    { unfold ret in H. injection H as <- _. discriminate Herr. }
    destruct (response_json resp) as [data |].
    2: { unfold ret in H. injection H as <- _. discriminate Herr. }
    destruct (negb (status resp =? 200)).
    { unfold ret in H. injection H as <- _. discriminate Herr. }
    apply bind_Return_inv in H. destruct H as (converted & s3 & Hc & H).
    apply bind_Return_inv in H. destruct H as (rate & s4 & Hrate & H).
    unfold lift in Hrate. injection Hrate as Hrate _.
    unfold ret in H. injection H as <- _.
    exists b, t, converted, rate. rewrite !Hbu, !Htu.
    repeat split; try reflexivity.
    + intros q Hq Hz. destruct amount; simpl in Hq; try discriminate;
        injection Hq as <-; simpl in Hz.
      * destruct b0; simpl in Hz; [discriminate |]. simpl in Hrate. congruence.
      * subst z. simpl in Hrate. congruence.
      * simpl in Hrate. rewrite Hz in Hrate. simpl in Hrate. congruence.
    + intros q Hq Hnz.
      assert (Htruthy : py_truthy amount = true).
      { destruct amount; simpl in Hq; try discriminate; injection Hq as <-; simpl in *.
        - destruct b0; [reflexivity | congruence].
        - destruct (z =? 0) eqn:E; [apply Z.eqb_eq in E; congruence | reflexivity].
        - destruct (Qnum q0 =? 0) eqn:E; [apply Z.eqb_eq in E; congruence | reflexivity]. }
      rewrite Htruthy in Hrate. unfold py_truediv in Hrate. rewrite Hq in Hrate.
      destruct (py_number converted) as [c |]; [| discriminate].
      destruct (Qnum q =? 0); [discriminate |].
      exists c. split; [reflexivity | congruence].
Qed.

Lemma C10_convert_currency_witness :
  fst (convert_currency Sample.currency_turn (JInt 500) (JStr " inr") (JStr "usd")
         empty_state)
  = Return (JObj [("amount", JInt 500); ("base", JStr "INR"); ("target", JStr "USD");
                  ("converted", JFloat (598 # 100));
                  ("rate", JFloat ((598 # 100) / inject_Z 500))]).
Proof.
  pose (run := convert_currency Sample.currency_turn (JInt 500) (JStr " inr") (JStr "usd")
                 empty_state).
  pose (r := match fst run with Return r => r | Raise _ => JNull end).
  assert (H : convert_currency Sample.currency_turn (JInt 500) (JStr " inr") (JStr "usd")
                empty_state = (Return r, snd run)) by (vm_compute; reflexivity).
  destruct (proj2 (C10_convert_currency_rate _ _ _ _ _) r (snd run) H eq_refl)
    as (b & t & converted & rate & Hb & Ht & Hr & _ & _ & _ & Hrate).
  destruct (Hrate (inject_Z 500) eq_refl) as (c & Hc & Hq); [discriminate |].
  injection Hb as <-. injection Ht as <-.
  fold run. change (fst run) with (Return (A := json) r). rewrite Hr. subst rate.
  assert (Hconv : converted = JFloat (598 # 100)).
  { assert (Hfield : Dict.get "converted"
                       (match r with JObj o => o | _ => [] end)
                     = Some (JFloat (598 # 100))) by (vm_compute; reflexivity).
    rewrite Hr in Hfield. cbn in Hfield. congruence. }
  subst converted. simpl in Hc. injection Hc as <-. reflexivity.
Defined.

(* ================================================================= *)
(** ** The audit records (C1) *)

Lemma keeps_audit_lift {A} (r : result A) : keeps_audit (lift r).
Proof. intros s x s' H. unfold lift in H. now injection H as _ <-. Qed.

Lemma keeps_audit_ret {A} (a : A) : keeps_audit (ret a).
Proof. intros s x s' H. unfold ret in H. now injection H as _ <-. Qed.

Lemma keeps_audit_raise {A} (e : exn) : keeps_audit (@raise A e).
Proof. intros s x s' H. unfold raise in H. now injection H as _ <-. Qed.

Lemma keeps_audit_http_get w url params : keeps_audit (http_get w url params).
Proof.
  intros s x s' H. unfold http_get in H.
  destruct (requests_get w url params); now injection H as _ <-.
Qed.

Lemma keeps_audit_bind {A B} (m : M A) (k : A -> M B) :
  keeps_audit m -> (forall a, keeps_audit (k a)) -> keeps_audit (bind m k).
Proof.
  intros Hm Hk s x s' H. unfold bind in H.
  destruct (m s) as [[a | e] s1] eqn:E.
  - rewrite (Hk a _ _ _ H). exact (Hm _ _ _ E).
  - injection H as _ <-. exact (Hm _ _ _ E).
Qed.

Lemma keeps_audit_try_catch {A} (m : M A) (h : exn -> M A) :
  keeps_audit m -> (forall e, keeps_audit (h e)) -> keeps_audit (try_catch m h).
Proof.
  intros Hm Hh s x s' H. unfold try_catch in H.
  destruct (m s) as [[a | e] s1] eqn:E.
  - injection H as _ <-. exact (Hm _ _ _ E).
  - rewrite (Hh e _ _ _ H). exact (Hm _ _ _ E).
Qed.

Lemma keeps_audit_geocode w city : keeps_audit (_geocode_city w city).
Proof.
  unfold _geocode_city. destruct (getenv_key w "OPENWEATHER_API_KEY").
  - apply keeps_audit_bind; [apply keeps_audit_http_get |]. intro r.
    destruct (negb (status r =? 200)); [apply keeps_audit_ret |].
    apply keeps_audit_bind; [apply keeps_audit_lift |]. intro arr.
    destruct (negb (py_truthy arr)); [apply keeps_audit_ret | apply keeps_audit_lift].
  - apply keeps_audit_ret.
Qed.

(** The currency tool writes nothing to the audit table. *)
Lemma keeps_audit_convert_currency w amount base target :
  keeps_audit (convert_currency w amount base target).
Proof.
  unfold convert_currency.
  apply keeps_audit_bind; [apply keeps_audit_lift |]. intro b.
  apply keeps_audit_bind; [apply keeps_audit_lift |]. intro t.
  apply keeps_audit_bind.
  - apply keeps_audit_try_catch; [| intro e; apply keeps_audit_ret].
    apply keeps_audit_bind; [apply keeps_audit_http_get |]. intro r.
    apply keeps_audit_bind; [apply keeps_audit_lift |]. intro data.
    apply keeps_audit_ret.
  - intros [result | [r data]]; [apply keeps_audit_ret |].
    destruct (negb (status r =? 200)); [apply keeps_audit_ret |].
    apply keeps_audit_bind; [apply keeps_audit_lift |]. intro converted.
    apply keeps_audit_bind; [apply keeps_audit_lift |]. intro rate.
    apply keeps_audit_ret.
Qed.

(** The end of every path of a tool that returns: one row, then the
    result. *)
Lemma log_then_return w name logged result s r s' :
  (log_call w name logged result ;;; ret result) s = (Return r, s') ->
  function_calls s'
  = function_calls s ++ [mkaudit (utcnow w) name (JObj logged) r].
Proof.
  unfold bind, log_call, ret. intro H. now injection H as <- <-.
Qed.

Ltac step_keep H a s1 Hkeep :=
  apply bind_Return_inv in H; destruct H as (a & s1 & Hkeep & H);
  first [ apply keeps_audit_lift in Hkeep
        | apply keeps_audit_http_get in Hkeep
        | apply keeps_audit_geocode in Hkeep
        | apply keeps_audit_ret in Hkeep ].

Ltac finish_logged H := apply log_then_return in H; congruence.

Lemma get_weather_for_date_audit w city date s r s' :
  get_weather_for_date w city date s = (Return r, s') ->
  exists city' date',
    normalize_city city = Return city'
    /\ normalize_date (today w) date = Return date'
    /\ function_calls s'
       = function_calls s
         ++ [mkaudit (utcnow w) "get_weather_for_date"
               (JObj [("city", JStr city'); ("date", JStr date')]) r].
Proof.
  intro H. unfold get_weather_for_date in H.
  apply bind_Return_inv in H. destruct H as (city' & s1 & Hcity & H).
  unfold lift in Hcity. injection Hcity as Hcity <-.
  apply bind_Return_inv in H. destruct H as (date' & s2 & Hdate & H).
  unfold lift in Hdate. injection Hdate as Hdate <-.
  exists city', date'. split; [assumption |]. split; [assumption |].
  apply bind_Return_inv in H. destruct H as (u & s3 & Hinit & H).
  unfold init_db, ret in Hinit. injection Hinit as _ <-.
  destruct (getenv_key w "OPENWEATHER_API_KEY") as [api_key |]; [| finish_logged H].
  destruct (fromisoformat date') as [target | e]; [| finish_logged H].
  step_keep H geo s4 Hgeo.
  destruct geo as [geo |]; [| finish_logged H].
  step_keep H lat s5 Hlat. step_keep H lon s6 Hlon.
  destruct (date_eqb target (today w)).
  - step_keep H resp s7 Hget.
    destruct (negb (status resp =? 200)).
    + step_keep H err s8 Herr. finish_logged H.
    + step_keep H d s8 Hd. step_keep H res s9 Hres. finish_logged H.
  - step_keep H resp s7 Hget.
    destruct (negb (status resp =? 200)).
    + step_keep H err s8 Herr. finish_logged H.
    + step_keep H data s8 Hdata. step_keep H entries s9 Hentries.
      step_keep H grouped s10 Hgrouped.
      destruct (Dict.get (isoformat target) grouped) as [day_entries |].
      * step_keep H res s11 Hres. finish_logged H.
      * finish_logged H.
Qed.

Lemma get_news_for_city_audit w city page_size s r s' :
  get_news_for_city w city page_size s = (Return r, s') ->
  exists city',
    normalize_city city = Return city'
    /\ function_calls s'
       = function_calls s
         ++ [mkaudit (utcnow w) "get_news_for_city"
               (JObj [("city", JStr city'); ("page_size", page_size)]) r].
Proof.
  intro H. unfold get_news_for_city in H.
  apply bind_Return_inv in H. destruct H as (city' & s1 & Hcity & H).
  unfold lift in Hcity. injection Hcity as Hcity <-.
  exists city'. split; [assumption |].
  apply bind_Return_inv in H. destruct H as (u & s3 & Hinit & H).
  unfold init_db, ret in Hinit. injection Hinit as _ <-.
  destruct (getenv_key w "NEWSAPI_KEY") as [api_key |]; [| finish_logged H].
  step_keep H n s4 Hn. step_keep H resp s5 Hget.
  destruct (negb (status resp =? 200)).
  - step_keep H err s6 Herr. finish_logged H.
  - step_keep H data s6 Hdata. step_keep H articles s7 Harts. finish_logged H.
Qed.

(** C1, as the code has it.  When the dispatcher returns from the weather
    tool or from the news tool, whether with data or with an error-shaped
    result, exactly one record has been appended to the audit table.  It
    holds the tool name, the arguments the tool itself wrote (the city and
    the date as its normalizers returned them; for the news tool the page
    size as given, or its default 5), not the raw mapping the model sent,
    and the very result the dispatcher returns. *)
Theorem C1_one_audit_record_per_return :
  forall w name args s r s',
    name = "get_weather_for_date" \/ name = "get_news_for_city" ->
    call_function_by_name w (JStr name) (JObj args) s = (Return r, s') ->
    exists logged,
      audited_arguments w name args logged
      /\ function_calls s'
         = function_calls s ++ [mkaudit (utcnow w) name (JObj logged) r].
Proof.
  intros w name args s r s' [-> | ->] H.
  - rewrite (call_function_by_name_registered w "get_weather_for_date" _
               ["city"; "date"] _ s eq_refl eq_refl) in H.
    cbn [callable] in H. unfold call_get_weather_for_date in H.
    cbn [clean_args] in H.
    destruct (Dict.get "city" args) as [city |] eqn:Hc;
      destruct (Dict.get "date" args) as [date |] eqn:Hd;
      cbn in H; try discriminate H.
    destruct (get_weather_for_date_audit _ _ _ _ _ _ H) as (city' & date' & H1 & H2 & H3).
    eexists. split; [| exact H3]. now apply (audited_weather w args city date).
  - rewrite (call_function_by_name_registered w "get_news_for_city" _
               ["city"; "page_size"] _ s eq_refl eq_refl) in H.
    cbn [callable] in H. unfold call_get_news_for_city in H.
    cbn [clean_args] in H.
    destruct (Dict.get "city" args) as [city |] eqn:Hc;
      destruct (Dict.get "page_size" args) as [p |] eqn:Hp;
      cbn in H; try discriminate H.
    + destruct (get_news_for_city_audit _ _ _ _ _ _ H) as (city' & H1 & H3).
      eexists. split; [| exact H3].
      pose proof (audited_news w args city city' Hc H1) as Ha. now rewrite Hp in Ha.
    + destruct (get_news_for_city_audit _ _ _ _ _ _ H) as (city' & H1 & H3).
      eexists. split; [| exact H3].
      pose proof (audited_news w args city city' Hc H1) as Ha. now rewrite Hp in Ha.
Qed.

Lemma C1_one_audit_record_witness :
  exists logged,
    audited_arguments Sample.offline "get_weather_for_date"
      [("city", JStr "pune city"); ("date", JStr "19/02/2026"); ("extra", JInt 1)] logged
    /\ function_calls
         (snd (call_function_by_name Sample.offline (JStr "get_weather_for_date")
                 Sample.raw_weather empty_state))
       = [mkaudit "2026-02-19T09:30:00+00:00" "get_weather_for_date" (JObj logged)
            (JObj [("error", JStr "Missing OPENWEATHER_API_KEY in environment")])].
Proof.
  pose (run := call_function_by_name Sample.offline (JStr "get_weather_for_date")
                 Sample.raw_weather empty_state).
  assert (H : call_function_by_name Sample.offline (JStr "get_weather_for_date")
                (JObj [("city", JStr "pune city"); ("date", JStr "19/02/2026");
                       ("extra", JInt 1)]) empty_state
              = (Return (JObj [("error",
                                JStr "Missing OPENWEATHER_API_KEY in environment")]),
                 snd run)) by (vm_compute; reflexivity).
  destruct (C1_one_audit_record_per_return _ _ _ _ _ _ (or_introl eq_refl) H)
    as (logged & Ha & Hf).
  exists logged. split; [exact Ha | exact Hf].
Defined.

(** C1, as stated, fails on this call: the model sends
    [{city: "pune city", date: "19/02/2026", extra: 1}] for the weather
    tool; the call returns (an error-shaped result, no API key being set)
    and the one record appended holds [{city: "Pune", date: "2026-02-19"}],
    which is not the raw mapping. *)
Lemma C1_counterexample :
  call_function_by_name Sample.offline (JStr "get_weather_for_date")
    Sample.raw_weather empty_state
  = (Return (JObj [("error", JStr "Missing OPENWEATHER_API_KEY in environment")]),
     mkstate
       [mkaudit "2026-02-19T09:30:00+00:00" "get_weather_for_date"
          (JObj [("city", JStr "Pune"); ("date", JStr "2026-02-19")])
          (JObj [("error", JStr "Missing OPENWEATHER_API_KEY in environment")])]
       [] [])
  /\ JObj [("city", JStr "Pune"); ("date", JStr "2026-02-19")] <> Sample.raw_weather.
Proof.
  split; [vm_compute; reflexivity | discriminate].
Qed.

(* ================================================================= *)
(** * Further properties of the code *)

(** ** The sanitization loop *)

Lemma dict_keys_set_new {V} (d : list (string * V)) k v :
  Dict.get k d = None -> Dict.keys (Dict.set d k v) = Dict.keys d ++ [k].
Proof.
  induction d as [| [k0 v0] d IH]; simpl; [reflexivity |].
  destruct (String.eqb k0 k); [discriminate |].
  intro H. simpl. f_equal. now apply IH.
Qed.

Lemma dict_get_none_keys {V} (d : list (string * V)) k :
  Dict.get k d = None <-> ~ In k (Dict.keys d).
Proof.
  split.
  - intros H Hin. apply dict_keys_get in Hin. destruct Hin as [v Hv]. congruence.
  - intro H. destruct (Dict.get k d) as [v |] eqn:E; [| reflexivity].
    exfalso. apply H. exact (dict_get_keys _ _ _ E).
Qed.

Lemma clean_args_keys keys arguments : forall cleaned,
  NoDup keys ->
  (forall k, In k keys -> Dict.get k cleaned = None) ->
  Dict.keys (clean_args keys arguments cleaned)
  = Dict.keys cleaned ++ filter (fun k => Dict.mem k arguments) keys.
Proof.
  induction keys as [| k0 keys IH]; intros cleaned Hnd Hfresh; simpl.
  - now rewrite app_nil_r.
  - inversion Hnd as [| ? ? Hnotin Hnd']; subst.
    unfold Dict.mem at 1. destruct (Dict.get k0 arguments) as [v |] eqn:E.
    + rewrite IH; [| assumption |].
      * rewrite dict_keys_set_new by (apply Hfresh; now left).
        now rewrite <- app_assoc.
      * intros k Hk. rewrite dict_get_set.
        destruct (String.eqb k0 k) eqn:Ek.
        -- apply String.eqb_eq in Ek. subst. contradiction.
        -- apply Hfresh. now right.
    + apply IH; [assumption |]. intros k Hk. apply Hfresh. now right.
Qed.

Lemma clean_args_keeps keys arguments : forall cleaned k v,
  Dict.get k cleaned = Some v ->
  Dict.get k arguments = Some v ->
  Dict.get k (clean_args keys arguments cleaned) = Some v.
Proof.
  induction keys as [| k0 keys IH]; intros cleaned k v Hc Ha; simpl; [assumption |].
  destruct (Dict.get k0 arguments) as [v0 |] eqn:E.
  - apply IH; [| assumption]. rewrite dict_get_set.
    destruct (String.eqb k0 k) eqn:Ek; [| assumption].
    apply String.eqb_eq in Ek. subst. congruence.
  - now apply IH.
Qed.

Lemma clean_args_complete keys arguments : forall cleaned k v,
  In k keys -> Dict.get k arguments = Some v ->
  Dict.get k (clean_args keys arguments cleaned) = Some v.
Proof.
  induction keys as [| k0 keys IH]; intros cleaned k v Hin Ha; simpl; [contradiction |].
  destruct (String.eqb k0 k) eqn:Ek.
  - apply String.eqb_eq in Ek. subst k0. rewrite Ha.
    apply clean_args_keeps; [| assumption].
    rewrite dict_get_set. now rewrite String.eqb_refl.
  - destruct Hin as [-> | Hin]; [now rewrite String.eqb_refl in Ek |].
    destruct (Dict.get k0 arguments); now apply IH.
Qed.

(** X1. The sanitized arguments of a registered tool are the schema keys
    that the caller supplied, in the order of the schema and whatever the
    order the caller used, each with the caller's value: no supplied schema
    key is lost. *)
Theorem X1_sanitized_arguments_follow_schema_order :
  forall name meta keys args,
    Dict.get name FUNCTION_REGISTRY = Some meta ->
    schema_keys meta = Return keys ->
    Dict.keys (clean_args keys args [])
    = filter (fun k => Dict.mem k args) keys
    /\ (forall k v,
           In k keys -> Dict.get k args = Some v ->
           Dict.get k (clean_args keys args []) = Some v).
Proof.
  intros name meta keys args Hreg Hkeys. split.
  - assert (Hnd : NoDup keys).
    { destruct (registry_cases _ _ Hreg) as [H | [H | H]];
        destruct H as (_ & H & _); rewrite H in Hkeys; injection Hkeys as <-;
        repeat constructor; simpl; intuition discriminate. }
    now rewrite (clean_args_keys keys args [] Hnd).
  - intros k v. apply clean_args_complete.
Qed.

Lemma X1_sanitized_arguments_order_witness :
  Dict.keys (clean_args ["amount"; "base"; "target"]
               [("target", JStr "usd"); ("note", JNull); ("amount", JInt 5)] [])
  = ["amount"; "target"].
Proof.
  exact (proj1 (X1_sanitized_arguments_follow_schema_order "convert_currency" _
                  ["amount"; "base"; "target"]
                  [("target", JStr "usd"); ("note", JNull); ("amount", JInt 5)]
                  eq_refl eq_refl)).
Defined.

(* ----------------------------------------------------------------- *)
(** ** Keyword binding in the dispatcher *)

(** X2. For a registered tool, when the arguments lack a name that the
    parameter schema lists as required, or are not an object at all, the
    dispatcher raises [TypeError] and leaves the state untouched: the tool
    body is not entered, nothing is requested and nothing is logged. *)
Theorem X2_missing_required_argument_is_type_error :
  forall name meta,
    Dict.get name FUNCTION_REGISTRY = Some meta ->
    (forall args k w s,
        In k (schema_required meta) -> Dict.get k args = None ->
        call_function_by_name w (JStr name) (JObj args) s
        = (Raise (PyExn TypeError None), s))
    /\ (forall arguments w s,
           (forall o, arguments <> JObj o) ->
           call_function_by_name w (JStr name) arguments s
           = (Raise (PyExn TypeError None), s)).
Proof.
  intros name meta Hreg. split.
  - intros args k w s Hin Hnone.
    destruct (registry_cases _ _ Hreg) as [H | [H | H]];
      destruct H as (-> & Hkeys & Hcall);
      rewrite (call_function_by_name_registered w _ meta _ args s Hreg Hkeys), Hcall;
      unfold FUNCTION_REGISTRY in Hreg; cbn in Hreg; injection Hreg as <-;
      cbn in Hin.
    + unfold call_get_weather_for_date. cbn [clean_args].
      destruct Hin as [<- | [<- | []]]; rewrite Hnone;
        [destruct (Dict.get "date" args) | destruct (Dict.get "city" args)];
        reflexivity.
    + unfold call_get_news_for_city. cbn [clean_args].
      destruct Hin as [<- | []]. rewrite Hnone.
      destruct (Dict.get "page_size" args); reflexivity.
    + unfold call_convert_currency. cbn [clean_args].
      destruct Hin as [<- | [<- | [<- | []]]]; rewrite Hnone;
        [destruct (Dict.get "base" args), (Dict.get "target" args)
        | destruct (Dict.get "amount" args), (Dict.get "target" args)
        | destruct (Dict.get "amount" args), (Dict.get "base" args)];
        reflexivity.
  - intros arguments w s Hno.
    unfold call_function_by_name, bind, lift, registry_lookup. rewrite Hreg.
    destruct (registry_cases _ _ Hreg) as [H | [H | H]];
      destruct H as (_ & -> & _);
      destruct arguments; try reflexivity; exfalso; eapply Hno; reflexivity.
Qed.

Lemma X2_missing_required_argument_witness :
  call_function_by_name Sample.weather_world (JStr "get_weather_for_date")
    (JObj [("city", JStr "Pune")]) empty_state
  = (Raise (PyExn TypeError None), empty_state).
Proof.
  refine (proj1 (X2_missing_required_argument_is_type_error "get_weather_for_date" _
                   eq_refl)
            [("city", JStr "Pune")] "date" Sample.weather_world empty_state _ eq_refl).
  right; left; reflexivity.
Defined.

(** X3. When the arguments hold every required name, dispatching is the
    direct call of the tool on the values given: extra keys play no part,
    and an omitted [page_size] is the default 5. *)
Theorem X3_dispatch_is_the_keyword_call :
  forall w args s,
    (forall city date,
        Dict.get "city" args = Some city -> Dict.get "date" args = Some date ->
        call_function_by_name w (JStr "get_weather_for_date") (JObj args) s
        = get_weather_for_date w city date s)
    /\ (forall city,
           Dict.get "city" args = Some city ->
           call_function_by_name w (JStr "get_news_for_city") (JObj args) s
           = get_news_for_city w city
               (match Dict.get "page_size" args with
                | Some p => p
                | None => JInt 5
                end) s)
    /\ (forall amount base target,
           Dict.get "amount" args = Some amount ->
           Dict.get "base" args = Some base ->
           Dict.get "target" args = Some target ->
           call_function_by_name w (JStr "convert_currency") (JObj args) s
           = convert_currency w amount base target s).
Proof.
  intros w args s. split; [| split].
  - intros city date Hc Hd.
    rewrite (call_function_by_name_registered w "get_weather_for_date" _
               ["city"; "date"] _ s eq_refl eq_refl).
    cbn [callable]. unfold call_get_weather_for_date. cbn [clean_args].
    rewrite Hc, Hd. reflexivity.
  - intros city Hc.
    rewrite (call_function_by_name_registered w "get_news_for_city" _
               ["city"; "page_size"] _ s eq_refl eq_refl).
    cbn [callable]. unfold call_get_news_for_city. cbn [clean_args].
    rewrite Hc. destruct (Dict.get "page_size" args); reflexivity.
  - intros amount base target Ha Hb Ht.
    rewrite (call_function_by_name_registered w "convert_currency" _
               ["amount"; "base"; "target"] _ s eq_refl eq_refl).
    cbn [callable]. unfold call_convert_currency. cbn [clean_args].
    rewrite Ha, Hb, Ht. reflexivity.
Qed.

Lemma X3_dispatch_is_the_keyword_call_witness :
  call_function_by_name Sample.news_world (JStr "get_news_for_city")
    (JObj [("limit", JInt 50); ("city", JStr "pune")]) empty_state
  = get_news_for_city Sample.news_world (JStr "pune") (JInt 5) empty_state.
Proof.
  exact (proj1 (proj2 (X3_dispatch_is_the_keyword_call Sample.news_world
                         [("limit", JInt 50); ("city", JStr "pune")] empty_state))
           (JStr "pune") eq_refl).
Defined.

(* ----------------------------------------------------------------- *)
(** ** Bounded growth of the lists of the state *)

Lemma grows_weaken {A B} (proj : State -> list A) n n' (m : M B) :
  (n <= n')%nat -> grows proj n m -> grows proj n' m.
Proof.
  intros Hle H s x s' E. destruct (H _ _ _ E) as (l & Hl & Hn).
  exists l. split; [assumption | lia].
Qed.

Lemma grows_pure {A B} (proj : State -> list A) (m : M B) :
  (forall s, snd (m s) = s) -> grows proj 0 m.
Proof.
  intros H s x s' E. exists []. pose proof (H s) as Hs. rewrite E in Hs.
  cbn in Hs. subst. now rewrite app_nil_r.
Qed.

Lemma grows_lift {A B} (proj : State -> list A) (r : result B) : grows proj 0 (lift r).
Proof. now apply grows_pure. Qed.

Lemma grows_ret {A B} (proj : State -> list A) (b : B) : grows proj 0 (ret b).
Proof. now apply grows_pure. Qed.

Lemma grows_raise {A B} (proj : State -> list A) (e : exn) : grows proj 0 (@raise B e).
Proof. now apply grows_pure. Qed.

Lemma grows_bind {A B C} (proj : State -> list A) n1 n2 (m : M B) (k : B -> M C) :
  grows proj n1 m -> (forall b, grows proj n2 (k b)) -> grows proj (n1 + n2) (bind m k).
Proof.
  intros Hm Hk s x s' E. unfold bind in E.
  destruct (m s) as [[b | e] s1] eqn:Em.
  - destruct (Hm _ _ _ Em) as (l1 & Hl1 & Hn1).
    destruct (Hk b _ _ _ E) as (l2 & Hl2 & Hn2).
    exists (l1 ++ l2). rewrite Hl2, Hl1, <- app_assoc. split; [reflexivity |].
    rewrite length_app. lia.
  - injection E as _ <-. destruct (Hm _ _ _ Em) as (l1 & Hl1 & Hn1).
    exists l1. split; [assumption | lia].
Qed.

Lemma grows_try_catch {A B} (proj : State -> list A) n1 n2 (m : M B) (h : exn -> M B) :
  grows proj n1 m -> (forall e, grows proj n2 (h e)) ->
  grows proj (n1 + n2) (try_catch m h).
Proof.
  intros Hm Hh s x s' E. unfold try_catch in E.
  destruct (m s) as [[b | e] s1] eqn:Em.
  - injection E as _ <-. destruct (Hm _ _ _ Em) as (l1 & Hl1 & Hn1).
    exists l1. split; [assumption | lia].
  - destruct (Hm _ _ _ Em) as (l1 & Hl1 & Hn1).
    destruct (Hh e _ _ _ E) as (l2 & Hl2 & Hn2).
    exists (l1 ++ l2). rewrite Hl2, Hl1, <- app_assoc. split; [reflexivity |].
    rewrite length_app. lia.
Qed.

(** The three lists under the three effects. *)
Lemma http_get_audit w url params : grows function_calls 0 (http_get w url params).
Proof.
  intros s x s' E. unfold http_get in E. exists [].
  destruct (requests_get w url params); injection E as _ <-; cbn;
    now rewrite app_nil_r.
Qed.

Lemma http_get_post w url params : grows sent_post 0 (http_get w url params).
Proof.
  intros s x s' E. unfold http_get in E. exists [].
  destruct (requests_get w url params); injection E as _ <-; cbn;
    now rewrite app_nil_r.
Qed.

Lemma http_get_get w url params : grows sent_get 1 (http_get w url params).
Proof.
  intros s x s' E. unfold http_get in E. exists [(url, params)].
  destruct (requests_get w url params); injection E as _ <-; cbn; auto.
Qed.

Lemma log_call_audit w name logged r : grows function_calls 1 (log_call w name logged r).
Proof.
  intros s x s' E. unfold log_call in E. injection E as _ <-. cbn. eauto.
Qed.

Lemma log_call_get w name logged r : grows sent_get 0 (log_call w name logged r).
Proof.
  intros s x s' E. unfold log_call in E. injection E as _ <-. cbn.
  exists []. now rewrite app_nil_r.
Qed.

Lemma log_call_post w name logged r : grows sent_post 0 (log_call w name logged r).
Proof.
  intros s x s' E. unfold log_call in E. injection E as _ <-. cbn.
  exists []. now rewrite app_nil_r.
Qed.

Lemma init_db_grows {A} (proj : State -> list A) : grows proj 0 init_db.
Proof. now apply grows_pure. Qed.

Lemma call_model_audit w ms fs : grows function_calls 0 (call_model w ms fs).
Proof.
  intros s x s' E. destruct (call_model_effect _ _ _ _ _ _ E) as (Ha & _ & _).
  exists []. now rewrite app_nil_r.
Qed.

Lemma call_model_get w ms fs : grows sent_get 0 (call_model w ms fs).
Proof.
  intros s x s' E. destruct (call_model_effect _ _ _ _ _ _ E) as (_ & Hg & _).
  exists []. now rewrite app_nil_r.
Qed.

Create HintDb grows.

#[local] Hint Resolve grows_lift grows_ret grows_raise http_get_audit http_get_post
  http_get_get log_call_audit log_call_get log_call_post init_db_grows
  call_model_audit call_model_get : grows.


Ltac grows_leaf :=
  first [ solve [auto with grows]
        | solve [eapply grows_weaken; [| auto with grows]; lia] ].

(** Solves a goal [grows proj n m] along the structure of [m]: a step that
    adds nothing is given the bound 0, the step that adds is given 1. *)
Ltac grows_auto :=
  lazymatch goal with
  | |- grows _ _ (match ?x with _ => _ end) => destruct x; grows_auto
  | |- grows _ _ (if ?c then _ else _) => destruct c; grows_auto
  | |- grows ?p ?n (bind _ _) =>
      first [ apply (grows_bind p 0 n); [solve [grows_auto] | intro; grows_auto]
            | lazymatch n with
              | S ?k =>
                  apply (grows_bind p 1 k); [solve [grows_auto] | intro; grows_auto]
              end ]
  | |- grows ?p ?n (try_catch _ _) =>
      first [ apply (grows_try_catch p 0 n); [solve [grows_auto] | intro; grows_auto]
            | apply (grows_try_catch p n 0); [solve [grows_auto] | intro; grows_auto] ]
  | |- grows _ _ _ => grows_leaf
  end.

Lemma geocode_audit w city : grows function_calls 0 (_geocode_city w city).
Proof. unfold _geocode_city. grows_auto. Qed.

Lemma geocode_post w city : grows sent_post 0 (_geocode_city w city).
Proof. unfold _geocode_city. grows_auto. Qed.

Lemma geocode_get w city : grows sent_get 1 (_geocode_city w city).
Proof. unfold _geocode_city. grows_auto. Qed.

#[local] Hint Resolve geocode_audit geocode_post geocode_get : grows.

Lemma weather_audit w city date :
  grows function_calls 1 (get_weather_for_date w city date).
Proof. unfold get_weather_for_date. grows_auto. Qed.

Lemma weather_get w city date : grows sent_get 2 (get_weather_for_date w city date).
Proof. unfold get_weather_for_date. grows_auto. Qed.

Lemma weather_post w city date : grows sent_post 0 (get_weather_for_date w city date).
Proof. unfold get_weather_for_date. grows_auto. Qed.

Lemma news_audit w city page_size :
  grows function_calls 1 (get_news_for_city w city page_size).
Proof. unfold get_news_for_city. grows_auto. Qed.

Lemma news_get w city page_size : grows sent_get 1 (get_news_for_city w city page_size).
Proof. unfold get_news_for_city. grows_auto. Qed.

Lemma news_post w city page_size : grows sent_post 0 (get_news_for_city w city page_size).
Proof. unfold get_news_for_city. grows_auto. Qed.

Lemma currency_audit w amount base target :
  grows function_calls 0 (convert_currency w amount base target).
Proof. unfold convert_currency. grows_auto. Qed.

Lemma currency_get w amount base target :
  grows sent_get 1 (convert_currency w amount base target).
Proof. unfold convert_currency. grows_auto. Qed.

Lemma currency_post w amount base target :
  grows sent_post 0 (convert_currency w amount base target).
Proof. unfold convert_currency. grows_auto. Qed.

#[local] Hint Resolve weather_audit weather_get weather_post news_audit news_get
  news_post currency_audit currency_get currency_post : grows.

Lemma callable_grows w name meta kwargs :
  Dict.get name FUNCTION_REGISTRY = Some meta ->
  grows function_calls 1 (callable meta w kwargs)
  /\ grows sent_get 2 (callable meta w kwargs)
  /\ grows sent_post 0 (callable meta w kwargs).
Proof.
  intro Hreg.
  destruct (registry_cases _ _ Hreg) as [H | [H | H]]; destruct H as (_ & _ & ->);
    unfold call_get_weather_for_date, call_get_news_for_city, call_convert_currency;
    repeat split; grows_auto.
Qed.

Lemma dispatch_grows_from {A} (proj : State -> list A) n w name arguments :
  (forall nm meta kw,
      Dict.get nm FUNCTION_REGISTRY = Some meta -> grows proj n (callable meta w kw)) ->
  grows proj n (call_function_by_name w name arguments).
Proof.
  intros H s x s' E.
  assert (Hstay : forall (y : result json), (y, s) = (x, s') ->
                  exists l, proj s' = proj s ++ l /\ (List.length l <= n)%nat).
  { intros y Hy. injection Hy as _ <-. exists []. rewrite app_nil_r. split; [easy | simpl; lia]. }
  unfold call_function_by_name, bind, lift in E.
  destruct (registry_lookup name) as [[meta |] | e] eqn:R.
  - assert (exists nm, Dict.get nm FUNCTION_REGISTRY = Some meta) as [nm Hnm].
    { unfold registry_lookup in R. destruct name as [| | | | nm0 | |]; try discriminate.
      exists nm0. congruence. }
    destruct (schema_keys meta) as [keys | e]; [| exact (Hstay _ E)].
    destruct arguments; try exact (Hstay _ E).
    rewrite try_catch_raise in E. exact (H nm meta _ Hnm _ _ _ E).
  - exact (Hstay _ E).
  - exact (Hstay _ E).
Qed.

Lemma dispatch_audit w name arguments :
  grows function_calls 1 (call_function_by_name w name arguments).
Proof.
  apply dispatch_grows_from. intros nm meta kw H. now apply (callable_grows w nm).
Qed.

Lemma dispatch_get w name arguments :
  grows sent_get 2 (call_function_by_name w name arguments).
Proof.
  apply dispatch_grows_from. intros nm meta kw H. now apply (callable_grows w nm).
Qed.

Lemma dispatch_post w name arguments :
  grows sent_post 0 (call_function_by_name w name arguments).
Proof.
  apply dispatch_grows_from. intros nm meta kw H. now apply (callable_grows w nm).
Qed.

(* ----------------------------------------------------------------- *)
(** ** What one dispatch and one turn can do to the state *)

Lemma dispatch_effects w name arguments s x s' :
  call_function_by_name w name arguments s = (x, s') ->
  exists records requests,
    function_calls s' = function_calls s ++ records
    /\ (List.length records <= 1)%nat
    /\ sent_get s' = sent_get s ++ requests
    /\ (List.length requests <= 2)%nat
    /\ sent_post s' = sent_post s.
Proof.
  intro E.
  destruct (dispatch_audit w name arguments _ _ _ E) as (la & Ha & Hla).
  destruct (dispatch_get w name arguments _ _ _ E) as (lg & Hg & Hlg).
  destruct (dispatch_post w name arguments _ _ _ E) as (lp & Hp & Hlp).
  exists la, lg. repeat split; try assumption.
  destruct lp; [now rewrite app_nil_r in Hp | simpl in Hlp; lia].
Qed.

(** X4. Whatever the tool name, the arguments and the outcome, one call
    of the dispatcher appends at most one row to the audit table and never
    alters the rows already there, sends at most two GET requests and never
    calls the model. *)
Theorem X4_dispatch_effects_are_bounded :
  forall w name arguments s x s',
    call_function_by_name w name arguments s = (x, s') ->
    exists records requests,
      function_calls s' = function_calls s ++ records
      /\ (List.length records <= 1)%nat
      /\ sent_get s' = sent_get s ++ requests
      /\ (List.length requests <= 2)%nat
      /\ sent_post s' = sent_post s.
Proof.
  intros w name arguments s x s'. apply dispatch_effects.
Qed.

Lemma X4_dispatch_effects_witness :
  exists records requests,
    function_calls (snd (call_function_by_name Sample.weather_world
                           (JStr "get_weather_for_date")
                           (JObj [("city", JStr "pune"); ("date", JStr "tomorrow")])
                           empty_state)) = [] ++ records
    /\ (List.length records <= 1)%nat
    /\ sent_get (snd (call_function_by_name Sample.weather_world
                        (JStr "get_weather_for_date")
                        (JObj [("city", JStr "pune"); ("date", JStr "tomorrow")])
                        empty_state)) = [] ++ requests
    /\ (List.length requests <= 2)%nat.
Proof.
  pose (run := call_function_by_name Sample.weather_world
                 (JStr "get_weather_for_date")
                 (JObj [("city", JStr "pune"); ("date", JStr "tomorrow")]) empty_state).
  assert (H : call_function_by_name Sample.weather_world
                (JStr "get_weather_for_date")
                (JObj [("city", JStr "pune"); ("date", JStr "tomorrow")]) empty_state
              = (fst run, snd run)) by (vm_compute; reflexivity).
  destruct (X4_dispatch_effects_are_bounded _ _ _ _ _ _ H)
    as (records & requests & Ha & Hla & Hg & Hlg & _).
  exists records, requests. repeat split; assumption.
Defined.

Lemma extract_function_call_shape response fc :
  extract_function_call response = Return (Some fc) ->
  exists tool arguments,
    fc = JObj [("name", tool); ("arguments", arguments)] /\ py_truthy tool = true.
Proof.
  unfold extract_function_call.
  destruct (py_getitem response "message") as [m |]; [| discriminate]. cbn [rbind].
  destruct (py_getitem m "content") as [c |]; [| discriminate]. cbn [rbind].
  destruct (loads_or_none c) as [parsed |]; [| discriminate].
  destruct (py_get parsed "tool" JNull) as [tool |]; [| discriminate]. cbn [rbind].
  destruct (py_truthy tool) eqn:Ht; [| discriminate].
  destruct (py_get parsed "arguments" (JObj [])) as [a |]; [| discriminate].
  cbn [rbind]. intro H. injection H as <-. eauto.
Qed.

(** X5. Every turn, whatever it ends with, makes one or two model calls,
    sends at most two GET requests and appends at most one audit row,
    leaving earlier rows as they were.  A turn that returns is either a
    direct answer, after exactly one model call and with no request sent
    and no row written, or a function-call outcome, after exactly two
    model calls. *)
Theorem X5_turn_effects_are_bounded :
  forall w payload s x s',
    chat_endpoint w payload s = (x, s') ->
    exists records requests calls,
      function_calls s' = function_calls s ++ records
      /\ (List.length records <= 1)%nat
      /\ sent_get s' = sent_get s ++ requests
      /\ (List.length requests <= 2)%nat
      /\ sent_post s' = sent_post s ++ calls
      /\ (1 <= List.length calls <= 2)%nat
      /\ (forall r,
             x = Return r ->
             (exists text,
                 r = JObj [("type", JStr "direct"); ("response", text)]
                 /\ records = [] /\ requests = [] /\ List.length calls = 1%nat)
             \/ (exists tool arguments result text,
                    r = JObj [("type", JStr "function_call"); ("function", tool);
                              ("function_args", arguments);
                              ("function_result", result); ("response", text)]
                    /\ List.length calls = 2%nat)).
Proof.
  intros w payload s x s' E.
  destruct (call_model w (opening_messages payload) (Some get_model_functions) s)
    as [[resp | e] s1] eqn:E1.
  2: { unfold chat_endpoint in E. rewrite (bind_Raise _ _ _ _ _ E1) in E.
       injection E as <- <-.
       destruct (call_model_effect _ _ _ _ _ _ E1) as (Ha & Hg & p & Hp).
       exists [], [], [p]. rewrite !app_nil_r. repeat split; simpl; try lia; try easy. }
  destruct (call_model_effect _ _ _ _ _ _ E1) as (Ha & Hg & p & Hp).
  destruct (extract_function_call resp) as [[fc |] | e] eqn:E2.
  - destruct (extract_function_call_shape _ _ E2) as (tool & arguments & -> & _).
    rewrite (chat_endpoint_tool_call _ _ _ _ _ _ _ E1 E2) in E.
    destruct (call_function_by_name w tool arguments s1) as [[result | e] s2] eqn:E3;
      destruct (dispatch_effects _ _ _ _ _ _ E3)
        as (la & lg & Hla & Hna & Hlg & Hng & Hlp).
    + unfold bind at 1 in E.
      destruct (call_model w _ None s2) as [[resp2 | e] s3] eqn:E4;
        destruct (call_model_effect _ _ _ _ _ _ E4) as (Ha4 & Hg4 & p2 & Hp4).
      * exists la, lg, [p; p2].
        assert (Hs : s' = s3 /\ forall r, x = Return r ->
                     exists text,
                       r = JObj [("type", JStr "function_call"); ("function", tool);
                                 ("function_args", arguments);
                                 ("function_result", result); ("response", text)]).
        { unfold bind, lift, ret in E.
          destruct (py_getitem resp2 "message") as [m |]; cbn [rbind] in E.
          - destruct (py_getitem m "content") as [c |]; injection E as <- <-.
            + split; [reflexivity |]. intros r Hr. injection Hr as <-. eauto.
            + split; [reflexivity | discriminate].
          - injection E as <- <-. split; [reflexivity | discriminate]. }
        destruct Hs as [-> Hr].
        repeat split; simpl; try lia; try congruence.
        -- rewrite Hp4, Hlp, Hp, <- app_assoc. reflexivity.
        -- intros r Hx. right. destruct (Hr r Hx) as [text ->].
           exists tool, arguments, result, text. split; reflexivity.
      * injection E as <- <-. exists la, lg, [p; p2].
        repeat split; simpl; try lia; try congruence; try discriminate.
        rewrite Hp4, Hlp, Hp, <- app_assoc. reflexivity.
    + injection E as <- <-. exists la, lg, [p].
      repeat split; simpl; try lia; try congruence; try discriminate.
  - rewrite (chat_endpoint_direct _ _ _ _ _ E1 E2) in E.
    exists [], [], [p]. rewrite !app_nil_r.
    unfold bind, lift, ret in E.
    destruct (py_getitem resp "message") as [m |]; cbn [rbind] in E.
    + destruct (py_getitem m "content") as [c |]; injection E as <- <-;
        repeat split; simpl; try lia; try congruence; try discriminate.
      intros r Hr. injection Hr as <-. left. exists c. repeat split; reflexivity.
    + injection E as <- <-.
      repeat split; simpl; try lia; try congruence; try discriminate.
  - unfold chat_endpoint in E. rewrite (bind_Return _ _ _ _ _ E1) in E.
    unfold bind at 1 in E. unfold lift at 1 in E. rewrite E2 in E.
    injection E as <- <-. exists [], [], [p]. rewrite !app_nil_r.
    repeat split; simpl; try lia; try congruence; try discriminate.
Qed.

Lemma X5_turn_effects_witness :
  exists records requests calls,
    function_calls (snd (chat_endpoint Sample.currency_turn
                           (mkuser "u1" "Convert 500 INR to USD") empty_state))
    = [] ++ records
    /\ (List.length records <= 1)%nat
    /\ sent_get (snd (chat_endpoint Sample.currency_turn
                        (mkuser "u1" "Convert 500 INR to USD") empty_state))
       = [] ++ requests
    /\ (List.length requests <= 2)%nat
    /\ sent_post (snd (chat_endpoint Sample.currency_turn
                         (mkuser "u1" "Convert 500 INR to USD") empty_state))
       = [] ++ calls
    /\ (1 <= List.length calls <= 2)%nat.
Proof.
  pose (run := chat_endpoint Sample.currency_turn
                 (mkuser "u1" "Convert 500 INR to USD") empty_state).
  assert (H : chat_endpoint Sample.currency_turn
                (mkuser "u1" "Convert 500 INR to USD") empty_state
              = (fst run, snd run)) by (vm_compute; reflexivity).
  destruct (X5_turn_effects_are_bounded _ _ _ _ _ H)
    as (records & requests & calls & H1 & H2 & H3 & H4 & H5 & H6 & _).
  exists records, requests, calls. repeat split; try assumption; apply H6.
Defined.

(* ----------------------------------------------------------------- *)
(** ** The helpers of the weather tool *)


(** X6. [_safe_get] starting from [None] returns the default whatever the
    keys; a value it returns is the default or is not [None], so a missing
    key and a key holding [null] are not told apart; and the only exception
    it raises is the [AttributeError] of calling [get] on a value met along
    the path that is neither an object nor [None]. *)
Theorem X6_safe_get_default_and_errors :
  forall d keys default,
    _safe_get JNull keys default = Return default
    /\ (forall v, _safe_get d keys default = Return v -> v = default \/ v <> JNull)
    /\ (forall e, _safe_get d keys default = Raise e -> e = PyExn AttributeError None)
    /\ (forall o k, d = JObj o -> Dict.get k o = None \/ Dict.get k o = Some JNull ->
                    _safe_get d (k :: keys) default = Return default).
Proof.
  intros d keys default. split; [| split; [| split]].
  - destruct keys; reflexivity.
  - revert d. induction keys as [| k ks IH]; intros d v; simpl.
    + destruct d; intro H; injection H as <-; (now left) || (right; discriminate).
    + destruct d; try (intro H; injection H as <-; now left);
        try discriminate.
      simpl. apply IH.
  - revert d. induction keys as [| k ks IH]; intros d e; simpl.
    + destruct d; discriminate.
    + destruct d; try discriminate;
        try (simpl; intro H; now injection H as <-).
      simpl. apply IH.
  - intros o k -> [H | H]; simpl; rewrite H; destruct keys; reflexivity.
Qed.

Lemma X6_safe_get_witness :
  _safe_get (JObj [("main", JObj [("temp", JInt 30)]); ("wind", JNull)])
    ["wind"; "speed"] (JInt 0) = Return (JInt 0).
Proof.
  exact (proj2 (proj2 (proj2 (X6_safe_get_default_and_errors
                                (JObj [("main", JObj [("temp", JInt 30)]); ("wind", JNull)])
                                ["speed"] (JInt 0))))
           _ "wind" eq_refl (or_intror eq_refl)).
Defined.

(** X7. [_geocode_city] never touches the audit table and never calls the
    model.  Without an API key it returns [None] and sends nothing.  A
    record it returns has exactly the keys [lat], [lon], [name] and
    [country], and was obtained with the single request
    [{q: city, limit: 1, appid: key}]. *)
Theorem X7_geocode_city_result :
  forall w city s x s',
    _geocode_city w city s = (x, s') ->
    function_calls s' = function_calls s
    /\ sent_post s' = sent_post s
    /\ (getenv_key w "OPENWEATHER_API_KEY" = None -> x = Return None /\ s' = s)
    /\ (forall geo,
           x = Return (Some geo) ->
           exists api_key lat lon nm country,
             getenv_key w "OPENWEATHER_API_KEY" = Some api_key
             /\ geo = JObj [("lat", lat); ("lon", lon); ("name", nm);
                            ("country", country)]
             /\ sent_get s'
                = sent_get s
                  ++ [("http://api.openweathermap.org/geo/1.0/direct",
                       [("q", JStr city); ("limit", JInt 1);
                        ("appid", JStr api_key)])]).
Proof.
  intros w city s x s' E.
  split; [exact (keeps_audit_geocode w city _ _ _ E) |].
  split.
  { destruct (geocode_post w city _ _ _ E) as (l & Hl & Hn).
    destruct l; [now rewrite app_nil_r in Hl | simpl in Hn; lia]. }
  unfold _geocode_city in E.
  destruct (getenv_key w "OPENWEATHER_API_KEY") as [api_key |].
  2: { unfold ret in E. injection E as <- <-. split; [easy | discriminate]. }
  split; [discriminate |]. intros geo ->.
  apply bind_Return_inv in E. destruct E as (r & s1 & Hget & E).
  unfold http_get in Hget.
  destruct (requests_get w _ _) as [msg | r']; [discriminate |].
  injection Hget as -> <-.
  destruct (negb (status r =? 200)); [discriminate |].
  apply bind_Return_inv in E. destruct E as (arr & s2 & Harr & E).
  unfold lift in Harr. injection Harr as _ <-.
  destruct (negb (py_truthy arr)); [discriminate |].
  unfold lift in E. injection E as E <-.
  destruct (py_getitem0 arr) as [a0 |]; [| discriminate]. cbn [rbind] in E.
  destruct (py_getitem a0 "lat") as [lat |]; [| discriminate]. cbn [rbind] in E.
  destruct (py_getitem a0 "lon") as [lon |]; [| discriminate]. cbn [rbind] in E.
  destruct (py_get a0 "name" JNull) as [nm |]; [| discriminate]. cbn [rbind] in E.
  destruct (py_get a0 "country" JNull) as [country |]; [| discriminate].
  cbn [rbind] in E. injection E as <-.
  exists api_key, lat, lon, nm, country. repeat split; reflexivity.
Qed.

Lemma X7_geocode_city_witness :
  fst (_geocode_city Sample.weather_world "Pune" empty_state)
  = Return (Some (JObj [("lat", JFloat (1852 # 100)); ("lon", JFloat (7385 # 100));
                        ("name", JStr "Pune"); ("country", JStr "IN")]))
  /\ fst (_geocode_city Sample.offline "Pune" empty_state) = Return None.
Proof.
  pose (run := _geocode_city Sample.weather_world "Pune" empty_state).
  assert (H : _geocode_city Sample.weather_world "Pune" empty_state
              = (fst run, snd run)) by (vm_compute; reflexivity).
  destruct (X7_geocode_city_result _ _ _ _ _ H) as (_ & _ & _ & Hgeo).
  pose (run0 := _geocode_city Sample.offline "Pune" empty_state).
  assert (H0 : _geocode_city Sample.offline "Pune" empty_state
               = (fst run0, snd run0)) by (vm_compute; reflexivity).
  destruct (X7_geocode_city_result _ _ _ _ _ H0) as (_ & _ & Hnone & _).
  split; [vm_compute; reflexivity | exact (proj1 (Hnone eq_refl))].
Defined.

(* ----------------------------------------------------------------- *)
(** ** The currency tool: requests and failures *)

Lemma convert_currency_run w amount base target s b t :
  normalize_currency base = Return b ->
  normalize_currency target = Return t ->
  let params := [("amount", amount); ("from", JStr (PyStr.upper b));
                 ("to", JStr (PyStr.upper t))] in
  convert_currency w amount base target s
  = (match requests_get w "https://api.frankfurter.app/latest" params with
     | HttpFail msg =>
         Return (JObj [("error", JStr ("Currency request failed: " ++ msg)%string)])
     | HttpOk r =>
         match response_json r with
         | Raise e =>
             Return (JObj [("error",
                            JStr ("Currency request failed: " ++ fmt_exn e)%string)])
         | Return data =>
             if negb (status r =? 200) then Return (JObj [("error", data)])
             else
               converted <-- (rates <-- py_getitem data "rates" ;;
                              py_getitem rates (PyStr.upper t)) ;;
               rate <-- (if py_truthy amount then py_truediv converted amount
                         else Return JNull) ;;
               Return (JObj [("amount", amount); ("base", JStr (PyStr.upper b));
                             ("target", JStr (PyStr.upper t));
                             ("converted", converted); ("rate", rate)])
         end
     end,
     mkstate (function_calls s)
       (sent_get s ++ [("https://api.frankfurter.app/latest", params)])
       (sent_post s)).
Proof.
  intros Hb Ht params.
  unfold convert_currency. unfold bind at 1. unfold lift at 1. rewrite Hb.
  unfold bind at 1. unfold lift at 1. rewrite Ht.
  unfold bind at 1. rewrite convert_currency_fetch. fold params.
  destruct (requests_get w _ params) as [msg | r]; [reflexivity |].
  destruct (response_json r) as [data | e]; [| reflexivity].
  destruct (negb (status r =? 200)); [reflexivity |].
  unfold bind, lift, ret.
  destruct (rbind (py_getitem data "rates") _); [| reflexivity]. cbn [rbind].
  destruct (if py_truthy amount then _ else _); reflexivity.
Qed.

(** X8. Once both currency codes are accepted, the currency tool sends
    exactly one GET request, with the amount as given and the two codes in
    upper case, and writes no audit row.  A failure of that request, or an
    answer that is not JSON, is never raised: it comes back as
    [{"error": "Currency request failed: ..."}]; an answer with a status
    other than 200 comes back as [{"error": <the answer>}]. *)
Theorem X8_currency_request_and_transport_errors :
  forall w amount base target s b t,
    normalize_currency base = Return b ->
    normalize_currency target = Return t ->
    let params := [("amount", amount); ("from", JStr (PyStr.upper b));
                   ("to", JStr (PyStr.upper t))] in
    let s1 := mkstate (function_calls s)
                (sent_get s ++ [("https://api.frankfurter.app/latest", params)])
                (sent_post s) in
    snd (convert_currency w amount base target s) = s1
    /\ match requests_get w "https://api.frankfurter.app/latest" params with
       | HttpFail msg =>
           fst (convert_currency w amount base target s)
           = Return (JObj [("error",
                            JStr ("Currency request failed: " ++ msg)%string)])
       | HttpOk r =>
           match body r with
           | BodyInvalid msg =>
               fst (convert_currency w amount base target s)
               = Return (JObj [("error",
                                JStr ("Currency request failed: " ++ msg)%string)])
           | BodyJson data =>
               status r <> 200 ->
               fst (convert_currency w amount base target s)
               = Return (JObj [("error", data)])
           end
       end.
Proof.
  intros w amount base target s b t Hb Ht params s1.
  rewrite (convert_currency_run w amount base target s b t Hb Ht). fold params.
  split; [reflexivity |]. cbn [fst].
  destruct (requests_get w _ params) as [msg | r]; [reflexivity |].
  unfold response_json. destruct (body r) as [data | msg]; [| reflexivity].
  intro Hne. destruct (status r =? 200) eqn:E; [| reflexivity].
  apply Z.eqb_eq in E. contradiction.
Qed.

Lemma X8_currency_transport_error_witness :
  fst (convert_currency Sample.offline (JInt 500) (JStr "inr") (JStr " usd ")
         empty_state)
  = Return (JObj [("error", JStr "Currency request failed: connection refused")])
  /\ snd (convert_currency Sample.offline (JInt 500) (JStr "inr") (JStr " usd ")
            empty_state)
     = mkstate []
         [("https://api.frankfurter.app/latest",
           [("amount", JInt 500); ("from", JStr "INR"); ("to", JStr "USD")])] [].
Proof.
  destruct (X8_currency_request_and_transport_errors Sample.offline (JInt 500)
              (JStr "inr") (JStr " usd ") empty_state "INR" "USD" eq_refl eq_refl)
    as [Hs Hr].
  split; [exact Hr | exact Hs].
Defined.

(** X9. An answer of the rates service with status 200 that does not
    carry the requested rate is not turned into an error result the way a
    failed request is: reading the rate raises, and the exception leaves the
    tool.  It is [KeyError] when the answer is an object without [rates], or
    when its rates are an object without the target code, and [TypeError]
    when the answer is not an object. *)
Theorem X9_currency_answer_without_rate :
  forall w amount base target s b t r data,
    normalize_currency base = Return b ->
    normalize_currency target = Return t ->
    requests_get w "https://api.frankfurter.app/latest"
      [("amount", amount); ("from", JStr (PyStr.upper b)); ("to", JStr (PyStr.upper t))]
    = HttpOk r ->
    status r = 200 ->
    body r = BodyJson data ->
    (forall o, data = JObj o -> Dict.get "rates" o = None ->
               fst (convert_currency w amount base target s)
               = Raise (PyExn KeyError None))
    /\ (forall o rates,
           data = JObj o -> Dict.get "rates" o = Some (JObj rates) ->
           Dict.get (PyStr.upper t) rates = None ->
           fst (convert_currency w amount base target s)
           = Raise (PyExn KeyError None))
    /\ ((forall o, data <> JObj o) ->
        fst (convert_currency w amount base target s)
        = Raise (PyExn TypeError None)).
Proof.
  intros w amount base target s b t r data Hb Ht Hget Hst Hbody.
  rewrite (convert_currency_run w amount base target s b t Hb Ht). cbn [fst].
  rewrite Hget. unfold response_json. rewrite Hbody, Hst. cbn [Z.eqb Pos.eqb negb].
  split; [| split].
  - intros o -> Hr. cbn [py_getitem]. now rewrite Hr.
  - intros o rates -> Hr Hc. cbn [py_getitem]. rewrite Hr. cbn [rbind py_getitem].
    now rewrite Hc.
  - intro Hno. destruct data; try reflexivity. now destruct (Hno o).
Qed.

Lemma X9_currency_answer_without_rate_witness :
  fst (convert_currency Sample.currency_turn (JInt 500) (JStr "inr") (JStr "eur")
         empty_state)
  = Raise (PyExn KeyError None).
Proof.
  pose (answer := [("amount", JFloat 500); ("base", JStr "INR");
                   ("date", JStr "2026-02-19");
                   ("rates", JObj [("USD", JFloat (598 # 100))])]).
  assert (Hb : normalize_currency (JStr "inr") = Return "INR")
    by (vm_compute; reflexivity).
  assert (Ht : normalize_currency (JStr "eur") = Return "EUR")
    by (vm_compute; reflexivity).
  assert (Hget : requests_get Sample.currency_turn "https://api.frankfurter.app/latest"
                   [("amount", JInt 500); ("from", JStr (PyStr.upper "INR"));
                    ("to", JStr (PyStr.upper "EUR"))]
                 = HttpOk (mkresp 200 (BodyJson (JObj answer))))
    by (vm_compute; reflexivity).
  destruct (X9_currency_answer_without_rate Sample.currency_turn (JInt 500)
              (JStr "inr") (JStr "eur") empty_state "INR" "EUR" _ (JObj answer)
              Hb Ht Hget eq_refl eq_refl) as (_ & Hrates & _).
  apply (Hrates answer [("USD", JFloat (598 # 100))] eq_refl);
    vm_compute; reflexivity.
Defined.

(* ----------------------------------------------------------------- *)
(** ** The news tool: page size, API key and articles *)

(** X10. Once the city is accepted, the news tool looks at the API key
    before the page size: without a key it returns the "Missing
    NEWSAPI_KEY" result, logged with the page size as given, and sends
    nothing, even for a page size [int] would reject.  With a key it reads
    the page size with [int]: when [int] rejects it the exception leaves
    the tool before anything is sent or logged; otherwise the one request
    sent carries [max(1, min(int(page_size), 20))], so a numeric string, a
    float or a boolean is clamped like an integer. *)
Theorem X10_news_page_size_conversion :
  forall w city page_size s city',
    normalize_city city = Return city' ->
    (getenv_key w "NEWSAPI_KEY" = None ->
     get_news_for_city w city page_size s
     = (Return (JObj [("error", JStr "Missing NEWSAPI_KEY in environment")]),
        mkstate
          (function_calls s
             ++ [mkaudit (utcnow w) "get_news_for_city"
                   (JObj [("city", JStr city'); ("page_size", page_size)])
                   (JObj [("error", JStr "Missing NEWSAPI_KEY in environment")])])
          (sent_get s) (sent_post s)))
    /\ (forall api_key e,
           getenv_key w "NEWSAPI_KEY" = Some api_key ->
           py_int page_size = Raise e ->
           get_news_for_city w city page_size s = (Raise e, s))
    /\ (forall api_key n,
           getenv_key w "NEWSAPI_KEY" = Some api_key ->
           py_int page_size = Return n ->
           sent_get (snd (get_news_for_city w city page_size s))
           = sent_get s
             ++ [("https://newsapi.org/v2/everything",
                  [("q", JStr city'); ("pageSize", JInt (Z.max 1 (Z.min n 20)));
                   ("sortBy", JStr "publishedAt"); ("language", JStr "en");
                   ("apiKey", JStr api_key)])]).
Proof.
  intros w city page_size s city' Hcity.
  unfold get_news_for_city, bind, lift, init_db, ret. rewrite Hcity.
  split; [| split].
  - intros ->. reflexivity.
  - intros api_key e -> ->. reflexivity.
  - intros api_key n -> ->. unfold http_get, log_call, clamp_page_size.
    destruct (requests_get w _ _) as [msg | r]; [reflexivity |].
    destruct (negb (status r =? 200)).
    + destruct (response_json r); reflexivity.
    + destruct (response_json r) as [data |]; [| reflexivity].
      match goal with
      | |- context [rbind ?a ?k] => destruct (rbind a k)
      end; reflexivity.
Qed.

Lemma X10_news_page_size_witness :
  get_news_for_city Sample.news_world (JStr "pune") (JStr "many") empty_state
  = (Raise (PyExn ValueError None), empty_state)
  /\ sent_get (snd (get_news_for_city Sample.news_world (JStr "pune") (JStr " 4_0 ")
                      empty_state))
     = [("https://newsapi.org/v2/everything",
         [("q", JStr "Pune"); ("pageSize", JInt 20);
          ("sortBy", JStr "publishedAt"); ("language", JStr "en");
          ("apiKey", JStr "k-123")])]
  /\ fst (get_news_for_city Sample.offline (JStr "pune") (JStr "many") empty_state)
     = Return (JObj [("error", JStr "Missing NEWSAPI_KEY in environment")]).
Proof.
  split; [| split].
  - exact (proj1 (proj2 (X10_news_page_size_conversion Sample.news_world (JStr "pune")
                           (JStr "many") empty_state "Pune" eq_refl))
             "k-123" _ eq_refl eq_refl).
  - exact (proj2 (proj2 (X10_news_page_size_conversion Sample.news_world (JStr "pune")
                           (JStr " 4_0 ") empty_state "Pune" eq_refl))
             "k-123" 40 eq_refl eq_refl).
  - rewrite (proj1 (X10_news_page_size_conversion Sample.offline (JStr "pune")
                      (JStr "many") empty_state "Pune" eq_refl) eq_refl).
    reflexivity.
Defined.




(* ----------------------------------------------------------------- *)
(** ** The weather tool: the requests it sends *)

Lemma bind_inv {A B} (m : M A) (k : A -> M B) s x s' :
  bind m k s = (x, s') ->
  (exists a s1, m s = (Return a, s1) /\ k a s1 = (x, s'))
  \/ (exists e, m s = (Raise e, s') /\ x = Raise e).
Proof.
  unfold bind. destruct (m s) as [[a | e] s1]; intro H.
  - left. now exists a, s1.
  - right. injection H as <- <-. now exists e.
Qed.

Lemma geocode_request w city api_key s x s1 :
  getenv_key w "OPENWEATHER_API_KEY" = Some api_key ->
  _geocode_city w city s = (x, s1) ->
  sent_get s1
  = sent_get s
    ++ [("http://api.openweathermap.org/geo/1.0/direct",
         [("q", JStr city); ("limit", JInt 1); ("appid", JStr api_key)])].
Proof.
  intros Hkey E. unfold _geocode_city in E. rewrite Hkey in E.
  unfold bind, http_get, lift, ret in E.
  destruct (requests_get w _ _) as [msg | r]; [now injection E as _ <- |].
  destruct (negb (status r =? 200)); [now injection E as _ <- |].
  destruct (response_json r) as [arr |]; [| now injection E as _ <-].
  destruct (negb (py_truthy arr)); now injection E as _ <-.
Qed.

Lemma grows_zero_eq {A B} (proj : State -> list A) (m : M B) s x s' :
  grows proj 0 m -> m s = (x, s') -> proj s' = proj s.
Proof.
  intros G E. destruct (G _ _ _ E) as (l & Hl & Hn).
  destruct l; [now rewrite app_nil_r in Hl | simpl in Hn; lia].
Qed.

(** X11. The requests of the weather tool, the clock showing a date of
    the calendar.  When a normalizer rejects an argument or the API key is
    missing, nothing is sent.  Otherwise the normalized date always parses,
    the first request is the geocoding of the normalized city, and at most
    one request follows it: to the current-weather endpoint when the date
    is today's, to the forecast endpoint otherwise. *)
Theorem X11_weather_requests :
  forall w city date s x s',
    valid_date (today w) ->
    get_weather_for_date w city date s = (x, s') ->
    ((getenv_key w "OPENWEATHER_API_KEY" = None
      \/ (exists e, normalize_city city = Raise e)
      \/ (exists e, normalize_date (today w) date = Raise e)) ->
     sent_get s' = sent_get s)
    /\ (forall city' date' api_key,
           normalize_city city = Return city' ->
           normalize_date (today w) date = Return date' ->
           getenv_key w "OPENWEATHER_API_KEY" = Some api_key ->
           exists target rest,
             fromisoformat date' = Return target
             /\ sent_get s'
                = sent_get s
                  ++ ("http://api.openweathermap.org/geo/1.0/direct",
                      [("q", JStr city'); ("limit", JInt 1); ("appid", JStr api_key)])
                     :: rest
             /\ (rest = []
                 \/ exists params,
                     rest = [(if date_eqb target (today w)
                              then "https://api.openweathermap.org/data/2.5/weather"
                              else "https://api.openweathermap.org/data/2.5/forecast",
                              params)])).
Proof.
  intros w city date s x s' Hvalid E. unfold get_weather_for_date in E.
  unfold bind at 1 in E. unfold lift at 1 in E.
  destruct (normalize_city city) as [city' | e1] eqn:Hc.
  2: { injection E as _ <-. split; [easy | discriminate]. }
  unfold bind at 1 in E. unfold lift at 1 in E.
  destruct (normalize_date (today w) date) as [date' | e2] eqn:Hd.
  2: { injection E as _ <-. split; [easy | discriminate]. }
  unfold bind at 1 in E. unfold init_db at 1 in E. unfold ret at 1 in E.
  destruct (getenv_key w "OPENWEATHER_API_KEY") as [api_key |] eqn:Hk.
  2: { unfold bind, log_call, ret in E. injection E as _ <-.
       split; [easy | discriminate]. }
  split.
  { intros [H | [[e H] | [e H]]]; discriminate. }
  intros c d k Ec Ed Ek. injection Ec as <-. injection Ed as <-. injection Ek as <-.
  destruct (normalize_date_iso _ _ _ Hvalid Hd) as (target & _ & _ & Hparse).
  rewrite Hparse in E. exists target.
  apply bind_inv in E. destruct E as [(geo & s1 & Hg & E) | (e & Hg & ->)].
  2: { exists []. split; [exact Hparse |]. split; [| now left].
       exact (geocode_request _ _ _ _ _ _ Hk Hg). }
  pose proof (geocode_request _ _ _ _ _ _ Hk Hg) as Hreq.
  destruct geo as [geo |].
  2: { exists []. split; [exact Hparse |]. split; [| now left].
       unfold bind, log_call, ret in E. injection E as _ <-. exact Hreq. }
  apply bind_inv in E. destruct E as [(lat & s2 & Hlat & E) | (e & Hlat & ->)].
  2: { exists []. split; [exact Hparse |]. split; [| now left].
       unfold lift in Hlat. injection Hlat as _ <-. exact Hreq. }
  unfold lift in Hlat. injection Hlat as _ <-.
  apply bind_inv in E. destruct E as [(lon & s3 & Hlon & E) | (e & Hlon & ->)].
  2: { exists []. split; [exact Hparse |]. split; [| now left].
       unfold lift in Hlon. injection Hlon as _ <-. exact Hreq. }
  unfold lift in Hlon. injection Hlon as _ <-.
  destruct (date_eqb target (today w));
    (apply bind_inv in E; destruct E as [(r & s4 & Hget & E) | (e & Hget & ->)];
     [ match type of E with
       | ?K s4 = _ => assert (G : grows sent_get 0 K) by grows_auto
       end;
       pose proof (grows_zero_eq _ _ _ _ _ G E) as Hsame
     | ];
     unfold http_get in Hget;
     match type of Hget with
     | context [requests_get w ?u ?p] =>
         exists [(u, p)]; split; [exact Hparse |]; split; [| right; now exists p];
         destruct (requests_get w u p); injection Hget as _ <-
     end;
     try rewrite Hsame; cbn [sent_get]; rewrite Hreq; now rewrite <- app_assoc).
Qed.

Lemma X11_weather_requests_witness :
  List.map fst
    (sent_get (snd (get_weather_for_date Sample.weather_world (JStr "pune city")
                      (JStr "20/02/2026") empty_state)))
  = ["http://api.openweathermap.org/geo/1.0/direct";
     "https://api.openweathermap.org/data/2.5/forecast"].
Proof.
  pose (run := get_weather_for_date Sample.weather_world (JStr "pune city")
                 (JStr "20/02/2026") empty_state).
  assert (H : get_weather_for_date Sample.weather_world (JStr "pune city")
                (JStr "20/02/2026") empty_state = (fst run, snd run))
    by (vm_compute; reflexivity).
  assert (Hv : valid_date (today Sample.weather_world)) by reflexivity.
  destruct (proj2 (X11_weather_requests Sample.weather_world _ _ _ _ _ Hv H)
              "Pune" "2026-02-20" "k-456" eq_refl eq_refl eq_refl)
    as (target & rest & Ht & Hs & Hrest).
  assert (Hlen : List.length (sent_get (snd run)) = 2%nat) by (vm_compute; reflexivity).
  fold run. rewrite Hs in Hlen |- *. cbn [app] in Hlen |- *.
  destruct Hrest as [-> | [params ->]]; [discriminate Hlen |].
  vm_compute in Ht. injection Ht as <-. reflexivity.
Defined.

(* ----------------------------------------------------------------- *)
(** ** The controller: direct answers, failures and outcomes *)

(** X13. When the text of the first reply does not decode as JSON, or
    decodes to an object whose [tool] is absent or falsy, the turn is a
    direct answer whose [response] is the reply content as it came: for a
    reply of the direct-answer shape this is the whole JSON text, the
    [final] field is not taken out of it.  No tool runs and no second model
    call is made. *)
Theorem X13_direct_answer_is_the_raw_reply :
  forall w payload s resp s1 message content,
    call_model w (opening_messages payload) (Some get_model_functions) s
    = (Return resp, s1) ->
    py_getitem resp "message" = Return message ->
    py_getitem message "content" = Return content ->
    (loads_or_none content = None
     \/ exists o,
         loads_or_none content = Some (JObj o)
         /\ py_truthy (match Dict.get "tool" o with Some t => t | None => JNull end)
            = false) ->
    chat_endpoint w payload s
    = (Return (JObj [("type", JStr "direct"); ("response", content)]), s1).
Proof.
  intros w payload s resp s1 message content H1 Hm Hc Hno.
  assert (Hx : extract_function_call resp = Return None).
  { pose proof (extract_function_call_cases _ _ _ Hm Hc) as Hcases.
    destruct Hno as [Hn | (o & Ho & Ht)].
    - now rewrite Hn in Hcases.
    - rewrite Ho in Hcases. rewrite Hcases.
      destruct (Dict.get "tool" o) as [t |]; [| reflexivity]. now rewrite Ht. }
  rewrite (chat_endpoint_direct _ _ _ _ _ H1 Hx).
  unfold bind, lift, ret. rewrite Hm. cbn [rbind]. now rewrite Hc.
Qed.

Lemma X13_direct_answer_witness :
  fst (chat_endpoint direct_shape_turn (mkuser "u1" "Hello") empty_state)
  = Return (JObj [("type", JStr "direct"); ("response", JStr direct_shape_text)]).
Proof.
  set (w := direct_shape_turn).
  set (payload := mkuser "u1" "Hello").
  pose (first := call_model w (opening_messages payload) (Some get_model_functions)
                   empty_state).
  pose (resp := match fst first with Return r => r | Raise _ => JNull end).
  assert (H1 : call_model w (opening_messages payload) (Some get_model_functions)
                 empty_state = (Return resp, snd first))
    by (vm_compute; reflexivity).
  assert (Hm : py_getitem resp "message"
               = Return (JObj [("role", JStr "assistant");
                               ("content", JStr direct_shape_text)]))
    by (vm_compute; reflexivity).
  rewrite (X13_direct_answer_is_the_raw_reply w payload empty_state resp (snd first)
             _ (JStr direct_shape_text) H1 Hm eq_refl).
  - reflexivity.
  - right. exists [("tool", JNull); ("final", JStr "Hi there")].
    split; vm_compute; reflexivity.
Defined.

(** X14. How a turn fails.  A failure of the first model call, or of
    reading the reply, leaves the turn as the exception itself, before any
    tool runs.  Any exception of the dispatcher, whatever its class, leaves
    it as an HTTP error with status 500 and [str(e)] as detail, in the state
    the tool left.  A failure of the second model call leaves it as the
    exception itself, and the audit row the tool wrote stays. *)
Theorem X14_turn_failures :
  forall w payload s,
    (forall e s1,
        call_model w (opening_messages payload) (Some get_model_functions) s
        = (Raise e, s1) ->
        chat_endpoint w payload s = (Raise e, s1))
    /\ (forall resp s1 e,
           call_model w (opening_messages payload) (Some get_model_functions) s
           = (Return resp, s1) ->
           extract_function_call resp = Raise e ->
           chat_endpoint w payload s = (Raise e, s1))
    /\ (forall resp s1 tool arguments,
           call_model w (opening_messages payload) (Some get_model_functions) s
           = (Return resp, s1) ->
           extract_function_call resp
           = Return (Some (JObj [("name", tool); ("arguments", arguments)])) ->
           (forall e s2,
               call_function_by_name w tool arguments s1 = (Raise e, s2) ->
               chat_endpoint w payload s
               = (Raise (HTTPException 500 (exn_str e)), s2))
           /\ (forall result s2 e s3,
                  call_function_by_name w tool arguments s1 = (Return result, s2) ->
                  call_model w (second_pass_messages payload tool arguments result)
                    None s2 = (Raise e, s3) ->
                  chat_endpoint w payload s = (Raise e, s3)
                  /\ function_calls s3 = function_calls s2)).
Proof.
  intros w payload s. split; [| split].
  - intros e s1 H1. unfold chat_endpoint. now rewrite (bind_Raise _ _ _ _ _ H1).
  - intros resp s1 e H1 H2. unfold chat_endpoint.
    rewrite (bind_Return _ _ _ _ _ H1). unfold bind at 1. unfold lift at 1.
    now rewrite H2.
  - intros resp s1 tool arguments H1 H2. split.
    + intros e s2 H3.
      rewrite (chat_endpoint_tool_call _ _ _ _ _ _ _ H1 H2). now rewrite H3.
    + intros result s2 e s3 H3 H4.
      rewrite (chat_endpoint_tool_call _ _ _ _ _ _ _ H1 H2), H3.
      unfold second_pass_messages in H4. split.
      * now rewrite (bind_Raise _ _ _ _ _ H4).
      * now destruct (call_model_effect _ _ _ _ _ _ H4) as (Ha & _ & _).
Qed.

Lemma X14_turn_failures_witness :
  fst (chat_endpoint backend_down (mkuser "u1" "Hello") empty_state)
  = Raise (PyExn HTTPError None).
Proof.
  pose (run := call_model backend_down (opening_messages (mkuser "u1" "Hello"))
                 (Some get_model_functions) empty_state).
  assert (H : call_model backend_down (opening_messages (mkuser "u1" "Hello"))
                (Some get_model_functions) empty_state
              = (Raise (PyExn HTTPError None), snd run)) by (vm_compute; reflexivity).
  rewrite (proj1 (X14_turn_failures backend_down (mkuser "u1" "Hello") empty_state)
             _ _ H).
  reflexivity.
Defined.

(** X15. A turn in which the tool returns and the second reply carries a
    content returns the function-call outcome: the tool name and the
    arguments exactly as the model sent them (keys the dispatcher dropped
    included), the result the tool returned, and the content of the second
    reply as response. *)
Theorem X15_function_call_outcome :
  forall w payload s resp s1 tool arguments result s2 resp2 s3 message text,
    call_model w (opening_messages payload) (Some get_model_functions) s
    = (Return resp, s1) ->
    extract_function_call resp
    = Return (Some (JObj [("name", tool); ("arguments", arguments)])) ->
    call_function_by_name w tool arguments s1 = (Return result, s2) ->
    call_model w (second_pass_messages payload tool arguments result) None s2
    = (Return resp2, s3) ->
    py_getitem resp2 "message" = Return message ->
    py_getitem message "content" = Return text ->
    chat_endpoint w payload s
    = (Return (JObj [("type", JStr "function_call");
                     ("function", tool);
                     ("function_args", arguments);
                     ("function_result", result);
                     ("response", text)]), s3).
Proof.
  intros w payload s resp s1 tool arguments result s2 resp2 s3 message text
         H1 H2 H3 H4 Hm Ht.
  rewrite (chat_endpoint_tool_call _ _ _ _ _ _ _ H1 H2), H3.
  unfold second_pass_messages in H4. rewrite (bind_Return _ _ _ _ _ H4).
  unfold bind, lift, ret. rewrite Hm. cbn [rbind]. now rewrite Ht.
Qed.

Lemma X15_function_call_outcome_witness :
  option_map (fun r => py_getitem r "function_args")
    (match fst (chat_endpoint Sample.currency_turn
                  (mkuser "u1" "Convert 500 INR to USD") empty_state) with
     | Return r => Some r
     | Raise _ => None
     end)
  = Some (Return (JObj [("amount", JInt 500); ("base", JStr "inr");
                        ("target", JStr "usd")])).
Proof.
  set (w := Sample.currency_turn).
  set (payload := mkuser "u1" "Convert 500 INR to USD").
  pose (first := call_model w (opening_messages payload) (Some get_model_functions)
                   empty_state).
  pose (resp := match fst first with Return r => r | Raise _ => JNull end).
  pose (arguments := JObj [("amount", JInt 500); ("base", JStr "inr");
                            ("target", JStr "usd")]).
  pose (tool := JStr "convert_currency").
  pose (done := call_function_by_name w tool arguments (snd first)).
  pose (result := match fst done with Return r => r | Raise _ => JNull end).
  pose (second := call_model w (second_pass_messages payload tool arguments result)
                    None (snd done)).
  pose (resp2 := match fst second with Return r => r | Raise _ => JNull end).
  assert (H1 : call_model w (opening_messages payload) (Some get_model_functions)
                 empty_state = (Return resp, snd first))
    by (vm_compute; reflexivity).
  assert (H2 : extract_function_call resp
               = Return (Some (JObj [("name", tool); ("arguments", arguments)])))
    by (vm_compute; reflexivity).
  assert (H3 : call_function_by_name w tool arguments (snd first)
               = (Return result, snd done)) by (vm_compute; reflexivity).
  assert (H4 : call_model w (second_pass_messages payload tool arguments result)
                 None (snd done) = (Return resp2, snd second))
    by (vm_compute; reflexivity).
  assert (Hm : py_getitem resp2 "message"
               = Return (JObj [("role", JStr "assistant");
                               ("content", JStr "500 INR is about 5.98 USD.")]))
    by (vm_compute; reflexivity).
  rewrite (X15_function_call_outcome w payload empty_state resp (snd first) tool
             arguments result (snd done) resp2 (snd second) _ _ H1 H2 H3 H4 Hm eq_refl).
  reflexivity.
Defined.

(** X16. The first model call of a turn, whatever the turn ends with, is
    made on two messages: the strict tool-calling prompt followed by the
    list of the registered tools, in place of the controller's own system
    message, and the user's message.  The controller's own system message
    only reaches the model with a second pass. *)
Theorem X16_first_pass_payload :
  forall w payload s,
    exists rest,
      sent_post (snd (chat_endpoint w payload s))
      = sent_post s
        ++ mkpayload MODEL_NAME
             [mkmsg "system"
                (Some [Lit strict_prompt; DumpsIndent2 (JArr get_model_functions);
                       Lit nl]) None None;
              mkmsg "user" (Some [Lit (message payload)]) None None]
             false 0
           :: rest.
Proof.
  intros w payload s.
  destruct (chat_endpoint w payload s) as [x s'] eqn:E. cbn [snd].
  unfold chat_endpoint in E. apply bind_inv in E.
  assert (Hfirst : forall y s1,
             call_model w (opening_messages payload) (Some get_model_functions) s
             = (y, s1) ->
             sent_post s1
             = sent_post s
               ++ [mkpayload MODEL_NAME
                     [mkmsg "system"
                        (Some [Lit strict_prompt;
                               DumpsIndent2 (JArr get_model_functions); Lit nl])
                        None None;
                      mkmsg "user" (Some [Lit (message payload)]) None None]
                     false 0]).
  { intros y s1 Hy. unfold call_model, bind, http_post, lift in Hy.
    cbn [get_model_functions FUNCTION_REGISTRY List.map opening_messages List.tl]
      in Hy.
    destruct (requests_post w _ _) as [msg | r]; [now injection Hy as _ <- |].
    destruct (raise_for_status r); now injection Hy as _ <-. }
  destruct E as [(resp & s1 & H1 & E) | (e & H1 & ->)].
  2: { exists []. exact (Hfirst _ _ H1). }
  match type of E with
  | ?K s1 = _ =>
      assert (G : exists l, sent_post s' = sent_post s1 ++ l)
  end.
  { apply bind_inv in E. destruct E as [(fc & s2 & Hx & E) | (e & Hx & ->)].
    2: { unfold lift in Hx. injection Hx as _ <-. exists []. now rewrite app_nil_r. }
    unfold lift in Hx. injection Hx as Hx <-.
    destruct fc as [fc |].
    - destruct (extract_function_call_shape _ _ Hx) as (tool & arguments & -> & _).
      pose proof (chat_endpoint_tool_call _ _ _ _ _ _ _ H1 Hx) as Hc.
      unfold chat_endpoint in Hc. rewrite (bind_Return _ _ _ _ _ H1) in Hc.
      unfold bind at 1 in Hc. unfold lift at 1 in Hc. rewrite Hx in Hc.
      rewrite Hc in E. clear Hc.
      destruct (call_function_by_name w tool arguments s1) as [[result | e] s2] eqn:E3;
        pose proof (grows_zero_eq _ _ _ _ _ (dispatch_post w tool arguments) E3) as Hp.
      + apply bind_inv in E. destruct E as [(resp2 & s3 & H4 & E) | (e & H4 & _)].
        * destruct (call_model_effect _ _ _ _ _ _ H4) as (_ & _ & p & Hp4).
          assert (s' = s3) as ->.
          { unfold bind, lift, ret in E.
            destruct (rbind _ _) in E; now injection E as _ <-. }
          exists [p]. now rewrite Hp4, Hp.
        * destruct (call_model_effect _ _ _ _ _ _ H4) as (_ & _ & p & Hp4).
          exists [p]. now rewrite Hp4, Hp.
      + injection E as _ <-. rewrite Hp. exists []. now rewrite app_nil_r.
    - unfold bind, lift, ret in E.
      destruct (rbind _ _) in E; injection E as _ <-; exists []; now rewrite app_nil_r. }
  destruct G as [l Hl]. exists l. rewrite Hl, (Hfirst _ _ H1). now rewrite <- app_assoc.
Qed.

(* ----------------------------------------------------------------- *)
(** ** The normalizers: fixed points and the emptiness test *)

Lemma digit_char_cases n :
  In (PyStr.digit_char n)
     ["0"; "1"; "2"; "3"; "4"; "5"; "6"; "7"; "8"; "9"]%char.
Proof.
  unfold PyStr.digit_char.
  pose proof (Z.mod_pos_bound n 10 eq_refl) as Hb.
  assert (H : n mod 10 = 0 \/ n mod 10 = 1 \/ n mod 10 = 2 \/ n mod 10 = 3
              \/ n mod 10 = 4 \/ n mod 10 = 5 \/ n mod 10 = 6 \/ n mod 10 = 7
              \/ n mod 10 = 8 \/ n mod 10 = 9) by lia.
  repeat (destruct H as [H | H]); rewrite H; vm_compute; tauto.
Qed.

Lemma strip_head c r :
  PyStr.isspace c = false -> exists r', PyStr.strip (String c r) = String c r'.
Proof.
  intro H. unfold PyStr.strip. cbn [PyStr.lstrip]. rewrite H. cbn [PyStr.rstrip].
  destruct (PyStr.rstrip r); [rewrite H |]; eauto.
Qed.

(** The ISO text of a date is none of the words the normalizer knows. *)
Lemma isoformat_not_a_word d :
  exists c r,
    isoformat d = String c r
    /\ String.eqb (PyStr.lower (PyStr.strip (isoformat d))) "today" = false
    /\ String.eqb (PyStr.lower (PyStr.strip (isoformat d))) "tomorrow" = false.
Proof.
  unfold isoformat, PyStr.pad4. cbn [String.append].
  set (c := PyStr.digit_char (year d / 1000)).
  match goal with |- context [String c ?r] => set (rest := r) end.
  exists c, rest. split; [reflexivity |].
  assert (Hc : PyStr.isspace c = false /\ Ascii.eqb (PyStr.tolower c) "t" = false).
  { pose proof (digit_char_cases (year d / 1000)) as H. fold c in H.
    cbn [In] in H.
    repeat (destruct H as [H | H]; [rewrite <- H; split; reflexivity |]).
    contradiction. }
  destruct Hc as [Hs Ht].
  destruct (strip_head c rest Hs) as [r' ->].
  unfold PyStr.lower. cbn [PyStr.map String.eqb]. rewrite Ht. split; reflexivity.
Qed.

Lemma isoformat_length d : String.length (isoformat d) = 10%nat.
Proof. reflexivity. Qed.

(** X17. A date the normalizer returns (the clock showing a date of the
    calendar) is the ten-character ISO text of a date of the calendar, and
    it is a fixed point of the normalizer whatever the clock shows:
    normalizing it again gives it back, so the words [today] and [tomorrow]
    are resolved once and for all. *)
Theorem X17_normalized_date_is_a_fixed_point :
  forall today v s,
    valid_date today ->
    normalize_date today v = Return s ->
    String.length s = 10%nat
    /\ (exists d, valid_date d /\ s = isoformat d)
    /\ forall today', normalize_date today' (JStr s) = Return s.
Proof.
  intros today v s Htoday H.
  destruct (normalize_date_iso _ _ _ Htoday H) as (d & Hd & -> & Hparse).
  split; [apply isoformat_length |]. split; [now exists d |].
  intro today'. unfold normalize_date.
  destruct (isoformat_not_a_word d) as (c & r & Hiso & H1 & H2).
  rewrite H1, H2, Hparse.
  cbn [py_truthy]. now rewrite Hiso.
Qed.

Lemma X17_normalized_date_witness :
  normalize_date (mkdate 2020 1 1) (JStr "2026-02-20") = Return "2026-02-20".
Proof.
  assert (Hv : valid_date (mkdate 2026 2 19)) by reflexivity.
  assert (H : normalize_date (mkdate 2026 2 19) (JStr " Tomorrow ")
              = Return "2026-02-20") by (vm_compute; reflexivity).
  exact (proj2 (proj2 (X17_normalized_date_is_a_fixed_point _ _ _ Hv H))
           (mkdate 2020 1 1)).
Defined.

Lemma space_not_digit c : PyStr.isspace c = true -> PyStr.isdigit c = false.
Proof.
  unfold PyStr.isspace, PyStr.isdigit. cbv zeta.
  generalize (PyStr.code c). intros n H.
  destruct (48 <=? n) eqn:E1; [| reflexivity].
  destruct (n <=? 57) eqn:E2; [| reflexivity].
  apply Z.leb_le in E1, E2.
  apply orb_prop in H. destruct H as [H | H]; apply andb_prop in H;
    destruct H as [Ha Hb]; apply Z.leb_le in Ha, Hb; lia.
Qed.

Lemma lstrip_all_space s :
  PyStr.all PyStr.isspace s = true -> PyStr.lstrip s = "".
Proof.
  induction s as [| c s IH]; simpl; [reflexivity |].
  intro H. apply andb_prop in H. destruct H as [Hc Hs]. rewrite Hc. now apply IH.
Qed.

Lemma strip_all_space s :
  PyStr.all PyStr.isspace s = true -> PyStr.strip s = "".
Proof. intro H. unfold PyStr.strip. now rewrite (lstrip_all_space _ H). Qed.

Lemma fromisoformat_space c r :
  PyStr.isspace c = true ->
  fromisoformat (String c r) = Raise (PyExn ValueError None).
Proof.
  intro H. unfold fromisoformat. cbn [PyStr.take PyStr.all].
  rewrite (space_not_digit _ H). cbn [andb].
  now rewrite andb_false_r.
Qed.

(** X18. What the emptiness test of the normalizers lets through.  The
    test is on the raw value: a falsy value (the empty string, [None], [0],
    an empty list) gives the "cannot be empty" error of each normalizer,
    and a truthy value that is no string fails with [AttributeError].  A
    string of white space only is truthy and passes the test: the city and
    the currency normalizers return the empty string for it, and the date
    normalizer rejects it with the invalid-format error, not the
    empty-date one. *)
Theorem X18_emptiness_test_is_on_the_raw_value :
  (forall v today,
      py_truthy v = false ->
      normalize_city v = Raise (PyExn ValueError (Some "City cannot be empty."))
      /\ normalize_currency v
         = Raise (PyExn ValueError (Some "Currency cannot be empty."))
      /\ normalize_date today v
         = Raise (PyExn ValueError (Some "Date cannot be empty.")))
  /\ (forall v today,
         py_truthy v = true ->
         (forall s, v <> JStr s) ->
         normalize_city v = Raise (PyExn AttributeError None)
         /\ normalize_currency v = Raise (PyExn AttributeError None)
         /\ normalize_date today v = Raise (PyExn AttributeError None))
  /\ (forall s today,
         s <> "" ->
         PyStr.all PyStr.isspace s = true ->
         normalize_city (JStr s) = Return ""
         /\ normalize_currency (JStr s) = Return ""
         /\ normalize_date today (JStr s)
            = Raise (PyExn ValueError
                       (Some "Invalid date format. Use YYYY-MM-DD or today/tomorrow."))).
Proof.
  split; [| split].
  - intros v today H. unfold normalize_city, normalize_currency, normalize_date.
    rewrite H. cbn [negb]. auto.
  - intros v today H Hs. unfold normalize_city, normalize_currency, normalize_date.
    rewrite H. cbn [negb].
    destruct v; try (repeat split; reflexivity). now destruct (Hs s).
  - intros s today Hne Hsp.
    assert (Ht : py_truthy (JStr s) = true).
    { cbn [py_truthy]. destruct s; [now destruct Hne | reflexivity]. }
    unfold normalize_city, normalize_currency, normalize_date.
    rewrite Ht. cbn [negb]. rewrite (strip_all_space _ Hsp).
    repeat split; try reflexivity.
    destruct s as [| c r]; [now destruct Hne |].
    cbn [PyStr.all] in Hsp. apply andb_prop in Hsp. destruct Hsp as [Hc _].
    rewrite (fromisoformat_space _ _ Hc). reflexivity.
Qed.

Lemma X18_emptiness_test_witness :
  normalize_city (JStr "   ") = Return ""
  /\ normalize_city (JInt 0) = Raise (PyExn ValueError (Some "City cannot be empty."))
  /\ normalize_city (JInt 7) = Raise (PyExn AttributeError None).
Proof.
  destruct X18_emptiness_test_is_on_the_raw_value as (Hfalsy & Hother & Hspace).
  split; [| split].
  - apply (Hspace "   " (mkdate 2026 2 19)); [discriminate | reflexivity].
  - apply (Hfalsy (JInt 0) (mkdate 2026 2 19)). reflexivity.
  - apply (Hother (JInt 7) (mkdate 2026 2 19)); [reflexivity | discriminate].
Defined.

Lemma toupper_space c : PyStr.isspace (PyStr.toupper c) = PyStr.isspace c.
Proof.
  destruct c as [a0 a1 a2 a3 a4 a5 a6 a7].
  destruct a0, a1, a2, a3, a4, a5, a6, a7; vm_compute; reflexivity.
Qed.

Lemma lstrip_upper s : PyStr.lstrip (PyStr.upper s) = PyStr.upper (PyStr.lstrip s).
Proof.
  unfold PyStr.upper. induction s as [| c s IH]; simpl; [reflexivity |].
  rewrite toupper_space. now destruct (PyStr.isspace c).
Qed.

Lemma rstrip_upper s : PyStr.rstrip (PyStr.upper s) = PyStr.upper (PyStr.rstrip s).
Proof.
  unfold PyStr.upper. induction s as [| c s IH]; simpl; [reflexivity |].
  rewrite IH, toupper_space.
  destruct (PyStr.rstrip s); simpl; [now destruct (PyStr.isspace c) | reflexivity].
Qed.

Lemma rstrip_idem s : PyStr.rstrip (PyStr.rstrip s) = PyStr.rstrip s.
Proof.
  induction s as [| c s IH]; simpl; [reflexivity |].
  destruct (PyStr.rstrip s) as [| c' r'] eqn:E.
  - destruct (PyStr.isspace c) eqn:Ec; simpl; [reflexivity | now rewrite Ec].
  - cbn [PyStr.rstrip] in IH |- *. fold (PyStr.rstrip (String c' r')).
    change (match PyStr.rstrip (String c' r') with
            | "" => if PyStr.isspace c then "" else String c ""
            | String a b => String c (String a b)
            end = String c (String c' r')).
    cbn [PyStr.rstrip]. now rewrite IH.
Qed.

Lemma lstrip_head s :
  PyStr.lstrip s = ""
  \/ exists c r, PyStr.lstrip s = String c r /\ PyStr.isspace c = false.
Proof.
  induction s as [| c s IH]; simpl; [now left |].
  destruct (PyStr.isspace c) eqn:E; [exact IH | right; eauto].
Qed.

Lemma strip_idem s : PyStr.strip (PyStr.strip s) = PyStr.strip s.
Proof.
  unfold PyStr.strip.
  assert (H : PyStr.lstrip (PyStr.rstrip (PyStr.lstrip s))
              = PyStr.rstrip (PyStr.lstrip s)).
  { destruct (lstrip_head s) as [-> | (c & r & -> & Hc)]; [reflexivity |].
    cbn [PyStr.rstrip].
    destruct (PyStr.rstrip r); [rewrite Hc |]; cbn [PyStr.lstrip]; now rewrite Hc. }
  rewrite H. apply rstrip_idem.
Qed.

(** X19. A code the currency normalizer returns carries no white space
    around it and no lower-case letter, and unless it is the empty string
    it is a fixed point of the normalizer: the normalized codes that
    [convert_currency] puts into its request and its result normalize to
    themselves. *)
Theorem X19_normalized_currency_is_a_fixed_point :
  forall code c,
    normalize_currency code = Return c ->
    PyStr.strip c = c
    /\ PyStr.upper c = c
    /\ (c <> "" -> normalize_currency (JStr c) = Return c).
Proof.
  intros code c H.
  destruct (normalize_currency_upper _ _ H) as (t & -> & -> & Hup).
  assert (Hs : PyStr.strip (PyStr.upper (PyStr.strip t)) = PyStr.upper (PyStr.strip t)).
  { unfold PyStr.strip at 1. rewrite lstrip_upper, rstrip_upper.
    fold (PyStr.strip (PyStr.strip t)). now rewrite strip_idem. }
  split; [exact Hs |]. split; [exact Hup |].
  remember (PyStr.upper (PyStr.strip t)) as c eqn:Ec. clear Ec.
  intro Hne. unfold normalize_currency. cbn [py_truthy].
  destruct (String.eqb c "") eqn:E; [apply String.eqb_eq in E; contradiction |].
  cbn [negb]. now rewrite Hs, Hup.
Qed.

Lemma X19_normalized_currency_witness :
  normalize_currency (JStr "INR") = Return "INR".
Proof.
  assert (H : normalize_currency (JStr " inr ") = Return "INR")
    by (vm_compute; reflexivity).
  apply (X19_normalized_currency_is_a_fixed_point _ _ H). discriminate.
Defined.

(* ----------------------------------------------------------------- *)
(** ** The forecast summary of the weather tool *)

Lemma rbind_Return_inv {A B} (r : result A) (k : A -> result B) b :
  rbind r k = Return b -> exists a, r = Return a /\ k a = Return b.
Proof. destruct r as [a | e]; simpl; [eauto | discriminate]. Qed.

Ltac rinv H a Ha := apply rbind_Return_inv in H; destruct H as (a & Ha & H).

Lemma py_min_from_least best l :
  In (py_min_from best l) (best :: l)
  /\ forall v, In v (best :: l) -> (num_of (py_min_from best l) <= num_of v)%Q.
Proof.
  revert best. induction l as [| x l IH]; intro best; cbn [py_min_from].
  - split; [now left |]. intros v [<- | []]. apply Qle_refl.
  - destruct (Qle_bool (num_of best) (num_of x)) eqn:E; cbn [negb].
    + destruct (IH best) as [Hin Hle]. split.
      * destruct Hin as [<- | Hin]; [now left | now right; right].
      * intros v [<- | [<- | Hv]].
        -- apply Hle. now left.
        -- apply Qle_trans with (num_of best); [apply Hle; now left |].
           now apply Qle_bool_iff.
        -- apply Hle. now right.
    + destruct (IH x) as [Hin Hle]. split.
      * now right.
      * intros v [<- | [<- | Hv]].
        -- apply Qle_trans with (num_of x); [apply Hle; now left |].
           apply Qlt_le_weak, Qnot_le_lt. intro Hc.
           apply Qle_bool_iff in Hc. congruence.
        -- apply Hle. now left.
        -- apply Hle. now right.
Qed.

Lemma py_max_from_greatest best l :
  In (py_max_from best l) (best :: l)
  /\ forall v, In v (best :: l) -> (num_of v <= num_of (py_max_from best l))%Q.
Proof.
  revert best. induction l as [| x l IH]; intro best; cbn [py_max_from].
  - split; [now left |]. intros v [<- | []]. apply Qle_refl.
  - destruct (Qle_bool (num_of x) (num_of best)) eqn:E; cbn [negb].
    + destruct (IH best) as [Hin Hle]. split.
      * destruct Hin as [<- | Hin]; [now left | now right; right].
      * intros v [<- | [<- | Hv]].
        -- apply Hle. now left.
        -- apply Qle_trans with (num_of best); [| apply Hle; now left].
           now apply Qle_bool_iff.
        -- apply Hle. now right.
    + destruct (IH x) as [Hin Hle]. split.
      * now right.
      * intros v [<- | [<- | Hv]].
        -- apply Qle_trans with (num_of x); [| apply Hle; now left].
           apply Qlt_le_weak, Qnot_le_lt. intro Hc.
           apply Qle_bool_iff in Hc. congruence.
        -- apply Hle. now left.
        -- apply Hle. now right.
Qed.

(** X20. The temperatures of a forecast summary.  [temps] being the
    [main.temp] values of the day's entries that are not [None]: when there
    is none, minimum, maximum and average are all [None]; otherwise every
    value is a number, the average is not [None], and the minimum and the
    maximum are values of the list that bound every other. *)
Theorem X20_forecast_temperatures_are_ordered :
  forall date geo day_entries result,
    forecast_result date geo day_entries = Return result ->
    exists temps fields,
      main_values day_entries "temp" = Return temps
      /\ result = JObj fields
      /\ ((temps = []
           /\ Dict.get "temp_min_c" fields = Some JNull
           /\ Dict.get "temp_max_c" fields = Some JNull
           /\ Dict.get "temp_avg_c" fields = Some JNull)
          \/ exists lo hi avg,
              Dict.get "temp_min_c" fields = Some lo
              /\ Dict.get "temp_max_c" fields = Some hi
              /\ Dict.get "temp_avg_c" fields = Some avg
              /\ avg <> JNull
              /\ (forall v, In v temps -> py_number v <> None)
              /\ In lo temps /\ In hi temps
              /\ (forall v, In v temps -> (num_of lo <= num_of v <= num_of hi)%Q)).
Proof.
  intros date geo day_entries result H. unfold forecast_result in H.
  rinv H temps Htemps. rinv H feels Hfeels. rinv H humid Hhumid.
  rinv H descs Hdescs. cbv zeta in H.
  rinv H nm Hnm. rinv H country Hcountry.
  rinv H temp_min Hmin. rinv H temp_max Hmax. rinv H temp_avg Havg.
  rinv H feels_avg Hfa. rinv H humid_avg Hha.
  injection H as <-. exists temps. eexists. split; [exact Htemps |].
  split; [reflexivity |].
  cbn [Dict.get String.eqb Ascii.eqb Bool.eqb].
  destruct temps as [| v0 rest].
  - left. cbn in Hmin, Hmax, Havg.
    injection Hmin as <-. injection Hmax as <-. injection Havg as <-. tauto.
  - right. unfold py_min_or_none in Hmin. unfold py_max_or_none in Hmax.
    unfold py_avg in Havg.
    rinv Hmin qs Hqs. injection Hmin as <-.
    rinv Hmax qs' Hqs'. injection Hmax as <-.
    rinv Havg qs'' Hqs''. injection Havg as <-.
    destruct (py_min_from_least v0 rest) as [Hin_lo Hlo].
    destruct (py_max_from_greatest v0 rest) as [Hin_hi Hhi].
    do 3 eexists. repeat (split; [reflexivity |]).
    split; [discriminate |].
    split; [| split; [exact Hin_lo | split; [exact Hin_hi |]]].
    + clear - Hqs. revert qs Hqs.
      induction (v0 :: rest) as [| x l IH]; intros qs Hqs v Hv; [destruct Hv |].
      cbn [numbers] in Hqs. destruct (py_number x) as [q |] eqn:E; [| discriminate].
      rinv Hqs qs1 H1. destruct Hv as [<- | Hv]; [congruence |].
      exact (IH _ H1 _ Hv).
    + intros v Hv. split; [now apply Hlo | now apply Hhi].
Qed.

Lemma X20_forecast_temperatures_witness :
  exists fields lo hi,
    forecast_result "2026-02-20" sample_geo sample_day = Return (JObj fields)
    /\ Dict.get "temp_min_c" fields = Some lo
    /\ Dict.get "temp_max_c" fields = Some hi
    /\ (num_of lo == 28)%Q /\ (num_of hi == 335 # 10)%Q.
Proof.
  destruct (forecast_result "2026-02-20" sample_geo sample_day) as [result | e] eqn:H;
    [| vm_compute in H; discriminate].
  destruct (X20_forecast_temperatures_are_ordered _ _ _ _ H)
    as (temps & fields & Htemps & Hfields & Hcases).
  vm_compute in H. rewrite Hfields in H. injection H as H. subst fields.
  eexists. rewrite Hfields.
  destruct Hcases as [(_ & Hmin & _) | (lo & hi & avg & Hmin & Hmax & _)].
  - vm_compute in Hmin. discriminate.
  - exists lo, hi.
    repeat (split; [first [reflexivity | assumption] |]).
    vm_compute in Hmin, Hmax. injection Hmin as <-. injection Hmax as <-.
    split; reflexivity.
Defined.

(* ----------------------------------------------------------------- *)
(** ** The day buckets of the forecast *)

Lemma group_entries_buckets entries :
  forall acc grouped,
    group_entries entries acc = Return grouped ->
    forall k,
      Dict.get k grouped
      = match Dict.get k acc, List.filter (falls_on k) entries with
        | None, [] => None
        | None, l => Some l
        | Some b, l => Some (b ++ l)
        end.
Proof.
  induction entries as [| e rest IH]; intros acc grouped H k.
  - cbn in H. injection H as <-. cbn [List.filter].
    destruct (Dict.get k acc); [now rewrite app_nil_r | reflexivity].
  - cbn [group_entries] in H. rinv H ts Hts.
    assert (Hskip : entry_day e = None ->
                    group_entries rest acc = Return grouped ->
                    Dict.get k grouped
                    = match Dict.get k acc, List.filter (falls_on k) (e :: rest) with
                      | None, [] => None
                      | None, l => Some l
                      | Some b, l => Some (b ++ l)
                      end).
    { intros Hday Hrest.
      assert (Hf : falls_on k e = false) by (unfold falls_on; now rewrite Hday).
      cbn [List.filter]. rewrite Hf. exact (IH _ _ Hrest k). }
    assert (Hput : forall dts,
               entry_day e = Some (isoformat dts) ->
               group_entries rest
                 (Dict.set acc (isoformat dts)
                    (match Dict.get (isoformat dts) acc with
                     | Some l => l
                     | None => []
                     end ++ [e])) = Return grouped ->
               Dict.get k grouped
               = match Dict.get k acc, List.filter (falls_on k) (e :: rest) with
                 | None, [] => None
                 | None, l => Some l
                 | Some b, l => Some (b ++ l)
                 end).
    { intros dts Hday Hrest.
      assert (Hf : falls_on k e = String.eqb (isoformat dts) k)
        by (unfold falls_on; now rewrite Hday).
      rewrite (IH _ _ Hrest k), dict_get_set.
      cbn [List.filter]. rewrite Hf.
      destruct (String.eqb (isoformat dts) k) eqn:E.
      - apply String.eqb_eq in E. rewrite E.
        destruct (Dict.get k acc) as [b |].
        + now rewrite <- app_assoc.
        + reflexivity.
      - reflexivity. }
    unfold entry_day in Hskip, Hput. rewrite Hts in Hskip, Hput.
    destruct ts; try (now apply Hskip);
      (rinv H dts Hdts; cbv zeta in H; rewrite Hdts in Hput; now apply (Hput dts)).
Qed.

(** X21. The buckets of the forecast.  When the grouping loop ends, the
    bucket of a day holds exactly the entries whose [dt] falls on that day
    in UTC, in the order of the answer; entries without a [dt] are in no
    bucket, and a day on which no entry falls has no bucket, which is what
    the tool reports as a date outside the forecast window. *)
Theorem X21_forecast_buckets :
  forall entries grouped,
    group_entries entries [] = Return grouped ->
    forall k,
      Dict.get k grouped
      = match List.filter (falls_on k) entries with
        | [] => None
        | day_entries => Some day_entries
        end.
Proof.
  intros entries grouped H k. exact (group_entries_buckets _ _ _ H k).
Qed.

Lemma X21_forecast_buckets_witness :
  (group_entries sample_entries [] = Return [("2026-02-20", sample_day);
                                            ("2026-02-21",
                                             [Sample.forecast_entry 1771632000 20 20 60
                                                "rain"])])
  /\ Dict.get "2026-02-20"
       [("2026-02-20", sample_day);
        ("2026-02-21", [Sample.forecast_entry 1771632000 20 20 60 "rain"])]
     = Some sample_day.
Proof.
  assert (H : group_entries sample_entries []
              = Return [("2026-02-20", sample_day);
                        ("2026-02-21",
                         [Sample.forecast_entry 1771632000 20 20 60 "rain"])])
    by (vm_compute; reflexivity).
  split; [exact H |].
  rewrite (X21_forecast_buckets _ _ H "2026-02-20"). reflexivity.
Defined.

(* ----------------------------------------------------------------- *)
(** ** The condition of the forecast *)

Lemma occurrences_cons x y l :
  occurrences x (y :: l) = (if String.eqb y x then 1 else 0) + occurrences x l.
Proof.
  unfold occurrences. cbn [count_occ].
  destruct (string_dec y x) as [-> | Hne].
  - rewrite String.eqb_refl. lia.
  - apply String.eqb_neq in Hne. rewrite Hne. lia.
Qed.

Lemma occurrences_nonneg x l : 0 <= occurrences x l.
Proof. unfold occurrences. lia. Qed.

Lemma counter_get l :
  forall acc x,
    Dict.get x (counter l acc)
    = match Dict.get x acc with
      | Some n => Some (n + occurrences x l)
      | None => if occurrences x l =? 0 then None else Some (occurrences x l)
      end.
Proof.
  induction l as [| y l IH]; intros acc x; cbn [counter].
  - unfold occurrences. cbn. destruct (Dict.get x acc); [f_equal; lia | reflexivity].
  - rewrite IH, dict_get_set, occurrences_cons.
    pose proof (occurrences_nonneg x l) as Hpos.
    destruct (String.eqb y x) eqn:E.
    + apply String.eqb_eq in E. subst y.
      destruct (Dict.get x acc) as [n |].
      * f_equal. lia.
      * destruct (1 + occurrences x l =? 0) eqn:E0; [lia |]. f_equal; lia.
    + destruct (Dict.get x acc); reflexivity.
Qed.

Lemma nodup_snoc (l : list string) k : NoDup l -> ~ In k l -> NoDup (l ++ [k]).
Proof.
  induction 1 as [| a l Ha Hl IH]; intro Hk; cbn.
  - constructor; [tauto | constructor].
  - constructor.
    + rewrite in_app_iff. cbn. intros [H | [H | []]]; [tauto |].
      apply Hk. now left.
    + apply IH. intro H. apply Hk. now right.
Qed.

Lemma dict_keys_set_old {V} (d : list (string * V)) k v v0 :
  Dict.get k d = Some v0 -> Dict.keys (Dict.set d k v) = Dict.keys d.
Proof.
  induction d as [| [k0 v1] d IH]; simpl; [discriminate |].
  destruct (String.eqb k0 k); [reflexivity |].
  intro H. simpl. f_equal. now apply IH.
Qed.

Lemma dict_set_nodup {V} (d : list (string * V)) k v :
  NoDup (Dict.keys d) -> NoDup (Dict.keys (Dict.set d k v)).
Proof.
  intro H. destruct (Dict.get k d) as [v0 |] eqn:E.
  - now rewrite (dict_keys_set_old _ _ _ _ E).
  - rewrite (dict_keys_set_new _ _ _ E). apply nodup_snoc; [exact H |].
    now apply dict_get_none_keys.
Qed.

Lemma counter_nodup l :
  forall acc, NoDup (Dict.keys acc) -> NoDup (Dict.keys (counter l acc)).
Proof.
  induction l as [| y l IH]; intros acc H; cbn [counter]; [exact H |].
  apply IH. now apply dict_set_nodup.
Qed.

Lemma dict_in_get {V} (d : list (string * V)) k v :
  NoDup (Dict.keys d) -> In (k, v) d -> Dict.get k d = Some v.
Proof.
  induction d as [| [k0 v0] d IH]; simpl; [tauto |].
  intros Hnd [Heq | Hin].
  - injection Heq as -> ->. now rewrite String.eqb_refl.
  - inversion Hnd as [| ? ? Hk0 Hd]; subst.
    destruct (String.eqb k0 k) eqn:E.
    + apply String.eqb_eq in E. subst k0. exfalso. apply Hk0.
      change k with (fst (k, v)). now apply in_map.
    + now apply IH.
Qed.

Lemma dict_get_in {V} (d : list (string * V)) k v :
  Dict.get k d = Some v -> In (k, v) d.
Proof.
  induction d as [| [k0 v0] d IH]; simpl; [discriminate |].
  destruct (String.eqb k0 k) eqn:E.
  - apply String.eqb_eq in E. subst k0. intro H; injection H as <-. now left.
  - intro H. right. now apply IH.
Qed.

Lemma most_common_from_greatest best l :
  In (most_common_from best l) (best :: l)
  /\ forall x, In x (best :: l) -> snd x <= snd (most_common_from best l).
Proof.
  revert best. induction l as [| y l IH]; intro best; cbn [most_common_from].
  - split; [now left |]. intros x [<- | []]. lia.
  - destruct (snd best <? snd y) eqn:E.
    + apply Z.ltb_lt in E. destruct (IH y) as [Hin Hle]. split; [now right |].
      intros x [<- | Hx]; [| now apply Hle].
      specialize (Hle y (or_introl eq_refl)). lia.
    + apply Z.ltb_ge in E. destruct (IH best) as [Hin Hle]. split.
      * destruct Hin as [<- | Hin]; [now left | now right; right].
      * intros x [<- | [<- | Hx]].
        -- apply Hle. now left.
        -- specialize (Hle best (or_introl eq_refl)). lia.
        -- apply Hle. now right.
Qed.

Lemma occurrences_named x descs :
  x <> "" -> occurrences x (List.filter nonempty descs) = occurrences x descs.
Proof.
  intro Hx. induction descs as [| y l IH]; [reflexivity |].
  cbn [List.filter]. unfold nonempty at 1.
  destruct (String.eqb y "") eqn:E; cbn [negb].
  - apply String.eqb_eq in E. subst y. rewrite occurrences_cons, IH.
    assert (String.eqb "" x = false) as -> by (apply String.eqb_neq; congruence).
    reflexivity.
  - now rewrite !occurrences_cons, IH.
Qed.

Lemma occurrences_in x l : occurrences x l <> 0 -> In x l.
Proof.
  unfold occurrences. intro H. apply (count_occ_In string_dec). lia.
Qed.

(** The most common item of a non-empty list. *)
Lemma most_common1_counter named :
  match most_common1 (counter named []) with
  | [] => named = []
  | (d, n) :: _ =>
      In d named /\ n = occurrences d named
      /\ forall x, occurrences x named <= occurrences d named
  end.
Proof.
  pose proof (counter_nodup named [] (NoDup_nil _)) as Hnd.
  pose proof (fun x => counter_get named [] x) as Hget. cbn [Dict.get] in Hget.
  destruct (counter named []) as [| first others] eqn:Ec; cbn [most_common1].
  - destruct named as [| y l]; [reflexivity |].
    specialize (Hget y). rewrite occurrences_cons, String.eqb_refl in Hget.
    pose proof (occurrences_nonneg y l).
    cbn [Dict.get] in Hget. destruct (1 + occurrences y l =? 0) eqn:E; [lia | discriminate].
  - destruct (most_common_from_greatest first others) as [Hin Hle].
    destruct (most_common_from first others) as [d n].
    pose proof (dict_in_get _ _ _ Hnd Hin) as Hd. rewrite Hget in Hd.
    destruct (occurrences d named =? 0) eqn:E0; [discriminate |].
    injection Hd as Hd. apply Z.eqb_neq in E0.
    split; [now apply occurrences_in |]. split; [now symmetry |].
    intro x. destruct (occurrences x named =? 0) eqn:Ex.
    + apply Z.eqb_eq in Ex. rewrite Ex. apply occurrences_nonneg.
    + pose proof (Hget x) as Hx. rewrite Ex in Hx. apply dict_get_in in Hx.
      specialize (Hle _ Hx). cbn [snd] in Hle. lia.
Qed.

(** X22. The condition of a forecast summary is a most frequent
    description of the day: with [descs] the lower-cased descriptions of
    the day's entries (the empty text standing for a missing one), the
    condition is [None] when none is non-empty, and otherwise a non-empty
    description of the list that occurs at least as often as any other
    non-empty one. *)
Theorem X22_forecast_condition_is_most_frequent :
  forall date geo day_entries result,
    forecast_result date geo day_entries = Return result ->
    exists descs fields,
      descriptions day_entries = Return descs
      /\ result = JObj fields
      /\ ((List.filter nonempty descs = []
           /\ Dict.get "condition" fields = Some JNull)
          \/ exists d,
              Dict.get "condition" fields = Some (JStr d)
              /\ In d descs /\ d <> ""
              /\ forall x, x <> "" -> occurrences x descs <= occurrences d descs).
Proof.
  intros date geo day_entries result H. unfold forecast_result in H.
  rinv H temps Htemps. rinv H feels Hfeels. rinv H humid Hhumid.
  rinv H descs Hdescs. cbv zeta in H.
  rinv H nm Hnm. rinv H country Hcountry.
  rinv H temp_min Hmin. rinv H temp_max Hmax. rinv H temp_avg Havg.
  rinv H feels_avg Hfa. rinv H humid_avg Hha.
  injection H as <-. exists descs. eexists. split; [exact Hdescs |].
  split; [reflexivity |].
  cbn [Dict.get String.eqb Ascii.eqb Bool.eqb].
  pose proof (most_common1_counter (List.filter nonempty descs)) as Hmc.
  destruct (most_common1 (counter (List.filter nonempty descs) [])) as [| [d n] ?].
  - left. now split.
  - right. destruct Hmc as (Hin & _ & Hmax'). exists d.
    apply filter_In in Hin. destruct Hin as [Hin Hne].
    assert (Hd : d <> "").
    { unfold nonempty in Hne. intros ->. discriminate. }
    repeat split; [exact Hin | exact Hd |].
    intros x Hx. rewrite <- (occurrences_named x descs Hx),
                   <- (occurrences_named d descs Hd).
    apply Hmax'.
Qed.

Lemma X22_forecast_condition_witness :
  exists fields,
    forecast_result "2026-02-20" sample_geo sample_day = Return (JObj fields)
    /\ Dict.get "condition" fields = Some (JStr "clear sky").
Proof.
  destruct (forecast_result "2026-02-20" sample_geo sample_day) as [result | e] eqn:H;
    [| vm_compute in H; discriminate].
  destruct (X22_forecast_condition_is_most_frequent _ _ _ _ H)
    as (descs & fields & Hdescs & Hfields & Hcases).
  exists fields. split; [now rewrite Hfields |].
  vm_compute in H. rewrite Hfields in H. injection H as H. rewrite <- H.
  reflexivity.
Defined.

(* ----------------------------------------------------------------- *)
(** ** A date the normalizer rejects *)

Lemma weather_rejected_date w city date city' e s :
  normalize_city city = Return city' ->
  normalize_date (today w) date = Raise e ->
  get_weather_for_date w city date s = (Raise e, s).
Proof.
  intros H1 H2. unfold get_weather_for_date, bind, lift. now rewrite H1, H2.
Qed.

(** X23. A date the date normalizer rejects, the city being accepted.
    The weather tool ends with the exception of the normalizer before it
    opens the audit table, reads its key or sends a request, and the turn
    ends as an HTTP error with status 500 whose detail is the message of the
    normalizer, without an audit row and without a second model call.  The
    tool's own handler for a date that does not parse, which would return
    an error result and log it, sees only dates the normalizer has returned,
    and those always parse. *)
Theorem X23_rejected_date_ends_the_turn :
  forall w payload s resp s1 args city date city' e,
    call_model w (opening_messages payload) (Some get_model_functions) s
    = (Return resp, s1) ->
    extract_function_call resp
    = Return (Some (JObj [("name", JStr "get_weather_for_date");
                          ("arguments", JObj args)])) ->
    Dict.get "city" args = Some city ->
    Dict.get "date" args = Some date ->
    normalize_city city = Return city' ->
    normalize_date (today w) date = Raise e ->
    (forall s0, get_weather_for_date w city date s0 = (Raise e, s0))
    /\ chat_endpoint w payload s = (Raise (HTTPException 500 (exn_str e)), s1)
    /\ function_calls s1 = function_calls s
    /\ (exists p, sent_post s1 = sent_post s ++ [p])
    /\ (valid_date (today w) ->
        forall any_date date',
          normalize_date (today w) any_date = Return date' ->
          exists target, fromisoformat date' = Return target).
Proof.
  intros w payload s resp s1 args city date city' e H1 H2 Hc Hd Hcity Hdate.
  split; [| split; [| split; [| split]]].
  - intro s0. now apply (weather_rejected_date w city date city').
  - rewrite (chat_endpoint_tool_call _ _ _ _ _ _ _ H1 H2).
    rewrite (call_function_by_name_registered w "get_weather_for_date" _
               ["city"; "date"] _ s1 eq_refl eq_refl).
    cbn [callable]. run_dispatch.
    unfold bind, lift. cbn. unfold get_weather_for_date, bind, lift.
    now rewrite Hcity, Hdate.
  - now destruct (call_model_effect _ _ _ _ _ _ H1) as (Ha & _ & _).
  - now destruct (call_model_effect _ _ _ _ _ _ H1) as (_ & _ & Hp).
  - intros Hv any_date date' Hn.
    destruct (normalize_date_iso _ _ _ Hv Hn) as (d & _ & _ & Hparse). eauto.
Qed.

Lemma X23_rejected_date_witness :
  fst (chat_endpoint Sample.bad_date_turn (mkuser "u1" "Weather in Pune on notadate?")
         empty_state)
  = Raise (HTTPException 500
             (Some "Invalid date format. Use YYYY-MM-DD or today/tomorrow.")).
Proof.
  set (w := Sample.bad_date_turn).
  set (payload := mkuser "u1" "Weather in Pune on notadate?").
  pose (first := call_model w (opening_messages payload) (Some get_model_functions)
                   empty_state).
  pose (resp := match fst first with Return r => r | Raise _ => JNull end).
  pose (args := [("city", JStr "Pune"); ("date", JStr "notadate")]).
  assert (H1 : call_model w (opening_messages payload) (Some get_model_functions)
                 empty_state = (Return resp, snd first))
    by (vm_compute; reflexivity).
  assert (H2 : extract_function_call resp
               = Return (Some (JObj [("name", JStr "get_weather_for_date");
                                     ("arguments", JObj args)])))
    by (vm_compute; reflexivity).
  assert (Hcity : normalize_city (JStr "Pune") = Return "Pune")
    by (vm_compute; reflexivity).
  assert (Hdate : normalize_date (today w) (JStr "notadate")
                  = Raise (PyExn ValueError
                             (Some "Invalid date format. Use YYYY-MM-DD or today/tomorrow.")))
    by (vm_compute; reflexivity).
  destruct (X23_rejected_date_ends_the_turn w payload empty_state resp (snd first)
              args (JStr "Pune") (JStr "notadate") "Pune" _ H1 H2 eq_refl eq_refl
              Hcity Hdate) as (_ & Hc & _).
  rewrite Hc. reflexivity.
Defined.
